(** * RenameMedia: a shallow embedding of src/Rename.py

    The development follows the Python source: [RenameMedia] (the name
    normaliser and the rename planner / executor) and [IdentifyMedia]
    (result evaluation, confirmation and the manual entry loop).

    Python values are modelled as follows.
    - A [str] is a list of Unicode code points ([N]).
    - Catalog (JSON) values are the inductive [pyval].
    - A computation that may raise returns a [result].
    - The filesystem, the catalog client and the terminal are capabilities
      (type classes); the code threads an explicit run state through them.

    The client of src/tmdb_api.py itself is the module [tmdb_api], over
    the requests it sends. *)

From Stdlib Require Import List String Ascii ZArith NArith Bool Lia.
From Stdlib Require Import QArith Permutation.
From Stdlib Require DecimalString.
Import ListNotations.

Local Open Scope N_scope.
Local Open Scope list_scope.

(* ================================================================== *)
(** ** Python strings *)

Definition char := N.
Definition str := list char.

(** An ASCII literal as a Python string. *)
Definition lit (s : string) : str :=
  map N_of_ascii (list_ascii_of_string s).

Definition char_eqb (a b : char) : bool := N.eqb a b.

Fixpoint str_eqb (a b : str) : bool :=
  match a, b with
  | [], [] => true
  | x :: a', y :: b' => char_eqb x y && str_eqb a' b'
  | _, _ => false
  end.

(** [x in xs] for a list of strings. *)
Definition str_in (x : str) (xs : list str) : bool :=
  existsb (str_eqb x) xs.

(** [c in s] for one character. *)
Definition char_in (c : char) (s : str) : bool :=
  existsb (char_eqb c) s.

(** [s.replace(old, new)] where [old] is one character: every occurrence
    of [old] is replaced, left to right.  Every pattern the source passes
    to [replace] is a single character. *)
Definition replace (old : char) (new : str) (s : str) : str :=
  flat_map (fun c => if char_eqb c old then new else [c]) s.

(** [s.startswith(p)] *)
Fixpoint startswith (p s : str) : bool :=
  match p, s with
  | [], _ => true
  | x :: p', y :: s' => char_eqb x y && startswith p' s'
  | _ :: _, [] => false
  end.

(** [p in s] for strings: [p] occurs as a contiguous substring. *)
Fixpoint substring_in (p s : str) : bool :=
  startswith p s ||
  match s with
  | [] => false
  | _ :: s' => substring_in p s'
  end.

(** Named code points used by the source. *)
Definition ch_dquote : char := 34.
Definition ch_star : char := 42.
Definition ch_minus : char := 45.
Definition ch_dot : char := 46.
Definition ch_slash : char := 47.
Definition ch_colon : char := 58.
Definition ch_lt : char := 60.
Definition ch_gt : char := 62.
Definition ch_question : char := 63.
Definition ch_backslash : char := 92.
Definition ch_pipe : char := 124.

(** [str(n)] for an integer. *)
Definition str_of_Z (z : Z) : str :=
  lit (DecimalString.NilZero.string_of_int (Z.to_int z)).

(* ================================================================== *)
(** ** RenameMedia.remove_invalid_characters *)

(** [re.search(r"\.{1,}\?", name)]: somewhere in [name] a run of one or more
    dots is immediately followed by a question mark.
    [dots_then_question] is the state after one dot has been consumed. *)
Fixpoint dots_then_question (s : str) : bool :=
  match s with
  | [] => false
  | c :: rest =>
      if char_eqb c ch_dot then dots_then_question rest
      else char_eqb c ch_question
  end.

Fixpoint re_search_dots_question (s : str) : bool :=
  match s with
  | [] => false
  | c :: rest =>
      (char_eqb c ch_dot && dots_then_question rest)
      || re_search_dots_question rest
  end.

(** The dict [invalid_characters], in insertion order (the order in which
    the [for] loop visits its keys). *)
Definition invalid_characters : list (char * str) :=
  [ (ch_lt, []); (ch_gt, []); (ch_colon, lit " -"); (ch_dquote, []);
    (ch_slash, []); (ch_backslash, []); (ch_pipe, []);
    (ch_question, lit "."); (ch_star, []) ].

Definition invalid_filenames : list str :=
  map lit
    [ "AUX";
      "COM1"; "COM2"; "COM3"; "COM4"; "COM5"; "COM6"; "COM7"; "COM8"; "COM9";
      "CON";
      "LPT1"; "LPT2"; "LPT3"; "LPT4"; "LPT5"; "LPT6"; "LPT7"; "LPT8"; "LPT9";
      "NUL";
      "PRN" ]%string.

(** One iteration of the [for character in invalid_characters] loop. *)
Definition substitute_character (name : str) (entry : char * str) : str :=
  let (character, replacement) := entry in
  if negb (char_eqb character ch_question)
     || (char_eqb character ch_question
         && negb (re_search_dots_question name))
  then replace character replacement name
  else if char_eqb character ch_question
       then replace character [] name
       else name.

(** The whole loop: the name after every substitution. *)
Definition substitute_invalid_characters (name : str) : str :=
  fold_left substitute_character invalid_characters name.

Definition remove_invalid_characters (name : str) : str :=
  let name := substitute_invalid_characters name in
  if str_in name invalid_filenames then name ++ lit "." else name.

(** *** The normaliser as the specification words it

    the characters less-than, greater-than, double quote, slash, backslash,
    pipe and star are removed, the colon becomes a space and a dash, the
    question mark is removed entirely; a result equal to a reserved device
    name gets a trailing dot. *)
Definition removed_characters : str :=
  [ch_lt; ch_gt; ch_dquote; ch_slash; ch_backslash; ch_pipe; ch_star].

(** The character table with the replacement of [?] left open. *)
Definition char_substitute (question : str) (c : char) : str :=
  if char_in c removed_characters then []
  else if char_eqb c ch_colon then lit " -"
  else if char_eqb c ch_question then question
  else [c].

Definition append_dot_if_reserved (name : str) : str :=
  if str_in name invalid_filenames then name ++ lit "." else name.

Definition sanitize_spec (name : str) : str :=
  append_dot_if_reserved (flat_map (char_substitute []) name).

(** The name as the loop sees it when it reaches the key [?]: the seven
    keys before it have been substituted, [*] has not. *)
Definition name_before_question (name : str) : str :=
  fold_left substitute_character (firstn 7 invalid_characters) name.

(** What the code puts in place of every [?]. *)
Definition question_replacement (name : str) : str :=
  if re_search_dots_question (name_before_question name) then [] else lit ".".

Definition is_question_replacement (q : str) : Prop :=
  q = [] \/ q = lit ".".

(** The nine sequential [replace] calls, with [q] put in place of [?]. *)
Definition replace_all_keys (q : str) (s : str) : str :=
  replace ch_star []
    (replace ch_question q
      (replace ch_pipe []
        (replace ch_backslash []
          (replace ch_slash []
            (replace ch_dquote []
              (replace ch_colon (lit " -")
                (replace ch_gt []
                  (replace ch_lt [] s)))))))).

Definition keys : str := map fst invalid_characters.

(* ================================================================== *)
(** ** Exceptions, results and the state monad of a run *)

(** The exception classes the code can meet.  [KeyboardInterrupt] derives
    from [BaseException] only; all the others derive from [Exception].
    [FileNotFoundError], [FileExistsError] and [PermissionError] are
    subclasses of [OSError]; [UnicodeEncodeError] of [ValueError]. *)
Inductive exn :=
| KeyError | TypeError | ValueError | AttributeError | IndexError
| UnicodeEncodeError
| OSError | FileNotFoundError | FileExistsError | PermissionError
| EOFError | ConnectionError
| KeyboardInterrupt.

Definition is_UnicodeEncodeError (e : exn) : bool :=
  match e with UnicodeEncodeError => true | _ => false end.

Definition is_OSError (e : exn) : bool :=
  match e with
  | OSError | FileNotFoundError | FileExistsError | PermissionError
  | ConnectionError => true
  | _ => false
  end.

Definition is_Exception (e : exn) : bool :=
  match e with KeyboardInterrupt => false | _ => true end.

Inductive result (A : Type) :=
| Ok (a : A)
| Raise (e : exn).
Arguments Ok {A} a.
Arguments Raise {A} e.

(** A statement of the program: it reads and writes the run state [S] and
    either returns or raises; the state survives a raise. *)
Definition M (S A : Type) : Type := S -> result A * S.

Definition ret {S A} (a : A) : M S A := fun s => (Ok a, s).

Definition raise {S A} (e : exn) : M S A := fun s => (Raise e, s).

Definition bind {S A B} (c : M S A) (k : A -> M S B) : M S B :=
  fun s =>
    match c s with
    | (Ok a, s') => k a s'
    | (Raise e, s') => (Raise e, s')
    end.

Definition get {S} : M S S := fun s => (Ok s, s).

Definition modify {S} (f : S -> S) : M S unit := fun s => (Ok tt, f s).

(** A pure computation that may raise, run as a statement. *)
Definition lift {S A} (r : result A) : M S A := fun s => (r, s).

Declare Scope py_scope.
Delimit Scope py_scope with py.
Notation "x <- c ;; k" := (bind c (fun x => k))
  (at level 61, c at next level, right associativity) : py_scope.
Notation "c ;; k" := (bind c (fun _ => k))
  (at level 61, right associativity) : py_scope.

(** What one iteration of a loop body tells its loop. *)
Inductive control := Next | Break.

(** [for x in xs: body]; [continue] is a body that returns [Next] early,
    [break] one that returns [Break]. *)
Fixpoint for_each {S A} (xs : list A) (body : A -> M S control) : M S unit :=
  match xs with
  | [] => ret tt
  | x :: rest =>
      bind (body x) (fun c =>
        match c with
        | Next => for_each rest body
        | Break => ret tt
        end)
  end.

(** Pure results. *)
Definition rbind {A B} (r : result A) (k : A -> result B) : result B :=
  match r with
  | Ok a => k a
  | Raise e => Raise e
  end.

(* ================================================================== *)
(** ** Catalog values *)

Set Warnings "-register-all".

(** What [response.json()] returns. *)
Inductive pyval :=
| PNone
| PBool (b : bool)
| PInt (z : Z)
| PFloat (q : Q)
| PStr (s : str)
| PList (l : list pyval)
| PDict (d : list (str * pyval)).

Fixpoint dict_get (d : list (str * pyval)) (k : str) : option pyval :=
  match d with
  | [] => None
  | (k', v) :: rest => if str_eqb k k' then Some v else dict_get rest k
  end.

(** [bool(v)] *)
Definition truthy (v : pyval) : bool :=
  match v with
  | PNone => false
  | PBool b => b
  | PInt z => negb (Z.eqb z 0)
  | PFloat q => negb (Qeq_bool q 0)
  | PStr s => match s with [] => false | _ => true end
  | PList l => match l with [] => false | _ => true end
  | PDict d => match d with [] => false | _ => true end
  end.

(** [v == s] for a string [s]. *)
Definition eq_str (v : pyval) (s : str) : bool :=
  match v with
  | PStr s' => str_eqb s' s
  | _ => false
  end.

(** [v == n] for an integer [n]. *)
Definition eq_int (v : pyval) (n : Z) : bool :=
  match v with
  | PInt z => Z.eqb z n
  | PBool b => Z.eqb (if b then 1 else 0) n
  | PFloat q => Qeq_bool q (inject_Z n)
  | _ => false
  end.

(** [key in v] for a string [key]. *)
Definition contains (key : str) (v : pyval) : result bool :=
  match v with
  | PDict d => Ok (match dict_get d key with Some _ => true | None => false end)
  | PList l => Ok (existsb (fun x => eq_str x key) l)
  | PStr s => Ok (substring_in key s)
  | _ => Raise TypeError
  end.

(** [v[key]] for a string [key]. *)
Definition getitem (v : pyval) (key : str) : result pyval :=
  match v with
  | PDict d =>
      match dict_get d key with
      | Some x => Ok x
      | None => Raise KeyError
      end
  | _ => Raise TypeError
  end.

(** The items a [for] loop over [v] visits. *)
Definition iterate (v : pyval) : result (list pyval) :=
  match v with
  | PList l => Ok l
  | PDict d => Ok (map (fun kv => PStr (fst kv)) d)
  | PStr s => Ok (map (fun c => PStr [c]) s)
  | _ => Raise TypeError
  end.

(** [key in v and not v[key]] *)
Definition present_and_falsy (key : str) (v : pyval) : result bool :=
  rbind (contains key v) (fun present =>
    if present then rbind (getitem v key) (fun x => Ok (negb (truthy x)))
    else Ok false).

(** [key in v and v[key]], as a condition. *)
Definition present_and_truthy (key : str) (v : pyval) : result bool :=
  rbind (contains key v) (fun present =>
    if present then rbind (getitem v key) (fun x => Ok (truthy x))
    else Ok false).

(* ================================================================== *)
(** ** Terminal output *)

(** One [print] call writes one entry: literal text, the text [str(v)] of a
    catalog value, or the text [str(e)] of an exception. *)
Inductive piece :=
| Text (s : str)
| Str (v : pyval)
| Reason (e : exn).

Definition line := list piece.

(** The newline character inside a printed text. *)
Definition nl : str := [10].

(* ================================================================== *)
(** ** datetime.strptime(date, '%Y-%M-%d').year *)

(** An ASCII digit, as the classes [[0-5]], [[1-9]] and the like of a
    pattern read it. *)
Definition digit_value (c : char) : option Z :=
  if (48 <=? c) && (c <=? 57) then Some (Z.of_N (c - 48)) else None.

Definition is_digit (c : char) : bool :=
  match digit_value c with Some _ => true | None => false end.

Definition digit_between (lo hi : Z) (c : char) : bool :=
  match digit_value c with
  | Some d => (lo <=? d)%Z && (d <=? hi)%Z
  | None => false
  end.

(** The class [\d] of a pattern over [str], and the digits [int] reads:
    the decimal digits of Unicode.  They come in runs of ten, listed here
    by their zeros (Unicode 14, the table of Python 3.11). *)
Definition decimal_zeros : list char :=
  [48; 1632; 1776; 1984; 2406; 2534; 2662; 2790; 2918; 3046; 3174; 3302;
   3430; 3558; 3664; 3792; 3872; 4160; 4240; 6112; 6160; 6470; 6608; 6784;
   6800; 6992; 7088; 7232; 7248; 42528; 43216; 43264; 43472; 43504; 43600;
   44016; 65296; 66720; 68912; 69734; 69872; 69942; 70096; 70384; 70736;
   70864; 71248; 71360; 71472; 71904; 72016; 72784; 73040; 73120; 92768;
   92864; 93008; 120782; 120792; 120802; 120812; 120822; 123200; 123632;
   125264; 130032].

Definition decimal_value (c : char) : option Z :=
  match find (fun z => (z <=? c) && (c <=? z + 9)) decimal_zeros with
  | Some z => Some (Z.of_N (c - z))
  | None => None
  end.

Definition is_decimal (c : char) : bool :=
  match decimal_value c with Some _ => true | None => false end.

(** The directive [%M]: the pattern [[0-5]\d|\d].  Returns the rest of the
    string after the first alternative that matches. *)
Definition match_minute (s : str) : option str :=
  match s with
  | a :: b :: rest =>
      if digit_between 0 5 a && is_decimal b then Some rest
      else if is_decimal a then Some (b :: rest)
      else None
  | [a] => if is_decimal a then Some [] else None
  | [] => None
  end.

(** The directive [%d]: the pattern [3[0-1]|[1-2]\d|0[1-9]|[1-9]| [1-9]]. *)
Definition match_day (s : str) : option str :=
  match s with
  | a :: rest =>
      let two :=
        match rest with
        | b :: rest' =>
            if char_eqb a 51 && digit_between 0 1 b then Some rest'
            else if digit_between 1 2 a && is_decimal b then Some rest'
            else if char_eqb a 48 && digit_between 1 9 b then Some rest'
            else None
        | [] => None
        end in
      match two with
      | Some r => Some r
      | None =>
          if digit_between 1 9 a then Some rest
          else
            match rest with
            | b :: rest' =>
                if char_eqb a 32 && digit_between 1 9 b then Some rest'
                else None
            | [] => None
            end
      end
  | [] => None
  end.

(** The format [%Y-%M-%d] on a string: four digits, a dash, the minute, a
    dash, the day; the whole string must be consumed, and the year must be
    at least 1.  (The second field is parsed as a minute: the format has
    [%M], not [%m].) *)
Definition strptime_year_str (s : str) : result Z :=
  match s with
  | y1 :: y2 :: y3 :: y4 :: dash1 :: rest =>
      match decimal_value y1, decimal_value y2, decimal_value y3,
            decimal_value y4 with
      | Some a, Some b, Some c, Some d =>
          if char_eqb dash1 ch_minus then
            match match_minute rest with
            | Some (dash2 :: rest') =>
                if char_eqb dash2 ch_minus then
                  match match_day rest' with
                  | Some [] =>
                      let year := (1000 * a + 100 * b + 10 * c + d)%Z in
                      if (1 <=? year)%Z then Ok year else Raise ValueError
                  | _ => Raise ValueError
                  end
                else Raise ValueError
            | _ => Raise ValueError
            end
          else Raise ValueError
      | _, _, _, _ => Raise ValueError
      end
  | _ => Raise ValueError
  end.

(** [datetime.strptime(v, '%Y-%M-%d').year]: the first argument must be a
    string. *)
Definition strptime_year (v : pyval) : result Z :=
  match v with
  | PStr s => strptime_year_str s
  | _ => Raise TypeError
  end.

(** [re.search(rf".*{year}.*", text)]: the decimal text of the year occurs
    in [text]; [text] must be a string. *)
Definition re_search_year (year : Z) (text : pyval) : result bool :=
  match text with
  | PStr s => Ok (substring_in (str_of_Z year) s)
  | _ => Raise TypeError
  end.

(* ================================================================== *)
(** ** IdentifyMedia *)

Definition SUPPORTED_TYPES : list str := [lit "movie"; lit "tv"].

(** The attributes of an [IdentifyMedia] object.  ([type] is spelled
    [type_]: the Python name is a keyword here.) *)
Record IdentifyMedia := {
  item : str;
  id : pyval;
  name : pyval;
  year : pyval;
  type_ : pyval;
  identity : pyval;
  results : pyval;
  potential : list pyval;
  debug : bool
}.

(** The run state of an identification: the object, the lines the user
    will type, and what has been printed. *)
Record identify_state := {
  self : IdentifyMedia;
  stdin : list str;
  stdout : list line
}.

Definition ID := M identify_state.

Definition print (l : line) : ID unit :=
  modify (fun s => {| self := self s; stdin := stdin s;
                      stdout := stdout s ++ [l] |}).

Definition set_self (f : IdentifyMedia -> IdentifyMedia) : ID unit :=
  modify (fun s => {| self := f (self s); stdin := stdin s;
                      stdout := stdout s |}).

Definition set_potential (p : list pyval) (o : IdentifyMedia) : IdentifyMedia :=
  {| item := item o; id := id o; name := name o; year := year o;
     type_ := type_ o; identity := identity o; results := results o;
     potential := p; debug := debug o |}.

Definition get_self : ID IdentifyMedia :=
  fun s => (Ok (self s), s).

(** [result['media_type'] not in self.SUPPORTED_TYPES] *)
Definition not_supported (media_type : pyval) : bool :=
  negb (existsb (eq_str media_type) SUPPORTED_TYPES).

(** [a or b] on conditions that may raise: [b] is evaluated only when [a]
    is false. *)
Definition or_else (a b : result bool) : result bool :=
  rbind a (fun x => if x then Ok true else b).

Local Open Scope py_scope.

(** The body of the loop of [__evaluate_results] for one [result].  In the
    two filtering branches [continue] sits under [if self.debug], and it
    is the last statement of the iteration either way. *)
Definition evaluate_result (original_folder_name : pyval) (result : pyval)
  : ID control :=
  o <- get_self ;;
  media_type <- lift (getitem result (lit "media_type")) ;;
  if not_supported media_type then
    (if debug o
     then print [Text (lit "Result is not a supported type:" ++ nl);
                 Str result]
     else ret tt) ;;
    ret Next
  else
    no_name <- lift (or_else (present_and_falsy (lit "name") result)
                             (present_and_falsy (lit "title") result)) ;;
    if no_name then
      (if debug o
       then print [Text (lit "No name specified for result")]
       else ret tt) ;;
      ret Next
    else
      no_date <- lift (or_else
                         (present_and_falsy (lit "release_date") result)
                         (present_and_falsy (lit "first_air_date") result)) ;;
      if no_date then
        (if debug o
         then print [Text (lit "Unable to locate a release date for:" ++ nl);
                     Str result]
         else ret tt) ;;
        ret Next
      else
        has_release <- lift (present_and_truthy (lit "release_date") result) ;;
        year <-
          (if has_release then lift (getitem result (lit "release_date"))
           else
             has_air <- lift (present_and_truthy (lit "first_air_date")
                                                 result) ;;
             if has_air then lift (getitem result (lit "first_air_date"))
             else ret PNone) ;;
        (match year with
         | PNone => print [Str result]
         | _ => ret tt
         end) ;;
        year <- lift (strptime_year year) ;;
        found <- lift (re_search_year year original_folder_name) ;;
        (if found
         then set_self (fun o => set_potential (result :: potential o) o)
         else set_self (fun o => set_potential (potential o ++ [result]) o)) ;;
        ret Next.

(** [IdentifyMedia.__evaluate_results(self, results, original_folder_name)] *)
Definition evaluate_results (results : pyval) (original_folder_name : pyval)
  : ID unit :=
  has_results <- lift (contains (lit "results") results) ;;
  if has_results then
    set_self (set_potential []) ;;
    found <- lift (getitem results (lit "results")) ;;
    records <- lift (iterate found) ;;
    for_each records (evaluate_result original_folder_name)
  else ret tt.

(** A call of a method with two parameters besides [self]: the positional
    arguments are bound to the parameters, and a call with another number
    of arguments raises [TypeError] before the body runs. *)
Definition call2 {S A} (method : pyval -> pyval -> M S A) (args : list pyval)
  : M S A :=
  match args with
  | [a; b] => method a b
  | _ => raise TypeError
  end.

Local Close Scope py_scope.

(* ================================================================== *)
(** ** Result evaluation, described record by record *)

(** [key] is present in the record with a falsy value. *)
Definition falsy_at (d : list (str * pyval)) (key : str) : bool :=
  match dict_get d key with
  | Some v => negb (truthy v)
  | None => false
  end.

(** [key] is present in the record with a truthy value. *)
Definition truthy_at (d : list (str * pyval)) (key : str) : bool :=
  match dict_get d key with
  | Some v => truthy v
  | None => false
  end.

(** A survivor of the filter: a record of a supported media type that has
    no empty name or title and no empty release or first-air date. *)
Definition is_candidate (r : pyval) : bool :=
  match r with
  | PDict d =>
      match dict_get d (lit "media_type") with
      | Some media_type =>
          negb (not_supported media_type)
          && negb (falsy_at d (lit "name") || falsy_at d (lit "title"))
          && negb (falsy_at d (lit "release_date")
                   || falsy_at d (lit "first_air_date"))
      | None => false
      end
  | _ => false
  end.

(** The date of a record: its release date, else its first-air date. *)
Definition date_of (r : pyval) : pyval :=
  match r with
  | PDict d =>
      if truthy_at d (lit "release_date") then
        match dict_get d (lit "release_date") with
        | Some v => v
        | None => PNone
        end
      else if truthy_at d (lit "first_air_date") then
        match dict_get d (lit "first_air_date") with
        | Some v => v
        | None => PNone
        end
      else PNone
  | _ => PNone
  end.

(** The parsed release year of the record occurs in the folder name. *)
Definition year_in_name (folder : str) (r : pyval) : bool :=
  match strptime_year (date_of r) with
  | Ok y => substring_in (str_of_Z y) folder
  | Raise _ => false
  end.

(** A record the loop body gets through: a dict with a media type whose
    date, when the record survives the filter, parses. *)
Definition record_ok (r : pyval) : bool :=
  match r with
  | PDict d =>
      match dict_get d (lit "media_type") with
      | Some _ =>
          if is_candidate r then
            match strptime_year (date_of r) with
            | Ok _ => true
            | Raise _ => false
            end
          else true
      | None => false
      end
  | _ => false
  end.

(** The candidate list the code builds from the records [rs]. *)
Definition ranked (folder : str) (rs : list pyval) : list pyval :=
  let candidates := filter is_candidate rs in
  rev (filter (year_in_name folder) candidates)
  ++ filter (fun r => negb (year_in_name folder r)) candidates.

(** The candidate list as the claim of a stable ranking words it. *)
Definition ranked_stable (folder : str) (rs : list pyval) : list pyval :=
  let candidates := filter is_candidate rs in
  filter (year_in_name folder) candidates
  ++ filter (fun r => negb (year_in_name folder r)) candidates.

(** A fresh object, as [__init__] leaves it. *)
Definition init (item : str) (name year type_ : pyval) (debug : bool)
  : IdentifyMedia :=
  {| item := item; id := PNone; name := name; year := year; type_ := type_;
     identity := PNone; results := PList []; potential := []; debug := debug |}.

Definition start (o : IdentifyMedia) (typed : list str) : identify_state :=
  {| self := o; stdin := typed; stdout := [] |}.

(** Sample records. *)
Definition movie_record (id_ : Z) (title date : string) : pyval :=
  PDict [ (lit "id", PInt id_); (lit "media_type", PStr (lit "movie"));
          (lit "title", PStr (lit title));
          (lit "release_date", PStr (lit date)) ].

(** A record as the typed searches return it: without [media_type]. *)
Definition tv_search_record (id_ : Z) (name date : string) : pyval :=
  PDict [ (lit "id", PInt id_); (lit "name", PStr (lit name));
          (lit "first_air_date", PStr (lit date)) ].

Definition search_results (rs : list pyval) : pyval :=
  PDict [ (lit "page", PInt 1); (lit "results", PList rs) ].

(** What one iteration does to the candidate list. *)
Definition step_potential (folder : str) (r : pyval) (p : list pyval)
  : list pyval :=
  if is_candidate r then
    if year_in_name folder r then r :: p else p ++ [r]
  else p.

(* ================================================================== *)
(** ** More of the string library *)

(** [s.split(sep)] for a one-character separator: never empty. *)
Fixpoint split (sep : char) (s : str) : list str :=
  match s with
  | [] => [[]]
  | c :: rest =>
      if char_eqb c sep then [] :: split sep rest
      else
        match split sep rest with
        | [] => [[c]]
        | first :: others => (c :: first) :: others
        end
  end.

(** [sep.join(parts)] *)
Fixpoint join (sep : str) (parts : list str) : str :=
  match parts with
  | [] => []
  | [p] => p
  | p :: rest => p ++ sep ++ join sep rest
  end.

(** [s.endswith(c)] for one character. *)
Definition endswith_char (c : char) (s : str) : bool :=
  match rev s with
  | last :: _ => char_eqb last c
  | [] => false
  end.

Fixpoint drop_while (f : char -> bool) (s : str) : str :=
  match s with
  | [] => []
  | c :: rest => if f c then drop_while f rest else s
  end.

(** [s.rstrip(c)] for one character. *)
Definition rstrip_char (c : char) (s : str) : str :=
  rev (drop_while (fun x => char_eqb x c) (rev s)).

(* ================================================================== *)
(** ** os.path and pathlib, POSIX flavour *)

Definition sep : str := [ch_slash].

(** [os.path.join(a, b)] *)
Definition os_path_join (a b : str) : str :=
  if startswith sep b then b
  else if match a with [] => true | _ => endswith_char ch_slash a end
       then a ++ b
       else a ++ sep ++ b.

(** [(p[:i], p[i:])] with [i = p.rfind('/') + 1]. *)
Fixpoint split_after_last_sep (p : str) : str * str :=
  match p with
  | [] => ([], [])
  | c :: rest =>
      let (head, tail) := split_after_last_sep rest in
      if char_eqb c ch_slash then (c :: head, tail)
      else
        match head with
        | [] => ([], c :: tail)
        | _ => (c :: head, tail)
        end
  end.

(** [os.path.basename(p)] *)
Definition os_path_basename (p : str) : str :=
  snd (split_after_last_sep p).

(** [os.path.dirname(p)]: the head, without its trailing slashes unless it
    is made of slashes only. *)
Definition os_path_dirname (p : str) : str :=
  let head := fst (split_after_last_sep p) in
  if forallb (fun c => char_eqb c ch_slash) head then head
  else rstrip_char ch_slash head.

(** [posixpath.splitroot]: the root is one slash, or two when the path
    starts with exactly two. *)
Definition splitroot (p : str) : str * str :=
  match p with
  | a :: rest =>
      if char_eqb a ch_slash then
        match rest with
        | b :: rest' =>
            if char_eqb b ch_slash then
              match rest' with
              | c :: _ =>
                  if char_eqb c ch_slash then ([ch_slash], rest)
                  else ([ch_slash; ch_slash], rest')
              | [] => ([ch_slash; ch_slash], rest')
              end
            else ([ch_slash], rest)
        | [] => ([ch_slash], rest)
        end
      else ([], p)
  | [] => ([], p)
  end.

(** The root and the components of [Path(p)]: empty components and single
    dots are dropped. *)
Definition path_parse (p : str) : str * list str :=
  let (root, rel) := splitroot p in
  (root,
   filter (fun x => negb (str_eqb x []) && negb (str_eqb x [ch_dot]))
          (split ch_slash rel)).

(** The text of the path built from all parts of [Path(folder)] but the
    last: [parts[:-1]] unpacked into [Path] and turned into a [str]. *)
Definition path_without_last_part (folder : str) : str :=
  let (root, tail) := path_parse folder in
  match tail with
  | [] => lit "."
  | _ =>
      match root, removelast tail with
      | [], [] => lit "."
      | _, rest => root ++ join sep rest
      end
  end.

(* ================================================================== *)
(** ** The regular expressions of RenameMedia *)

(** [re.search("(720p|1080p|2160p)", s)]: the leftmost occurrence. *)
Fixpoint re_search_resolution (s : str) : option str :=
  if startswith (lit "720p") s then Some (lit "720p")
  else if startswith (lit "1080p") s then Some (lit "1080p")
  else if startswith (lit "2160p") s then Some (lit "2160p")
  else
    match s with
    | [] => None
    | _ :: rest => re_search_resolution rest
    end.

(** [int] of the two characters of a group [(\d{2})]. *)
Definition two_digits (a b : char) : option Z :=
  match decimal_value a, decimal_value b with
  | Some x, Some y => Some (10 * x + y)%Z
  | _, _ => None
  end.

(** The pattern [([sS](\d{2})[eE](\d{2}))] at the start of [s]. *)
Definition season_episode_here (s : str) : option (Z * Z) :=
  match s with
  | c1 :: d1 :: d2 :: c2 :: d3 :: d4 :: _ =>
      if (char_eqb c1 115 || char_eqb c1 83)
         && (char_eqb c2 101 || char_eqb c2 69)
      then
        match two_digits d1 d2, two_digits d3 d4 with
        | Some season, Some episode => Some (season, episode)
        | _, _ => None
        end
      else None
  | _ => None
  end.

(** [re.search(r"([sS](\d{2})[eE](\d{2}))", s)], with groups 2 and 3 as
    integers. *)
Fixpoint re_search_season_episode (s : str) : option (Z * Z) :=
  match season_episode_here s with
  | Some r => Some r
  | None =>
      match s with
      | [] => None
      | _ :: rest => re_search_season_episode rest
      end
  end.

(** The characters that are not literal in a regular expression. *)
Definition regex_special : str := lit "\^$.|?*+()[]{}".

Definition regex_literal (s : str) : bool :=
  forallb (fun c => negb (char_in c regex_special)) s.

(** The regular expression library, where the code builds a pattern from
    a file name: the substitution of the pattern [\.{extension}$] by the
    empty string in [file], for an extension with special characters,
    which the pattern does not escape. *)
Class RegexLibrary := {
  re_sub_special_extension : str -> str -> result str
}.

(** [re.sub] of the pattern [\.{extension}$] by the empty string in
    [file], where [extension] is [file.split(".")[-1]].  A literal
    extension after a dot is cut off
    together with the dot; a name without a dot is left alone. *)
Definition re_sub_extension `{RegexLibrary} (extension file : str)
  : result str :=
  if regex_literal extension then
    match split ch_dot file with
    | [_] => Ok file
    | parts => Ok (join [ch_dot] (removelast parts))
    end
  else re_sub_special_extension extension file.

(* ================================================================== *)
(** ** The collaborators of the core *)

(** The filesystem invoked by the core, on a state [W] of the disk.  The
    three mutating primitives return the new state or raise. *)
Class FileSystem (W : Type) := {
  os_path_isdir : W -> str -> bool;
  os_path_isfile : W -> str -> bool;
  os_path_exists : W -> str -> bool;
  os_listdir : W -> str -> result (list str);
  os_rename : W -> str -> str -> result W;
  os_mkdir : W -> str -> result W;
  os_makedirs : W -> str -> result W
}.

(** The catalog client (the [TMDB] object): the four requests the core
    sends.  Each returns the decoded response, or the error envelope with
    [status_code] and [response], or raises. *)
Class Catalog := {
  get_tv_season : pyval -> Z -> result pyval;
  search_tv : pyval -> pyval -> result pyval;
  search_movies : pyval -> pyval -> result pyval;
  search_multi : pyval -> result pyval
}.

(* ================================================================== *)
(** ** More operations on catalog values *)

(** [len(v)] *)
Definition py_len (v : pyval) : result Z :=
  match v with
  | PStr s => Ok (Z.of_nat (List.length s))
  | PList l => Ok (Z.of_nat (List.length l))
  | PDict d => Ok (Z.of_nat (List.length d))
  | _ => Raise TypeError
  end.

(** [xs[i]] on a sequence of length [n]: a negative index counts from the
    end. *)
Definition index_of (n : nat) (i : Z) : option nat :=
  let j := (if i <? 0 then i + Z.of_nat n else i)%Z in
  if (0 <=? j)%Z && (j <? Z.of_nat n)%Z then Some (Z.to_nat j) else None.

(** [v[i]] for an integer [i]. *)
Definition getitem_int (v : pyval) (i : Z) : result pyval :=
  match v with
  | PList l =>
      match index_of (List.length l) i with
      | Some j => match nth_error l j with
                  | Some x => Ok x
                  | None => Raise IndexError
                  end
      | None => Raise IndexError
      end
  | PStr s =>
      match index_of (List.length s) i with
      | Some j => match nth_error s j with
                  | Some c => Ok (PStr [c])
                  | None => Raise IndexError
                  end
      | None => Raise IndexError
      end
  | PDict _ => Raise KeyError
  | _ => Raise TypeError
  end.

(** [v.split("-")[0]]: only a string has [split]. *)
Definition split_dash_first (v : pyval) : result str :=
  match v with
  | PStr s => Ok (hd [] (split ch_minus s))
  | _ => Raise AttributeError
  end.

(** [remove_invalid_characters(v)] on a catalog value: the first
    [name.replace] needs a string. *)
Definition remove_invalid_characters_of (v : pyval) : result str :=
  match v with
  | PStr s => Ok (remove_invalid_characters s)
  | _ => Raise AttributeError
  end.

(* ================================================================== *)
(** ** RenameMedia *)

Definition INVALID_EXTENSIONS : list str :=
  [lit "dat"; lit "inf"; lit "pdx"; lit "txt"].

(** The attributes of a [RenameMedia] object besides the catalog client.
    ([debug] is spelled [rm_debug]: [IdentifyMedia] has the same name.) *)
Record RenameMedia := {
  rm_debug : bool;
  validate : bool
}.

Definition convert_int_to_str (number : Z) : str :=
  if (number <? 10)%Z then lit "0" ++ str_of_Z number
  else str_of_Z number.

(** The table of [__remove_unicode] (the same in both classes): en dash,
    right single quote, and the letter u with grave (twice), acute,
    circumflex and diaeresis. *)
Definition replacements : list (char * str) :=
  [ (8211, lit "-"); (8217, lit "'");
    (249, lit "u"); (249, lit "u"); (250, lit "u"); (251, lit "u");
    (252, lit "u") ].

Definition __remove_unicode (text : str) : str :=
  fold_left (fun text r => replace (fst r) (snd r) text) replacements text.

(** A mutating call issued to the filesystem. *)
Inductive fs_call :=
| CallRename (src dst : str)
| CallMkdir (path : str)
| CallMakedirs (path : str).

(** The run state of the renamer: the disk, the mutating calls issued so
    far (whether they succeeded or not) and what has been printed. *)
Record run_state (W : Type) := {
  disk : W;
  calls : list fs_call;
  printed : list line
}.
Arguments disk {W} r.
Arguments calls {W} r.
Arguments printed {W} r.

(** [f"{name} ({year})"] *)
Definition name_and_year (name : str) (year : Z) : str :=
  name ++ lit " (" ++ str_of_Z year ++ lit ")".

(** [f" [{resolution.group(0)}]" if resolution else ""] *)
Definition resolution_tag (found : option str) : str :=
  match found with
  | Some r => lit " [" ++ r ++ lit "]"
  | None => []
  end.

(** [file.split(".")[-1]] *)
Definition extension_of (file : str) : str :=
  last (split ch_dot file) [].

Section RenameMedia.

Context {W : Type} `{FS : FileSystem W} `{TMDB : Catalog}
        `{RE : RegexLibrary}.

Definition R := M (run_state W).

Local Open Scope py_scope.

Definition echo (l : line) : R unit :=
  modify (fun s => {| disk := disk s; calls := calls s;
                      printed := printed s ++ [l] |}).

(** A query of the disk. *)
Definition ask {A} (query : W -> A) : R A :=
  fun s => (Ok (query (disk s)), s).

Definition ask_result {A} (query : W -> result A) : R A :=
  fun s => (query (disk s), s).

(** A mutating call: it is recorded, then it changes the disk or raises. *)
Definition mutate (c : fs_call) (op : W -> result W) : R unit :=
  fun s =>
    let issued := calls s ++ [c] in
    match op (disk s) with
    | Ok w => (Ok tt, {| disk := w; calls := issued; printed := printed s |})
    | Raise e =>
        (Raise e, {| disk := disk s; calls := issued; printed := printed s |})
    end.

(** [try: body / except ...: handler]: [handler] says what to run for the
    exceptions it catches. *)
Definition try_except {A} (body : R A) (handler : exn -> option (R A))
  : R A :=
  fun s =>
    match body s with
    | (Ok a, s') => (Ok a, s')
    | (Raise e, s') =>
        match handler e with
        | Some recover => recover s'
        | None => (Raise e, s')
        end
    end.

Definition __rename (from_location to_location : str) : R unit :=
  let to_location := __remove_unicode to_location in
  try_except
    (mutate (CallRename from_location to_location)
            (fun w => os_rename w from_location to_location))
    (fun e =>
       if is_UnicodeEncodeError e then
         Some (echo [Text (lit "UnicodeEncodeError for " ++ to_location
                           ++ lit " For:" ++ nl ++ lit " ");
                     Reason e])
       else if is_OSError e then
         Some (echo [Text (lit "OSError for " ++ to_location
                           ++ lit " For:" ++ nl ++ lit " ");
                     Reason e])
       else if is_Exception e then
         Some (echo [Text (lit "Unable to rename " ++ from_location
                           ++ lit ":" ++ nl);
                     Reason e])
       else None).

Definition __rename_base_folder (self : RenameMedia)
  (folder name : str) (year : Z) : R (str * str) :=
  let media_folder_name := name_and_year name year in
  let new_folder_name :=
    os_path_join (path_without_last_part folder) media_folder_name ++ sep in
  echo [Text (lit "Renaming:" ++ nl ++ folder ++ nl ++ lit "to:" ++ nl
              ++ new_folder_name)] ;;
  target_exists <- ask (fun w => os_path_exists w new_folder_name) ;;
  (if negb target_exists && negb (validate self)
   then __rename folder new_folder_name
   else ret tt) ;;
  let folder := if negb (validate self) then new_folder_name else folder in
  ret (folder, media_folder_name).

Definition __get_resolution (item folder : str) : str :=
  let resolution := re_search_resolution item in
  let resolution :=
    match resolution with
    | Some r => Some r
    | None =>
        re_search_resolution (os_path_basename (os_path_dirname folder))
    end in
  resolution_tag resolution.

(** The enumeration of [show] for a directory: files directly inside, and
    the entries of each subdirectory joined to its name. *)
Fixpoint list_files (folder : str) (items : list str) : R (list str) :=
  match items with
  | [] => ret []
  | item :: rest =>
      let path := os_path_join folder item in
      is_file <- ask (fun w => os_path_isfile w path) ;;
      found <-
        (if is_file then ret [item]
         else
           is_dir <- ask (fun w => os_path_isdir w path) ;;
           if is_dir then
             subitems <- ask_result (fun w => os_listdir w path) ;;
             ret (map (fun subitem => os_path_join item subitem) subitems)
           else ret []) ;;
      others <- list_files folder rest ;;
      ret (found ++ others)
  end.

(** The body of the [for file in files] loop of [show]. *)
Definition show_file (self : RenameMedia) (id : pyval)
  (folder show_folder show_folder_name : str) (file : str) : R control :=
  let extension := extension_of file in
  if str_in extension INVALID_EXTENSIONS then ret Next
  else
    file_name <- lift (re_sub_extension extension file) ;;
    match re_search_season_episode file_name with
    | None => ret Next
    | Some (season, episode) =>
        let resolution := resolution_tag (re_search_resolution file_name) in
        season_info <- lift (get_tv_season id season) ;;
        not_found <-
          lift (rbind (contains (lit "status_code") season_info) (fun has =>
                  if has
                  then rbind (getitem season_info (lit "status_code"))
                             (fun code => Ok (eq_int code 404))
                  else Ok false)) ;;
        if not_found then
          echo [Text (lit "Requested season " ++ str_of_Z season
                      ++ lit " for id ");
                Str id; Text (lit " and got")] ;;
          response <- lift (getitem season_info (lit "response")) ;;
          echo [Str response] ;;
          ret Next
        else
          air_date <- lift (getitem season_info (lit "air_date")) ;;
          season_year <- lift (split_dash_first air_date) ;;
          episodes <- lift (getitem season_info (lit "episodes")) ;;
          count <- lift (py_len episodes) ;;
          if (count <? episode)%Z then
            echo [Text (lit "Episode S" ++ convert_int_to_str season
                        ++ lit "E" ++ convert_int_to_str episode
                        ++ lit " doesn't appear to exist, so skipping.")] ;;
            ret Next
          else
            entry <- lift (getitem_int episodes (episode - 1)) ;;
            raw_name <- lift (getitem entry (lit "name")) ;;
            episode_name <- lift (remove_invalid_characters_of raw_name) ;;
            let season_name :=
              remove_invalid_characters
                (if (season =? 0)%Z then lit "Specials"
                 else lit "Season " ++ str_of_Z season) in
            let season_folder_name :=
              season_name ++ lit " (" ++ season_year ++ lit ")"
              ++ resolution in
            let new_filename :=
              lit "S" ++ convert_int_to_str season
              ++ lit "E" ++ convert_int_to_str episode
              ++ lit " - " ++ episode_name ++ lit "." ++ extension in
            let season_folder := os_path_join show_folder season_folder_name in
            is_dir <- ask (fun w => os_path_isdir w season_folder) ;;
            (if negb is_dir then
               echo [Text (lit "Creating " ++ season_folder)] ;;
               if negb (validate self)
               then mutate (CallMakedirs season_folder)
                           (fun w => os_makedirs w season_folder)
               else ret tt
             else ret tt) ;;
            (if negb (validate self) then
               let source := file_name ++ lit "." ++ extension in
               let to_location := os_path_join season_folder new_filename in
               there <- ask (fun w =>
                               os_path_exists w
                                 (os_path_join show_folder source)) ;;
               let from_location :=
                 if negb there then os_path_join folder source
                 else os_path_join show_folder source in
               __rename from_location to_location
             else ret tt) ;;
            (if rm_debug self
             then echo [Text (show_folder_name ++ lit " " ++ season_folder_name
                              ++ lit " " ++ new_filename)]
             else ret tt) ;;
            ret Next
    end.

Definition show (self : RenameMedia) (item : str) (id : pyval)
  (show_name : str) (year : Z) : R unit :=
  let show_name := remove_invalid_characters show_name in
  is_dir <- ask (fun w => os_path_isdir w item) ;;
  prepared <-
    (if is_dir then
       let folder := item in
       items <- ask_result (fun w => os_listdir w folder) ;;
       files <- list_files folder items ;;
       renamed <- __rename_base_folder self folder show_name year ;;
       ret (folder, fst renamed, snd renamed, files)
     else
       let path := join sep (removelast (split ch_slash item)) in
       let file_name := last (split ch_slash item) [] in
       let show_folder_name := name_and_year show_name year in
       let show_folder := os_path_join path show_folder_name in
       (if negb (validate self) then
          is_dir <- ask (fun w => os_path_isdir w show_folder) ;;
          (if negb is_dir
           then mutate (CallMakedirs show_folder)
                       (fun w => os_makedirs w show_folder)
           else ret tt) ;;
          mutate (CallRename item (os_path_join show_folder file_name))
                 (fun w => os_rename w item
                             (os_path_join show_folder file_name))
        else ret tt) ;;
       ret (show_folder, show_folder, show_folder_name, [file_name])) ;;
  let '(folder, show_folder, show_folder_name, files) := prepared in
  for_each files (show_file self id folder show_folder show_folder_name).

(** The body of the [for file in os.listdir(folder)] loop of [movie]. *)
Definition movie_file (self : RenameMedia) (folder movie_folder_name : str)
  (file : str) : R control :=
  let extension := extension_of file in
  if str_in extension INVALID_EXTENSIONS then ret Next
  else
    file_name <- lift (re_sub_extension extension file) ;;
    let resolution := __get_resolution file_name folder in
    let movie_file_name :=
      movie_folder_name ++ resolution ++ lit "." ++ extension in
    echo [Text (lit "Renaming '" ++ file ++ lit "' to '" ++ movie_file_name
                ++ lit "'")] ;;
    (if negb (validate self)
     then __rename (os_path_join folder file)
                   (os_path_join folder movie_file_name)
     else ret tt) ;;
    ret Next.

Definition movie (self : RenameMedia) (item : str) (movie_name : str)
  (year : Z) : R unit :=
  let movie_name := remove_invalid_characters movie_name in
  echo [Text item] ;;
  echo [Text movie_name] ;;
  echo [Text (str_of_Z year)] ;;
  is_dir <- ask (fun w => os_path_isdir w item) ;;
  if is_dir then
    renamed <- __rename_base_folder self item movie_name year ;;
    let '(folder, movie_folder_name) := renamed in
    files <- ask_result (fun w => os_listdir w folder) ;;
    for_each files (movie_file self folder movie_folder_name)
  else
    let base_folder := os_path_dirname item in
    let original_name := os_path_basename item in
    let extension := extension_of item in
    let resolution := __get_resolution original_name [] in
    let folder_name := name_and_year movie_name year in
    let new_name := folder_name ++ resolution ++ lit "." ++ extension in
    let path := os_path_join base_folder folder_name in
    there <- ask (fun w => os_path_exists w path) ;;
    (if negb there && negb (validate self)
     then mutate (CallMkdir path) (fun w => os_mkdir w path)
     else ret tt) ;;
    let from_location := item in
    let to_location := os_path_join path new_name in
    echo [Text (lit "Renaming '" ++ from_location ++ lit "' to '"
                ++ to_location ++ lit "'")] ;;
    if negb (validate self)
    then __rename from_location to_location
    else ret tt.

Local Close Scope py_scope.

End RenameMedia.

(* ================================================================== *)
(** ** IdentifyMedia: confirmation and manual entry *)

(** [s.lower()].  The tables are those of Unicode 14, the version of
    Python 3.11.  A row of [lowercase_table] is a run of characters, every
    one or every second one of the run, with the lowercase of the first;
    the others follow at the same distance. *)
Definition lowercase_table : list (char * char * N * char) :=
  [ (65, 90, 1, 97); (192, 214, 1, 224); (216, 222, 1, 248); (256, 302, 2,
   257); (306, 310, 2, 307); (313, 327, 2, 314); (330, 374, 2, 331); (376,
   376, 1, 255); (377, 381, 2, 378); (385, 385, 1, 595); (386, 388, 2, 387);
   (390, 390, 1, 596); (391, 391, 1, 392); (393, 394, 1, 598); (395, 395, 1,
   396); (398, 398, 1, 477); (399, 399, 1, 601); (400, 400, 1, 603); (401,
   401, 1, 402); (403, 403, 1, 608); (404, 404, 1, 611); (406, 406, 1, 617);
   (407, 407, 1, 616); (408, 408, 1, 409); (412, 412, 1, 623); (413, 413, 1,
   626); (415, 415, 1, 629); (416, 420, 2, 417); (422, 422, 1, 640); (423,
   423, 1, 424); (425, 425, 1, 643); (428, 428, 1, 429); (430, 430, 1, 648);
   (431, 431, 1, 432); (433, 434, 1, 650); (435, 437, 2, 436); (439, 439, 1,
   658); (440, 440, 1, 441); (444, 444, 1, 445); (452, 452, 1, 454); (453,
   453, 1, 454); (455, 455, 1, 457); (456, 456, 1, 457); (458, 458, 1, 460);
   (459, 475, 2, 460); (478, 494, 2, 479); (497, 497, 1, 499); (498, 500, 2,
   499); (502, 502, 1, 405); (503, 503, 1, 447); (504, 542, 2, 505); (544,
   544, 1, 414); (546, 562, 2, 547); (570, 570, 1, 11365); (571, 571, 1,
   572); (573, 573, 1, 410); (574, 574, 1, 11366); (577, 577, 1, 578); (579,
   579, 1, 384); (580, 580, 1, 649); (581, 581, 1, 652); (582, 590, 2, 583);
   (880, 882, 2, 881); (886, 886, 1, 887); (895, 895, 1, 1011); (902, 902,
   1, 940); (904, 906, 1, 941); (908, 908, 1, 972); (910, 911, 1, 973);
   (913, 929, 1, 945); (932, 939, 1, 964); (975, 975, 1, 983); (984, 1006,
   2, 985); (1012, 1012, 1, 952); (1015, 1015, 1, 1016); (1017, 1017, 1,
   1010); (1018, 1018, 1, 1019); (1021, 1023, 1, 891); (1024, 1039, 1,
   1104); (1040, 1071, 1, 1072); (1120, 1152, 2, 1121); (1162, 1214, 2,
   1163); (1216, 1216, 1, 1231); (1217, 1229, 2, 1218); (1232, 1326, 2,
   1233); (1329, 1366, 1, 1377); (4256, 4293, 1, 11520); (4295, 4295, 1,
   11559); (4301, 4301, 1, 11565); (5024, 5103, 1, 43888); (5104, 5109, 1,
   5112); (7312, 7354, 1, 4304); (7357, 7359, 1, 4349); (7680, 7828, 2,
   7681); (7838, 7838, 1, 223); (7840, 7934, 2, 7841); (7944, 7951, 1,
   7936); (7960, 7965, 1, 7952); (7976, 7983, 1, 7968); (7992, 7999, 1,
   7984); (8008, 8013, 1, 8000); (8025, 8031, 2, 8017); (8040, 8047, 1,
   8032); (8072, 8079, 1, 8064); (8088, 8095, 1, 8080); (8104, 8111, 1,
   8096); (8120, 8121, 1, 8112); (8122, 8123, 1, 8048); (8124, 8124, 1,
   8115); (8136, 8139, 1, 8050); (8140, 8140, 1, 8131); (8152, 8153, 1,
   8144); (8154, 8155, 1, 8054); (8168, 8169, 1, 8160); (8170, 8171, 1,
   8058); (8172, 8172, 1, 8165); (8184, 8185, 1, 8056); (8186, 8187, 1,
   8060); (8188, 8188, 1, 8179); (8486, 8486, 1, 969); (8490, 8490, 1, 107);
   (8491, 8491, 1, 229); (8498, 8498, 1, 8526); (8544, 8559, 1, 8560);
   (8579, 8579, 1, 8580); (9398, 9423, 1, 9424); (11264, 11311, 1, 11312);
   (11360, 11360, 1, 11361); (11362, 11362, 1, 619); (11363, 11363, 1,
   7549); (11364, 11364, 1, 637); (11367, 11371, 2, 11368); (11373, 11373,
   1, 593); (11374, 11374, 1, 625); (11375, 11375, 1, 592); (11376, 11376,
   1, 594); (11378, 11378, 1, 11379); (11381, 11381, 1, 11382); (11390,
   11391, 1, 575); (11392, 11490, 2, 11393); (11499, 11501, 2, 11500);
   (11506, 11506, 1, 11507); (42560, 42604, 2, 42561); (42624, 42650, 2,
   42625); (42786, 42798, 2, 42787); (42802, 42862, 2, 42803); (42873,
   42875, 2, 42874); (42877, 42877, 1, 7545); (42878, 42886, 2, 42879);
   (42891, 42891, 1, 42892); (42893, 42893, 1, 613); (42896, 42898, 2,
   42897); (42902, 42920, 2, 42903); (42922, 42922, 1, 614); (42923, 42923,
   1, 604); (42924, 42924, 1, 609); (42925, 42925, 1, 620); (42926, 42926,
   1, 618); (42928, 42928, 1, 670); (42929, 42929, 1, 647); (42930, 42930,
   1, 669); (42931, 42931, 1, 43859); (42932, 42946, 2, 42933); (42948,
   42948, 1, 42900); (42949, 42949, 1, 642); (42950, 42950, 1, 7566);
   (42951, 42953, 2, 42952); (42960, 42960, 1, 42961); (42966, 42968, 2,
   42967); (42997, 42997, 1, 42998); (65313, 65338, 1, 65345); (66560,
   66599, 1, 66600); (66736, 66771, 1, 66776); (66928, 66938, 1, 66967);
   (66940, 66954, 1, 66979); (66956, 66962, 1, 66995); (66964, 66965, 1,
   67003); (68736, 68786, 1, 68800); (71840, 71871, 1, 71872); (93760,
   93791, 1, 93792); (125184, 125217, 1, 125218)].

(** The characters with the property Cased. *)
Definition cased_table : list (char * char) :=
  [(65, 90); (97, 122); (170, 170); (181, 181); (186, 186); (192, 214);
   (216, 246); (248, 442); (444, 447); (452, 659); (661, 696); (704, 705);
   (736, 740); (837, 837); (880, 883); (886, 887); (890, 893); (895, 895);
   (902, 902); (904, 906); (908, 908); (910, 929); (931, 1013); (1015,
   1153); (1162, 1327); (1329, 1366); (1376, 1416); (4256, 4293); (4295,
   4295); (4301, 4301); (4304, 4346); (4349, 4351); (5024, 5109); (5112,
   5117); (7296, 7304); (7312, 7354); (7357, 7359); (7424, 7615); (7680,
   7957); (7960, 7965); (7968, 8005); (8008, 8013); (8016, 8023); (8025,
   8025); (8027, 8027); (8029, 8029); (8031, 8061); (8064, 8116); (8118,
   8124); (8126, 8126); (8130, 8132); (8134, 8140); (8144, 8147); (8150,
   8155); (8160, 8172); (8178, 8180); (8182, 8188); (8305, 8305); (8319,
   8319); (8336, 8348); (8450, 8450); (8455, 8455); (8458, 8467); (8469,
   8469); (8473, 8477); (8484, 8484); (8486, 8486); (8488, 8488); (8490,
   8493); (8495, 8500); (8505, 8505); (8508, 8511); (8517, 8521); (8526,
   8526); (8544, 8575); (8579, 8580); (9398, 9449); (11264, 11492); (11499,
   11502); (11506, 11507); (11520, 11557); (11559, 11559); (11565, 11565);
   (42560, 42605); (42624, 42653); (42786, 42887); (42891, 42894); (42896,
   42954); (42960, 42961); (42963, 42963); (42965, 42969); (42997, 42998);
   (43000, 43002); (43824, 43866); (43868, 43880); (43888, 43967); (64256,
   64262); (64275, 64279); (65313, 65338); (65345, 65370); (66560, 66639);
   (66736, 66771); (66776, 66811); (66928, 66938); (66940, 66954); (66956,
   66962); (66964, 66965); (66967, 66977); (66979, 66993); (66995, 67001);
   (67003, 67004); (67456, 67456); (67459, 67461); (67463, 67504); (67506,
   67514); (68736, 68786); (68800, 68850); (71840, 71903); (93760, 93823);
   (119808, 119892); (119894, 119964); (119966, 119967); (119970, 119970);
   (119973, 119974); (119977, 119980); (119982, 119993); (119995, 119995);
   (119997, 120003); (120005, 120069); (120071, 120074); (120077, 120084);
   (120086, 120092); (120094, 120121); (120123, 120126); (120128, 120132);
   (120134, 120134); (120138, 120144); (120146, 120485); (120488, 120512);
   (120514, 120538); (120540, 120570); (120572, 120596); (120598, 120628);
   (120630, 120654); (120656, 120686); (120688, 120712); (120714, 120744);
   (120746, 120770); (120772, 120779); (122624, 122633); (122635, 122654);
   (125184, 125251); (127280, 127305); (127312, 127337); (127344, 127369)].

(** The characters with the property Case_Ignorable. *)
Definition case_ignorable_table : list (char * char) :=
  [(39, 39); (46, 46); (58, 58); (94, 94); (96, 96); (168, 168); (173, 173);
   (175, 175); (180, 180); (183, 184); (688, 879); (884, 885); (890, 890);
   (900, 901); (903, 903); (1155, 1161); (1369, 1369); (1375, 1375); (1425,
   1469); (1471, 1471); (1473, 1474); (1476, 1477); (1479, 1479); (1524,
   1524); (1536, 1541); (1552, 1562); (1564, 1564); (1600, 1600); (1611,
   1631); (1648, 1648); (1750, 1757); (1759, 1768); (1770, 1773); (1807,
   1807); (1809, 1809); (1840, 1866); (1958, 1968); (2027, 2037); (2042,
   2042); (2045, 2045); (2070, 2093); (2137, 2139); (2184, 2184); (2192,
   2193); (2200, 2207); (2249, 2306); (2362, 2362); (2364, 2364); (2369,
   2376); (2381, 2381); (2385, 2391); (2402, 2403); (2417, 2417); (2433,
   2433); (2492, 2492); (2497, 2500); (2509, 2509); (2530, 2531); (2558,
   2558); (2561, 2562); (2620, 2620); (2625, 2626); (2631, 2632); (2635,
   2637); (2641, 2641); (2672, 2673); (2677, 2677); (2689, 2690); (2748,
   2748); (2753, 2757); (2759, 2760); (2765, 2765); (2786, 2787); (2810,
   2815); (2817, 2817); (2876, 2876); (2879, 2879); (2881, 2884); (2893,
   2893); (2901, 2902); (2914, 2915); (2946, 2946); (3008, 3008); (3021,
   3021); (3072, 3072); (3076, 3076); (3132, 3132); (3134, 3136); (3142,
   3144); (3146, 3149); (3157, 3158); (3170, 3171); (3201, 3201); (3260,
   3260); (3263, 3263); (3270, 3270); (3276, 3277); (3298, 3299); (3328,
   3329); (3387, 3388); (3393, 3396); (3405, 3405); (3426, 3427); (3457,
   3457); (3530, 3530); (3538, 3540); (3542, 3542); (3633, 3633); (3636,
   3642); (3654, 3662); (3761, 3761); (3764, 3772); (3782, 3782); (3784,
   3789); (3864, 3865); (3893, 3893); (3895, 3895); (3897, 3897); (3953,
   3966); (3968, 3972); (3974, 3975); (3981, 3991); (3993, 4028); (4038,
   4038); (4141, 4144); (4146, 4151); (4153, 4154); (4157, 4158); (4184,
   4185); (4190, 4192); (4209, 4212); (4226, 4226); (4229, 4230); (4237,
   4237); (4253, 4253); (4348, 4348); (4957, 4959); (5906, 5908); (5938,
   5939); (5970, 5971); (6002, 6003); (6068, 6069); (6071, 6077); (6086,
   6086); (6089, 6099); (6103, 6103); (6109, 6109); (6155, 6159); (6211,
   6211); (6277, 6278); (6313, 6313); (6432, 6434); (6439, 6440); (6450,
   6450); (6457, 6459); (6679, 6680); (6683, 6683); (6742, 6742); (6744,
   6750); (6752, 6752); (6754, 6754); (6757, 6764); (6771, 6780); (6783,
   6783); (6823, 6823); (6832, 6862); (6912, 6915); (6964, 6964); (6966,
   6970); (6972, 6972); (6978, 6978); (7019, 7027); (7040, 7041); (7074,
   7077); (7080, 7081); (7083, 7085); (7142, 7142); (7144, 7145); (7149,
   7149); (7151, 7153); (7212, 7219); (7222, 7223); (7288, 7293); (7376,
   7378); (7380, 7392); (7394, 7400); (7405, 7405); (7412, 7412); (7416,
   7417); (7468, 7530); (7544, 7544); (7579, 7679); (8125, 8125); (8127,
   8129); (8141, 8143); (8157, 8159); (8173, 8175); (8189, 8190); (8203,
   8207); (8216, 8217); (8228, 8228); (8231, 8231); (8234, 8238); (8288,
   8292); (8294, 8303); (8305, 8305); (8319, 8319); (8336, 8348); (8400,
   8432); (11388, 11389); (11503, 11505); (11631, 11631); (11647, 11647);
   (11744, 11775); (11823, 11823); (12293, 12293); (12330, 12333); (12337,
   12341); (12347, 12347); (12441, 12446); (12540, 12542); (40981, 40981);
   (42232, 42237); (42508, 42508); (42607, 42610); (42612, 42621); (42623,
   42623); (42652, 42655); (42736, 42737); (42752, 42785); (42864, 42864);
   (42888, 42890); (42994, 42996); (43000, 43001); (43010, 43010); (43014,
   43014); (43019, 43019); (43045, 43046); (43052, 43052); (43204, 43205);
   (43232, 43249); (43263, 43263); (43302, 43309); (43335, 43345); (43392,
   43394); (43443, 43443); (43446, 43449); (43452, 43453); (43471, 43471);
   (43493, 43494); (43561, 43566); (43569, 43570); (43573, 43574); (43587,
   43587); (43596, 43596); (43632, 43632); (43644, 43644); (43696, 43696);
   (43698, 43700); (43703, 43704); (43710, 43711); (43713, 43713); (43741,
   43741); (43756, 43757); (43763, 43764); (43766, 43766); (43867, 43871);
   (43881, 43883); (44005, 44005); (44008, 44008); (44013, 44013); (64286,
   64286); (64434, 64450); (65024, 65039); (65043, 65043); (65056, 65071);
   (65106, 65106); (65109, 65109); (65279, 65279); (65287, 65287); (65294,
   65294); (65306, 65306); (65342, 65342); (65344, 65344); (65392, 65392);
   (65438, 65439); (65507, 65507); (65529, 65531); (66045, 66045); (66272,
   66272); (66422, 66426); (67456, 67461); (67463, 67504); (67506, 67514);
   (68097, 68099); (68101, 68102); (68108, 68111); (68152, 68154); (68159,
   68159); (68325, 68326); (68900, 68903); (69291, 69292); (69446, 69456);
   (69506, 69509); (69633, 69633); (69688, 69702); (69744, 69744); (69747,
   69748); (69759, 69761); (69811, 69814); (69817, 69818); (69821, 69821);
   (69826, 69826); (69837, 69837); (69888, 69890); (69927, 69931); (69933,
   69940); (70003, 70003); (70016, 70017); (70070, 70078); (70089, 70092);
   (70095, 70095); (70191, 70193); (70196, 70196); (70198, 70199); (70206,
   70206); (70367, 70367); (70371, 70378); (70400, 70401); (70459, 70460);
   (70464, 70464); (70502, 70508); (70512, 70516); (70712, 70719); (70722,
   70724); (70726, 70726); (70750, 70750); (70835, 70840); (70842, 70842);
   (70847, 70848); (70850, 70851); (71090, 71093); (71100, 71101); (71103,
   71104); (71132, 71133); (71219, 71226); (71229, 71229); (71231, 71232);
   (71339, 71339); (71341, 71341); (71344, 71349); (71351, 71351); (71453,
   71455); (71458, 71461); (71463, 71467); (71727, 71735); (71737, 71738);
   (71995, 71996); (71998, 71998); (72003, 72003); (72148, 72151); (72154,
   72155); (72160, 72160); (72193, 72202); (72243, 72248); (72251, 72254);
   (72263, 72263); (72273, 72278); (72281, 72283); (72330, 72342); (72344,
   72345); (72752, 72758); (72760, 72765); (72767, 72767); (72850, 72871);
   (72874, 72880); (72882, 72883); (72885, 72886); (73009, 73014); (73018,
   73018); (73020, 73021); (73023, 73029); (73031, 73031); (73104, 73105);
   (73109, 73109); (73111, 73111); (73459, 73460); (78896, 78904); (92912,
   92916); (92976, 92982); (92992, 92995); (94031, 94031); (94095, 94111);
   (94176, 94177); (94179, 94180); (110576, 110579); (110581, 110587);
   (110589, 110590); (113821, 113822); (113824, 113827); (118528, 118573);
   (118576, 118598); (119143, 119145); (119155, 119170); (119173, 119179);
   (119210, 119213); (119362, 119364); (121344, 121398); (121403, 121452);
   (121461, 121461); (121476, 121476); (121499, 121503); (121505, 121519);
   (122880, 122886); (122888, 122904); (122907, 122913); (122915, 122916);
   (122918, 122922); (123184, 123197); (123566, 123566); (123628, 123631);
   (125136, 125142); (125252, 125259); (127995, 127999); (917505, 917505);
   (917536, 917631); (917760, 917999)].

Definition in_table (c : char) (table : list (char * char)) : bool :=
  existsb (fun r => (fst r <=? c) && (c <=? snd r)) table.

Definition is_cased (c : char) : bool := in_table c cased_table.

Definition is_case_ignorable (c : char) : bool :=
  in_table c case_ignorable_table.

(** The lowercase of one character out of context: the capital I with a
    dot above gives two characters. *)
Definition to_lower (c : char) : str :=
  if c =? 304 then [105; 775]
  else
    match find (fun r => let '(first, last, step, _) := r in
                         (first <=? c) && (c <=? last)
                         && ((c - first) mod step =? 0))
               lowercase_table with
    | Some (first, _, _, low) => [low + (c - first)]
    | None => [c]
    end.

(** The first character of [s] that is not case-ignorable is cased. *)
Fixpoint cased_ahead (s : str) : bool :=
  match s with
  | [] => false
  | c :: rest => if is_case_ignorable c then cased_ahead rest else is_cased c
  end.

(** The capital sigma becomes the final small sigma when a cased letter
    comes before it and none after it, case-ignorable characters aside;
    [cased_before] says whether the last character so far that is not
    case-ignorable was cased. *)
Fixpoint lower_after (cased_before : bool) (s : str) : str :=
  match s with
  | [] => []
  | c :: rest =>
      (if c =? 931
       then [if cased_before && negb (cased_ahead rest) then 962 else 963]
       else to_lower c)
      ++ lower_after (if is_case_ignorable c then cased_before
                      else is_cased c) rest
  end.

Definition lower (s : str) : str := lower_after false s.

(** [re.search(r'^\d{4}$', s)]: four digits, and nothing else but an
    optional final newline.  Returns [int(s)]. *)
Definition four_digit_year (s : str) : option Z :=
  match s with
  | y1 :: y2 :: y3 :: y4 :: rest =>
      match decimal_value y1, decimal_value y2, decimal_value y3,
            decimal_value y4 with
      | Some a, Some b, Some c, Some d =>
          if str_eqb rest [] || str_eqb rest nl
          then Some (1000 * a + 100 * b + 10 * c + d)%Z
          else None
      | _, _, _, _ => None
      end
  | _ => None
  end.

Definition quoted (s : str) : str := [ch_dquote] ++ s ++ [ch_dquote].

Section IdentifyMedia.

Context `{TMDB : Catalog}.

Local Open Scope py_scope.

Definition set_stdin (typed : list str) : ID unit :=
  modify (fun s => {| self := self s; stdin := typed; stdout := stdout s |}).

Definition get_stdin : ID (list str) :=
  fun s => (Ok (stdin s), s).

(** A [while] loop that calls [input] once per iteration, over the lines
    [typed] that are left to read.  [before] runs ahead of the call and
    gives the prompt; [check] gets the line read and returns the value the
    loop ends with, or nothing to go round again.  With no line left,
    [input] raises [EOFError]. *)
Fixpoint prompt_until {A B} (before : ID B) (prompt : B -> ID line)
  (check : B -> str -> ID (option A)) (typed : list str) : ID A :=
  match typed with
  | [] =>
      b <- before ;;
      p <- prompt b ;;
      print p ;;
      raise EOFError
  | answer :: rest =>
      b <- before ;;
      p <- prompt b ;;
      print p ;;
      set_stdin rest ;;
      r <- check b answer ;;
      match r with
      | Some a => ret a
      | None => prompt_until before prompt check rest
      end
  end.

Definition set_identity (v : pyval) (o : IdentifyMedia) : IdentifyMedia :=
  {| item := item o; id := id o; name := name o; year := year o;
     type_ := type_ o; identity := v; results := results o;
     potential := potential o; debug := debug o |}.

Definition set_id (v : pyval) (o : IdentifyMedia) : IdentifyMedia :=
  {| item := item o; id := v; name := name o; year := year o;
     type_ := type_ o; identity := identity o; results := results o;
     potential := potential o; debug := debug o |}.

Definition set_name (v : pyval) (o : IdentifyMedia) : IdentifyMedia :=
  {| item := item o; id := id o; name := v; year := year o;
     type_ := type_ o; identity := identity o; results := results o;
     potential := potential o; debug := debug o |}.

Definition set_year (v : pyval) (o : IdentifyMedia) : IdentifyMedia :=
  {| item := item o; id := id o; name := name o; year := v;
     type_ := type_ o; identity := identity o; results := results o;
     potential := potential o; debug := debug o |}.

Definition set_type (v : pyval) (o : IdentifyMedia) : IdentifyMedia :=
  {| item := item o; id := id o; name := name o; year := year o;
     type_ := v; identity := identity o; results := results o;
     potential := potential o; debug := debug o |}.

Definition set_results (v : pyval) (o : IdentifyMedia) : IdentifyMedia :=
  {| item := item o; id := id o; name := name o; year := year o;
     type_ := type_ o; identity := identity o; results := v;
     potential := potential o; debug := debug o |}.

(** [self.__remove_unicode(v)]: the first [text.replace] needs a string. *)
Definition remove_unicode_of (v : pyval) : result str :=
  match v with
  | PStr s => Ok (__remove_unicode s)
  | _ => Raise AttributeError
  end.

(** [('media_type' in result and result['media_type'] == kind)
     or self.type == kind] *)
Definition is_kind (o : IdentifyMedia) (record : pyval) (kind : str)
  : result bool :=
  or_else
    (rbind (contains (lit "media_type") record) (fun has =>
       if has
       then rbind (getitem record (lit "media_type"))
                  (fun v => Ok (eq_str v kind))
       else Ok false))
    (Ok (eq_str (type_ o) kind)).

Definition is_none (v : pyval) : bool :=
  match v with PNone => true | _ => false end.

(** The body of the loop of [confirm_identity] for one [result]. *)
Definition confirm_result (result : pyval) : ID control :=
  o <- get_self ;;
  tv <- lift (is_kind o result (lit "tv")) ;;
  fields <-
    (if tv then ret (Some (lit "first_air_date", lit "name"))
     else
       is_movie <- lift (is_kind o result (lit "movie")) ;;
       if is_movie then ret (Some (lit "release_date", lit "title"))
       else
         (if debug o then
            media_type <- lift (getitem result (lit "media_type")) ;;
            print [Text (lit "Unsupported media type: "); Str media_type]
          else ret tt) ;;
         ret None) ;;
  match fields with
  | None => ret Next
  | Some (date, name_key) =>
      typed <- get_stdin ;;
      answer <-
        prompt_until
          (print [Text (nl ++ lit "For " ++ quoted (item o))] ;;
           raw <- lift (getitem result name_key) ;;
           lift (remove_unicode_of raw))
          (fun title =>
             date_value <- lift (getitem result date) ;;
             shown_type <-
               (if is_none (type_ o)
                then lift (getitem result (lit "media_type"))
                else ret (type_ o)) ;;
             ret [Text (lit "Is " ++ quoted title ++ lit " " ++ [ch_dquote]);
                  Str date_value;
                  Text ([ch_dquote] ++ lit " " ++ [ch_dquote]);
                  Str shown_type;
                  Text ([ch_dquote] ++ lit " correct? ")])
          (fun title response =>
             if negb (str_in (lower response) [lit "y"; lit "n"; lit "s"])
             then print [Text (lit "Invlaid response of " ++ response)] ;;
                  ret None
             else ret (Some (title, lower response)))
          typed ;;
      let '(title, response) := answer in
      if str_eqb response (lit "n") then ret Next
      else if str_eqb response (lit "s") then
        print [Text (lit "Skipping")] ;;
        ret Break
      else
        set_self (set_identity result) ;;
        found_id <- lift (getitem result (lit "id")) ;;
        set_self (set_id found_id) ;;
        set_self (set_name (PStr title)) ;;
        date_value <- lift (getitem result date) ;;
        parsed <- lift (strptime_year date_value) ;;
        set_self (set_year (PInt parsed)) ;;
        (if is_none (type_ o) then
           media_type <- lift (getitem result (lit "media_type")) ;;
           set_self (set_type media_type)
         else ret tt) ;;
        ret Break
  end.

Definition confirm_identity : ID unit :=
  o <- get_self ;;
  for_each (potential o) confirm_result.

(** [search_media(self, potential_name)]: returns [(results, name)]. *)
Definition search_media (potential_name : pyval) : ID (pyval * pyval) :=
  o <- get_self ;;
  let name := if truthy (name o) then name o else potential_name in
  (if debug o
   then print [Text (lit "Searching for "); Str name]
   else ret tt) ;;
  results <-
    (if eq_str (type_ o) (lit "tv") then lift (search_tv name (year o))
     else if eq_str (type_ o) (lit "movie")
          then lift (search_movies name (year o))
          else lift (search_multi name)) ;;
  ret (results, name).

(** One pass of the [while not self.identity] loop at the end of
    [identify]. *)
Definition manual_entry_pass : ID unit :=
  o <- get_self ;;
  print [Text (nl ++ lit "No identity could be located the following: "
               ++ item o)] ;;
  print [Text (lit "So the following informaiton is required:")] ;;
  typed <- get_stdin ;;
  title <- prompt_until (ret tt)
             (fun _ => ret [Text (lit "What is the title of the media? ")])
             (fun _ answer => ret (Some answer)) typed ;;
  set_self (set_name (PStr title)) ;;
  set_self (set_year PNone) ;;
  typed <- get_stdin ;;
  year <- prompt_until (ret tt)
            (fun _ => ret [Text (lit "What is the year of release? ")])
            (fun _ answer =>
               match four_digit_year answer with
               | Some y => ret (Some y)
               | None =>
                   print [Text (lit "Year should be an integer.")] ;;
                   ret None
               end) typed ;;
  set_self (set_year (PInt year)) ;;
  set_self (set_type PNone) ;;
  typed <- get_stdin ;;
  kind <- prompt_until (ret tt)
            (fun _ =>
               ret [Text (lit "What type of media is it (tv/movie)? ")])
            (fun _ answer =>
               if str_in (lower (lower answer)) SUPPORTED_TYPES
               then ret (Some (lower (lower answer)))
               else
                 print [Text (lit "Type should be one of "
                              ++ join (lit "/") SUPPORTED_TYPES
                              ++ lit ".")] ;;
                 ret None) typed ;;
  set_self (set_type (PStr kind)) ;;
  o <- get_self ;;
  found <- search_media (name o) ;;
  let '(results, _) := found in
  if truthy results then
    call2 evaluate_results [results] ;;
    confirm_identity ;;
    o <- get_self ;;
    if truthy (identity o) then set_self (set_results results) else ret tt
  else ret tt.

(** The loop [while not self.identity] at the end of [identify].  Every
    pass reads at least one line or raises, so a [fuel] of one more than
    the number of lines left to read is never spent: with no line left the
    first [input] of a pass raises [EOFError]. *)
Fixpoint manual_entry_loop (fuel : nat) : ID unit :=
  o <- get_self ;;
  if truthy (identity o) then ret tt
  else
    match fuel with
    | O => raise EOFError
    | S fuel' => manual_entry_pass ;; manual_entry_loop fuel'
    end.

Definition manual_entry : ID unit :=
  typed <- get_stdin ;;
  manual_entry_loop (S (List.length typed)).

Local Close Scope py_scope.

End IdentifyMedia.

(* ================================================================== *)
(** ** A small filesystem, catalog and regex library to run the code on *)

(** A path as [Path] parses it: the root and the components. *)
Definition node := (str * list str)%type.

Definition node_eqb (a b : node) : bool :=
  str_eqb (fst a) (fst b)
  && (Nat.eqb (List.length (snd a)) (List.length (snd b))
      && forallb (fun xy => str_eqb (fst xy) (snd xy))
                 (combine (snd a) (snd b))).

(** [a] is [b] or lies under [b]. *)
Definition node_under (a b : node) : bool :=
  node_eqb (fst a, firstn (List.length (snd b)) (snd a)) b.

Definition node_parent (a : node) : node := (fst a, removelast (snd a)).

(** The disk: the files ([false]) and directories ([true]) that exist, and
    the directories under which nothing may be changed.  The root and the
    current directory always exist. *)
Record small_disk := {
  nodes : list (node * bool);
  read_only : list node
}.

Fixpoint sd_lookup (l : list (node * bool)) (k : node) : option bool :=
  match l with
  | [] => None
  | (k', d) :: rest => if node_eqb k k' then Some d else sd_lookup rest k
  end.

Definition sd_kind (w : small_disk) (k : node) : option bool :=
  match snd k with
  | [] => Some true
  | _ => sd_lookup (nodes w) k
  end.

Definition sd_isdir (w : small_disk) (p : str) : bool :=
  match sd_kind w (path_parse p) with Some true => true | _ => false end.

Definition sd_isfile (w : small_disk) (p : str) : bool :=
  match sd_kind w (path_parse p) with Some false => true | _ => false end.

Definition sd_exists (w : small_disk) (p : str) : bool :=
  match sd_kind w (path_parse p) with Some _ => true | None => false end.

Definition sd_listdir (w : small_disk) (p : str) : result (list str) :=
  if sd_isdir w p then
    let k := path_parse p in
    Ok (flat_map
          (fun e : node * bool =>
             let n := fst e in
             if node_eqb (node_parent n) k
                && negb (Nat.eqb (List.length (snd n)) 0)
             then [last (snd n) []] else [])
          (nodes w))
  else Raise FileNotFoundError.

Definition sd_locked (w : small_disk) (k : node) : bool :=
  existsb (node_under k) (read_only w).

Definition sd_remove (l : list (node * bool)) (k : node)
  : list (node * bool) :=
  filter (fun e => negb (node_eqb (fst e) k)) l.

(** [os.rename]: the source must exist, the directory of the target must
    exist, neither may be read-only; a file may replace a file; what lies
    under the source moves with it. *)
Definition sd_rename (w : small_disk) (src dst : str) : result small_disk :=
  let a := path_parse src in
  let b := path_parse dst in
  match sd_kind w a with
  | None => Raise FileNotFoundError
  | Some a_dir =>
      if sd_locked w a || sd_locked w b then Raise PermissionError
      else
        match sd_kind w (node_parent b) with
        | Some true =>
            match sd_kind w b, a_dir with
            | Some true, _ => Raise OSError
            | Some false, true => Raise OSError
            | _, _ =>
                Ok {| nodes :=
                        map (fun e : node * bool =>
                               let n := fst e in
                               if node_under n a
                               then ((fst b,
                                      snd b
                                      ++ skipn (List.length (snd a)) (snd n)),
                                     snd e)
                               else e)
                            (sd_remove (nodes w) b);
                      read_only := read_only w |}
            end
        | _ => Raise FileNotFoundError
        end
  end.

(** [os.mkdir] *)
Definition sd_mkdir (w : small_disk) (p : str) : result small_disk :=
  let k := path_parse p in
  match sd_kind w k with
  | Some _ => Raise FileExistsError
  | None =>
      if sd_locked w k then Raise PermissionError
      else
        match sd_kind w (node_parent k) with
        | Some true =>
            Ok {| nodes := nodes w ++ [(k, true)];
                  read_only := read_only w |}
        | _ => Raise FileNotFoundError
        end
  end.

(** The directories from [(root, done)] down through [todo] that are
    missing. *)
Fixpoint sd_missing (w : small_disk) (root : str) (done todo : list str)
  : result (list (node * bool)) :=
  match todo with
  | [] => Ok []
  | c :: rest =>
      let k := (root, done ++ [c]) in
      match sd_kind w k with
      | Some false => Raise OSError
      | Some true => sd_missing w root (done ++ [c]) rest
      | None =>
          rbind (sd_missing w root (done ++ [c]) rest)
                (fun more => Ok ((k, true) :: more))
      end
  end.

(** [os.makedirs] *)
Definition sd_makedirs (w : small_disk) (p : str) : result small_disk :=
  let k := path_parse p in
  match sd_kind w k with
  | Some _ => Raise FileExistsError
  | None =>
      if sd_locked w k then Raise PermissionError
      else
        rbind (sd_missing w (fst k) [] (snd k)) (fun created =>
          Ok {| nodes := nodes w ++ created; read_only := read_only w |})
  end.

#[local] Instance small_disk_fs : FileSystem small_disk := {
  os_path_isdir := sd_isdir;
  os_path_isfile := sd_isfile;
  os_path_exists := sd_exists;
  os_listdir := sd_listdir;
  os_rename := sd_rename;
  os_mkdir := sd_mkdir;
  os_makedirs := sd_makedirs
}.

Definition file_at (p : string) : node * bool := (path_parse (lit p), false).
Definition dir_at (p : string) : node * bool := (path_parse (lit p), true).

(** A season record as the catalog returns it. *)
Definition season_record (air_date : string) (episode_names : list string)
  : pyval :=
  PDict [ (lit "air_date", PStr (lit air_date));
          (lit "episodes",
           PList (map (fun n => PDict [(lit "name", PStr (lit n))])
                      episode_names)) ].

(** The error envelope of the client for a status 404. *)
Definition not_found_envelope : pyval :=
  PDict [ (lit "status_code", PInt 404);
          (lit "response",
           PDict [ (lit "status_code", PInt 34);
                   (lit "status_message",
                    PStr (lit "The resource you requested could not be found.")) ]) ].

(** A catalog that knows one show with one season of two episodes, and
    answers every search with one show record. *)
#[local] Instance small_catalog : Catalog := {
  get_tv_season := fun _ season =>
    if (season =? 1)%Z
    then Ok (season_record "2019-05-01" ["Pilot"; "Second"]%string)
    else Ok not_found_envelope;
  search_tv := fun _ _ =>
    Ok (search_results [tv_search_record 42 "Show" "2019-05-01"]);
  search_movies := fun _ _ =>
    Ok (search_results [tv_search_record 42 "Show" "2019-05-01"]);
  search_multi := fun _ =>
    Ok (search_results [tv_search_record 42 "Show" "2019-05-01"])
}.

(** The examples only meet literal extensions. *)
#[local] Instance literal_regex : RegexLibrary := {
  re_sub_special_extension := fun _ file => Ok file
}.

Definition fresh_run {W} (w : W) : run_state W :=
  {| disk := w; calls := []; printed := [] |}.

Definition dry_run : RenameMedia := {| rm_debug := false; validate := true |}.
Definition real_run : RenameMedia := {| rm_debug := false; validate := false |}.

(* ================================================================== *)
(** ** Statements that leave the filesystem alone *)

(** [c] issues no mutating call and leaves the disk as it is, whether it
    returns or raises. *)
Definition quiet {W A} (c : M (run_state W) A) : Prop :=
  forall s, calls (snd (c s)) = calls s /\ disk (snd (c s)) = disk s.

(* ================================================================== *)
(** ** Sample disks and runs *)

(** Sample disks. *)
Definition library_by_resolution : small_disk :=
  {| nodes := [ dir_at "/data"; dir_at "/data/1080p";
                dir_at "/data/1080p/Some.Movie";
                file_at "/data/1080p/Some.Movie/movie.mkv" ];
     read_only := [] |}.



Definition read_only_media : small_disk :=
  {| nodes := [ dir_at "/media"; dir_at "/media/Show (2019)";
                file_at "/media/Show.S01E01.mkv" ];
     read_only := [ path_parse (lit "/media") ] |}.

Definition one_season_folder : small_disk :=
  {| nodes := [ dir_at "Show"; dir_at "Show/Season 1";
                file_at "Show/Season 1/Show.S01E01.mkv";
                file_at "Show/Season 1/Show.S01E03.mkv";
                file_at "Show/Season 1/Show.S02E01.mkv" ];
     read_only := [] |}.

(* ================================================================== *)
(** ** The module-level functions of Rename.py *)

(** What a function of the script can end with besides an exception of
    the core: a plain [Exception], a [NameError], the
    [argparse.ArgumentTypeError] of a type converter, or [sys.exit]. *)
Inductive script_exn :=
| CoreError (e : exn)
| PlainException
| NameError
| ArgumentTypeError
| SystemExit (code : Z).

Inductive outcome (A : Type) :=
| Returns (a : A)
| Raises (e : script_exn).
Arguments Returns {A} a.
Arguments Raises {A} e.

(** [valid_year(y)]: the pattern [^(19\d{2}|2[0-2]\d{2})$], which lets a
    final newline pass, then [int(y)].  The first two characters are ASCII
    digits, the last two any decimal digits. *)
Definition valid_year (y : str) : outcome Z :=
  match y with
  | a :: b :: c :: d :: rest =>
      match digit_value a, digit_value b, decimal_value c, decimal_value d with
      | Some x1, Some x2, Some x3, Some x4 =>
          if (str_eqb rest [] || str_eqb rest nl)
             && (((x1 =? 1)%Z && (x2 =? 9)%Z)
                 || ((x1 =? 2)%Z && (x2 <=? 2)%Z))
          then Returns (1000 * x1 + 100 * x2 + 10 * x3 + x4)%Z
          else Raises ArgumentTypeError
      | _, _, _, _ => Raises ArgumentTypeError
      end
  | _ => Raises ArgumentTypeError
  end.

(** The characters [str.strip()] removes: the Unicode white space. *)
Definition is_space (c : char) : bool :=
  ((9 <=? c) && (c <=? 13)) || ((28 <=? c) && (c <=? 32))
  || (c =? 133) || (c =? 160) || (c =? 5760)
  || ((8192 <=? c) && (c <=? 8202))
  || (c =? 8232) || (c =? 8233) || (c =? 8239) || (c =? 8287)
  || (c =? 12288).

(** [s.strip()] *)
Definition strip (s : str) : str :=
  rev (drop_while is_space (rev (drop_while is_space s))).

(** The loop of [standardise_path]:
    [while path.strip()[-1] == os.path.sep: path = path.strip()[:-1]].
    Indexing the empty string raises [IndexError].  Every round makes the
    path shorter, so a [fuel] above the length of the path is never
    spent. *)
Fixpoint strip_trailing_separators (fuel : nat) (path : str) : result str :=
  match rev (strip path) with
  | [] => Raise IndexError
  | final :: _ =>
      if char_eqb final ch_slash then
        match fuel with
        | O => Raise IndexError
        | S fuel' =>
            strip_trailing_separators fuel' (removelast (strip path))
        end
      else Ok path
  end.

(** [standardise_path(path)], with [os.path.sep] the slash. *)
Definition standardise_path (path : str) : result str :=
  let path := replace ch_backslash sep (replace ch_slash sep path) in
  strip_trailing_separators (S (List.length path)) path.

Definition supported_extensions : list str :=
  map lit [ "asf"; "avi"; "mov"; "mp4"; "mpeg"; "mpegts"; "ts"; "mkv";
            "wmv" ]%string.

(** [check_file_exists_and_is_supported(file)].  The function reads two
    globals of the script: [path], which is only bound once the directory
    loop has run ([None] when it is not), and [args.debug].  It returns
    what it ends with and what it printed. *)
Definition check_file_exists_and_is_supported {W : Type} `{FileSystem W}
  (w : W) (path : option str) (args_debug : bool) (file : str)
  : outcome bool * list line :=
  if negb (os_path_exists w file) then
    match path with
    | None => (Raises NameError, [])
    | Some p =>
        (* sys.exist(3): the module has no such attribute *)
        (Raises (CoreError AttributeError),
         [[Text (p ++ lit " does not exist")]])
    end
  else
    let extension := extension_of file in
    if negb (str_in (lower extension) supported_extensions) && args_debug
    then (Returns false, [[Text (extension ++ lit " is not supported.")]])
    else (Returns true, []).

(** [check_directory_exists(path)] *)
Definition check_directory_exists {W : Type} `{FileSystem W} (w : W)
  (path : str)
  : outcome unit * list line :=
  if negb (os_path_isdir w path)
  then (Raises (SystemExit 3), [[Text (path ++ lit " doesn't exist.")]])
  else (Returns tt, []).

(** A blank or a separator: what the loop of [standardise_path] may eat. *)
Definition blank_or_separator (c : char) : bool :=
  is_space c || char_eqb c ch_slash.

(* ================================================================== *)
(** ** Descriptions used by the properties of RenameMedia *)

(** The table of [__remove_unicode], character by character. *)
Definition unicode_substitute (c : char) : char :=
  if char_eqb c 8211 then ch_minus
  else if char_eqb c 8217 then 39
  else if (249 <=? c) && (c <=? 252) then 117
  else c.

(** A file the loop of [show] passes over: an excluded extension, or no
    season and episode marker in the name without its extension. *)
Definition ignorable `{RegexLibrary} (file : str) : bool :=
  str_in (extension_of file) INVALID_EXTENSIONS
  || match re_sub_extension (extension_of file) file with
     | Ok file_name =>
         match re_search_season_episode file_name with
         | None => true
         | Some _ => false
         end
     | Raise _ => false
     end.

(** The three resolutions the code looks for. *)
Definition RESOLUTIONS : list str := [lit "720p"; lit "1080p"; lit "2160p"].

(* ================================================================== *)
(** ** More sample data *)

(** A catalog whose seasons have no air date and no episode yet. *)
Definition unaired_catalog : Catalog := {|
  get_tv_season := fun _ _ =>
    Ok (PDict [ (lit "air_date", PNone); (lit "episodes", PList []) ]);
  search_tv := fun _ _ => Ok (search_results []);
  search_movies := fun _ _ => Ok (search_results []);
  search_multi := fun _ => Ok (search_results [])
|}.

(** A library where the folder a movie would be renamed to exists. *)
Definition library_with_target : small_disk :=
  {| nodes := [ dir_at "/m"; dir_at "/m/Some.Movie";
                file_at "/m/Some.Movie/movie.mkv";
                dir_at "/m/Some Movie (2020)" ];
     read_only := [] |}.

(* ================================================================== *)
(** ** Descriptions used by the properties of confirm_identity *)

(** The keys [confirm_identity] reads the date and the title from: those
    of a TV show when the record or the object says [tv], else those of a
    movie when the record or the object says [movie]. *)
Definition confirm_keys (o : IdentifyMedia) (record : pyval)
  : option (str * str) :=
  match is_kind o record (lit "tv") with
  | Ok true => Some (lit "first_air_date", lit "name")
  | Ok false =>
      match is_kind o record (lit "movie") with
      | Ok true => Some (lit "release_date", lit "title")
      | _ => None
      end
  | Raise _ => None
  end.

(** A record [confirm_identity] can ask about: a dict whose title is a
    string and whose date is there, with a media type when the object has
    no type.  Gives the title, the date and the type shown. *)
Definition askable (o : IdentifyMedia) (record : pyval)
  : option (str * pyval * pyval) :=
  match record, confirm_keys o record with
  | PDict d, Some (date, name_key) =>
      match dict_get d name_key, dict_get d date with
      | Some (PStr title), Some date_value =>
          if is_none (type_ o) then
            match dict_get d (lit "media_type") with
            | Some media_type => Some (title, date_value, media_type)
            | None => None
            end
          else Some (title, date_value, type_ o)
      | _, _ => None
      end
  | _, _ => None
  end.

(** The two lines printed for one question. *)
Definition question (o : IdentifyMedia) (asked : str * pyval * pyval)
  : list line :=
  let '(title, date_value, shown_type) := asked in
  [ [Text (nl ++ lit "For " ++ quoted (item o))];
    [Text (lit "Is " ++ quoted (__remove_unicode title) ++ lit " "
           ++ [ch_dquote]);
     Str date_value;
     Text ([ch_dquote] ++ lit " " ++ [ch_dquote]);
     Str shown_type;
     Text ([ch_dquote] ++ lit " correct? ")] ].

(** The object after the answer yes to a record. *)
Definition confirmed (o : IdentifyMedia) (record : pyval) (title : str)
  (found_id : pyval) (parsed : Z) (shown_type : pyval) : IdentifyMedia :=
  {| item := item o; id := found_id; name := PStr (__remove_unicode title);
     year := PInt parsed; type_ := shown_type; identity := record;
     results := results o; potential := potential o; debug := debug o |}.

(** What [confirm_identity] does with the answer to a question: the end
    of the body of its loop, from [if response == 'n'] on. *)
Definition answer_effect `{Catalog} (o : IdentifyMedia) (record : pyval)
  (date title response : str) : ID control :=
  (if str_eqb response (lit "n") then ret Next
   else if str_eqb response (lit "s") then
     print [Text (lit "Skipping")] ;;
     ret Break
   else
     set_self (set_identity record) ;;
     found_id <- lift (getitem record (lit "id")) ;;
     set_self (set_id found_id) ;;
     set_self (set_name (PStr title)) ;;
     date_value <- lift (getitem record date) ;;
     parsed <- lift (strptime_year date_value) ;;
     set_self (set_year (PInt parsed)) ;;
     (if is_none (type_ o) then
        media_type <- lift (getitem record (lit "media_type")) ;;
        set_self (set_type media_type)
      else ret tt) ;;
     ret Break)%py.

(** An object with two candidates, as a multi search leaves it. *)
Definition two_candidates : IdentifyMedia :=
  set_potential [ movie_record 7 "Alien" "1979-05-25";
                  movie_record 8 "Aliens" "1986-07-18" ]
    (init (lit "Alien.1979") PNone PNone PNone false).

(* ================================================================== *)
(** ** IdentifyMedia.identify *)

Definition to_outcome {A} (r : result A) : outcome A :=
  match r with
  | Ok a => Returns a
  | Raise e => Raises (CoreError e)
  end.

Section Identify.

Context `{TMDB : Catalog}.

Local Open Scope py_scope.

(** The question of [identify] when the object has an identity already. *)
Definition identify_again_prompt (o : IdentifyMedia) : line :=
  [ Text (lit "This media is currently identified as " ++ [ch_dquote]);
    Str (name o);
    Text ([ch_dquote] ++ lit " " ++ [ch_dquote]);
    Str (year o);
    Text ([ch_dquote]
          ++ lit ". Would you like to try to identify again (y/n)?") ].

(** [identify] after its first test, with the method [enquire] it calls
    given as [enquire]. *)
Definition identify_body (enquire : ID unit) : ID unit :=
  o <- get_self ;;
  response <-
    (if truthy (identity o) then
       typed <- get_stdin ;;
       prompt_until (ret tt)
         (fun _ => ret (identify_again_prompt o))
         (fun _ response =>
            if str_in response [lit "y"; lit "n"] then ret (Some response)
            else
              print [Text (lit "Invalid response of " ++ response
                           ++ lit ".")] ;;
              ret None)
         typed
     else ret (lit "y")) ;;
  if str_eqb response (lit "n") then ret tt
  else
    set_self (set_identity PNone) ;;
    o <- get_self ;;
    (if negb (truthy (name o)) then enquire
     else search_media (name o) ;; ret tt) ;;
    manual_entry.

(** [IdentifyMedia.identify(self)]: an empty [item] raises a plain
    [Exception] before anything else happens. *)
Definition identify_with (enquire : ID unit) (s : identify_state)
  : outcome unit * identify_state :=
  match item (self s) with
  | [] => (Raises PlainException, s)
  | _ =>
      let (r, s') := identify_body enquire s in
      (to_outcome r, s')
  end.

Local Close Scope py_scope.

End Identify.

(* ================================================================== *)
(** ** The regular expressions of IdentifyMedia.enquire *)

(** The fragment of the [re] syntax the patterns of [enquire] use:
    character classes, sequence, alternation, and the greedy repetition
    [{n,}] of a character class ([*] is [{0,}]). *)
Inductive regex :=
| Eps
| Class (p : char -> bool)
| Seq (a b : regex)
| Alt (a b : regex)
| AtLeast (n : nat) (p : char -> bool).

(** Greedy repetition with backtracking: as many characters of the class
    as possible first, then one less, down to [n]; [k] is what follows
    in the pattern. *)
Fixpoint at_least {A} (p : char -> bool) (n : nat) (s : str)
  (k : str -> option A) : option A :=
  let stop := match n with O => k s | S _ => None end in
  match s with
  | c :: t =>
      if p c then
        match at_least p (pred n) t k with
        | Some x => Some x
        | None => stop
        end
      else stop
  | [] => stop
  end.

(** The backtracking matcher at the start of [s]: alternatives are tried
    left to right, and the first way through the whole pattern wins. *)
Fixpoint run {A} (r : regex) (s : str) (k : str -> option A) : option A :=
  match r with
  | Eps => k s
  | Class p =>
      match s with
      | c :: t => if p c then k t else None
      | [] => None
      end
  | Seq a b => run a s (fun t => run b t k)
  | Alt a b =>
      match run a s k with
      | Some x => Some x
      | None => run b s k
      end
  | AtLeast n p => at_least p n s k
  end.

(** [re.sub(r, repl, s)], from a position of [s] on: [skip] counts the
    characters still covered by the last match.  Every pattern of
    [enquire] consumes at least one character, so no match is empty. *)
Fixpoint re_sub_from (r : regex) (repl : str) (s : str) (skip : nat) : str :=
  match s with
  | [] => []
  | c :: t =>
      match skip with
      | S n => re_sub_from r repl t n
      | O =>
          match run r s Some with
          | Some rest =>
              repl ++ re_sub_from r repl t
                        (List.length t - List.length rest)
          | None => c :: re_sub_from r repl t 0
          end
      end
  end.

Definition re_sub (r : regex) (repl : str) (s : str) : str :=
  re_sub_from r repl s 0.

(** [re.sub] on a value: the subject must be a string. *)
Definition re_sub_of (r : regex) (repl : str) (v : pyval) : result pyval :=
  match v with
  | PStr s => Ok (PStr (re_sub r repl s))
  | _ => Raise TypeError
  end.

(** Character classes. *)
Definition chr (c : char) : regex := Class (fun x => char_eqb x c).
Definition cls_dot : regex := chr ch_dot.               (* \. *)
Definition cls_space : regex := Class is_space.         (* \s *)
Definition cls_digit : regex := Class is_decimal.       (* \d *)
Definition not_newline (c : char) : bool := negb (char_eqb c 10).
Definition any_star : regex := AtLeast 0 not_newline.   (* .* *)
Definition digits2 : regex := AtLeast 2 is_decimal.     (* \d{2,} *)
Definition cls_sS : regex :=                            (* [sS] *)
  Class (fun c => char_eqb c 115 || char_eqb c 83).
Definition cls_eE : regex :=                            (* [eE] *)
  Class (fun c => char_eqb c 101 || char_eqb c 69).
Definition dot_or_space : regex := Alt cls_dot cls_space.   (* (\.|\s) *)
Definition s_or_S : regex := Alt (chr 115) (chr 83).        (* (s|S) *)
Definition e_or_E : regex := Alt (chr 101) (chr 69).        (* (e|E) *)

(** A literal word. *)
Fixpoint word (w : str) : regex :=
  match w with
  | [] => Eps
  | c :: rest => Seq (chr c) (word rest)
  end.

(** [(\.|\s)([sS]\d{2,}|(720|1080|2160)p)(\.|\s).*] *)
Definition re_resolution_or_season : regex :=
  Seq dot_or_space
    (Seq (Alt (Seq cls_sS digits2)
              (Seq (Alt (word (lit "720"))
                        (Alt (word (lit "1080")) (word (lit "2160"))))
                   (chr 112)))
         (Seq dot_or_space any_star)).

(** [(\.|\s)[sS]\d{2,}[eE]\d{2,}.*] *)
Definition re_season_episode : regex :=
  Seq dot_or_space
    (Seq cls_sS (Seq digits2 (Seq cls_eE (Seq digits2 any_star)))).

(** [(\.|\s)\d{4}.*] *)
Definition re_date : regex :=
  Seq dot_or_space
    (Seq cls_digit (Seq cls_digit (Seq cls_digit (Seq cls_digit any_star)))).

(** [(\.|\s)\(\d{4}\).*] *)
Definition re_date_in_braces : regex :=
  Seq dot_or_space
    (Seq (chr 40)
       (Seq cls_digit (Seq cls_digit (Seq cls_digit (Seq cls_digit
          (Seq (chr 41) any_star)))))).

(** [(s|S)\d{2,}(-|_)(s|S)\d{2,}] *)
Definition re_season_to_season : regex :=
  Seq s_or_S (Seq digits2 (Seq (Alt (chr ch_minus) (chr 95))
                             (Seq s_or_S digits2))).

(** [(s|S)\d{2,}(e|E)\d{2,}.*] *)
Definition re_bare_season_episode : regex :=
  Seq s_or_S (Seq digits2 (Seq e_or_E (Seq digits2 any_star))).

(** [(s|S)\d{2,}] *)
Definition re_lone_season : regex := Seq s_or_S digits2.

(** The list [tidy_up_text_attempts]: pattern and replacement. *)
Definition tidy_up_text_attempts : list (regex * str) :=
  [ (re_resolution_or_season, []);
    (cls_dot, lit " ");
    (re_season_episode, []);
    (re_date, []);
    (re_season_episode, []);
    (re_date_in_braces, []);
    (re_season_to_season, []);
    (re_bare_season_episode, []);
    (re_lone_season, []) ].

(* ================================================================== *)
(** ** IdentifyMedia.enquire *)

Section Enquire.

Context `{TMDB : Catalog}.

Local Open Scope py_scope.

(** [not self.results or not self.results["results"]] *)
Definition no_results_yet (o : IdentifyMedia) : result bool :=
  or_else (Ok (negb (truthy (results o))))
    (rbind (getitem (results o) (lit "results"))
           (fun found => Ok (negb (truthy found)))).

(** The loop of [enquire] over the attempts that are left, with the
    current [name]. *)
Fixpoint enquire_loop (original_folder_name : str)
  (attempts : list (regex * str)) (name : pyval) : ID unit :=
  match attempts with
  | [] => ret tt
  | attempt :: rest =>
      o <- get_self ;;
      go_on <- lift (no_results_yet o) ;;
      if go_on then
        name <- lift (re_sub_of (fst attempt) (snd attempt) name) ;;
        found <- search_media name ;;
        let '(results, name) := found in
        if truthy results then
          evaluate_results results (PStr original_folder_name) ;;
          confirm_identity ;;
          o <- get_self ;;
          if truthy (identity o)
          then set_self (set_results results)
          else enquire_loop original_folder_name rest name
        else enquire_loop original_folder_name rest name
      else ret tt
  end.

Definition enquire : ID unit :=
  o <- get_self ;;
  let name := os_path_basename (item o) in
  enquire_loop name tidy_up_text_attempts (PStr name).

(** [IdentifyMedia.identify(self)] *)
Definition identify : identify_state -> outcome unit * identify_state :=
  identify_with enquire.

Local Close Scope py_scope.

End Enquire.

(** The names [enquire] goes through: each attempt rewrites the name the
    attempt before it left. *)
Fixpoint tidy_chain (attempts : list (regex * str)) (name : str) : list str :=
  match attempts with
  | [] => []
  | attempt :: rest =>
      let name := re_sub (fst attempt) (snd attempt) name in
      name :: tidy_chain rest name
  end.

Definition tidy_names (base : str) : list str :=
  tidy_chain tidy_up_text_attempts base.

(* ================================================================== *)
(** ** Descriptions used by the properties of the rewrite chain *)

(** [r] matches at the start of [s]. *)
Definition matches (r : regex) (s : str) : bool :=
  match run r s Some with
  | Some _ => true
  | None => false
  end.

(** [s] and what is left of it from every later position on. *)
Fixpoint tails (s : str) : list str :=
  s :: match s with
       | [] => []
       | _ :: t => tails t
       end.

(** [re.search(r, s)] finds nothing. *)
Definition no_match (r : regex) (s : str) : bool :=
  forallb (fun t => negb (matches r t)) (tails s).

(** The end of a line: the end of the string or a newline. *)
Definition at_line_end (s : str) : bool :=
  match s with
  | [] => true
  | c :: _ => char_eqb c 10
  end.

(** A pattern none of whose classes takes a newline: whatever it matches
    lies on one line. *)
Fixpoint one_line (r : regex) : Prop :=
  match r with
  | Eps => True
  | Class p | AtLeast _ p => forall c, p c = true -> not_newline c = true
  | Seq a b | Alt a b => one_line a /\ one_line b
  end.

(** The request [search_media] sends for [name], by the type of the
    object. *)
Definition catalog_search `{TMDB : Catalog} (o : IdentifyMedia)
  (name : pyval) : result pyval :=
  if eq_str (type_ o) (lit "tv") then search_tv name (year o)
  else if eq_str (type_ o) (lit "movie") then search_movies name (year o)
       else search_multi name.

(** An answer with nothing to choose from: a falsy one, or a dictionary
    whose [results] is the empty list. *)
Definition fruitless (answer : pyval) : bool :=
  negb (truthy answer)
  || match answer with
     | PDict d =>
         match dict_get d (lit "results") with
         | Some (PList []) => true
         | _ => false
         end
     | _ => false
     end.

(** The line [search_media] prints in debug mode. *)
Definition searching_for (name : str) : line :=
  [Text (lit "Searching for "); Str (PStr name)].

(* ================================================================== *)
(** * tmdb_api.py: the catalog client *)

Module tmdb_api.

Local Open Scope py_scope.

(** The client object.  [api_version] is an integer and [api_key] a
    string, as the constructor's signature says. *)
Record TMDB := {
  api_version : Z;
  api_key : str;
  debug : bool
}.

(** What [request] asks for, the URL
    [https://api.themoviedb.org/{api_version}{resource}?api_key={api_key}&{params}]
    kept in its parts. *)
Record url := {
  url_version : Z;
  url_resource : str;
  url_key : str;
  url_params : list (str * pyval)
}.

(** What comes back: the status code, and [response.json()], which
    raises when the body is no JSON. *)
Record response := {
  status_code : Z;
  json : result pyval
}.

(** [requests.get]: the answer may depend on what was asked before, and
    the call may raise. *)
Class Requests := {
  requests_get : list url -> url -> result response
}.

(** A session: the object, the requests made so far, and the requests
    that the debug mode has printed. *)
Record session := {
  client : TMDB;
  sent : list url;
  shown : list url
}.

Definition set_api_version (v : Z) (c : TMDB) : TMDB :=
  {| api_version := v; api_key := api_key c; debug := debug c |}.

Definition set_debug (b : bool) (c : TMDB) : TMDB :=
  {| api_version := api_version c; api_key := api_key c; debug := b |}.

Definition set_key (k : str) (c : TMDB) : TMDB :=
  {| api_version := api_version c; api_key := k; debug := debug c |}.

Definition get_client : M session TMDB :=
  fun s => (Ok (client s), s).

Definition set_client (f : TMDB -> TMDB) : M session unit :=
  modify (fun s => {| client := f (client s); sent := sent s;
                      shown := shown s |}).

Definition print_request (u : url) : M session unit :=
  modify (fun s => {| client := client s; sent := sent s;
                      shown := shown s ++ [u] |}).

(** [d[k] = v]: a key the dictionary has keeps its place. *)
Fixpoint dict_set (d : list (str * pyval)) (k : str) (v : pyval)
  : list (str * pyval) :=
  match d with
  | [] => [(k, v)]
  | (k', v') :: rest =>
      if str_eqb k k' then (k', v) :: rest else (k', v') :: dict_set rest k v
  end.

(** [v[k] = x] *)
Definition setitem (v : pyval) (k : str) (x : pyval) : result pyval :=
  match v with
  | PDict d => Ok (PDict (dict_set d k x))
  | _ => Raise TypeError
  end.

(** [v >= 0] *)
Definition ge_zero (v : pyval) : result bool :=
  match v with
  | PInt z => Ok (0 <=? z)%Z
  | PBool _ => Ok true
  | PFloat q => Ok (Qle_bool 0 q)
  | _ => Raise TypeError
  end.

Section Client.

Context `{Server : Requests}.

(** [request(self, resource, params)], with the default headers, data
    and action: a GET without keyword arguments. *)
Definition request (resource : str) (params : list (str * pyval))
  : M session pyval :=
  self <- get_client ;;
  match api_key self with
  | [] => raise ValueError
  | _ :: _ =>
      let u := {| url_version := api_version self;
                  url_resource := resource;
                  url_key := api_key self;
                  url_params := params |} in
      (if debug self then print_request u else ret tt) ;;
      s <- get ;;
      modify (fun s => {| client := client s; sent := sent s ++ [u];
                          shown := shown s |}) ;;
      answer <- lift (requests_get (sent s) u) ;;
      body <- lift (json answer) ;;
      if (status_code answer =? 200)%Z then ret body
      else ret (PDict [ (lit "status_code", PInt (status_code answer));
                        (lit "response", body) ])
  end.

Definition get_countries : M session pyval :=
  request (lit "/configuration/countries") [].

Definition get_languages : M session pyval :=
  request (lit "/configuration/languages") [].

(** [re.search("^[a-z]{2}-[A-Z]{2}$", language)]; the [$] lets a final
    newline pass. *)
Definition is_lower (c : char) : bool := (97 <=? c) && (c <=? 122).
Definition is_upper (c : char) : bool := (65 <=? c) && (c <=? 90).

Definition language_format (language : str) : bool :=
  match language with
  | a :: b :: dash :: c :: d :: rest =>
      is_lower a && is_lower b && char_eqb dash ch_minus
      && is_upper c && is_upper d
      && (str_eqb rest [] || str_eqb rest nl)
  | _ => false
  end.

(** [language[-2:]] *)
Definition last_two (s : str) : str :=
  skipn (List.length s - 2) s.

(** The inner loop of [__valid_language], over the countries. *)
Fixpoint match_country (language : str) (countries : list pyval)
  : result bool :=
  match countries with
  | [] => Ok false
  | country :: rest =>
      rbind (getitem country (lit "iso_3166_1")) (fun code =>
        if eq_str code (last_two language) then Ok true
        else match_country language rest)
  end.

(** The outer loop, over the languages: the countries are asked for at
    every language whose code is the one wanted. *)
Fixpoint match_language (language : str) (languages : list pyval)
  : M session bool :=
  match languages with
  | [] => ret false
  | lang :: rest =>
      code <- lift (getitem lang (lit "iso_639_1")) ;;
      if eq_str code (firstn 2 language) then
        countries <- get_countries ;;
        items <- lift (iterate countries) ;;
        found <- lift (match_country language items) ;;
        if found then ret true else match_language language rest
      else match_language language rest
  end.

(** [__valid_language(self, language, params)] *)
Definition __valid_language (language : str) (params : list (str * pyval))
  : M session (list (str * pyval)) :=
  match language with
  | [] => ret params
  | _ :: _ =>
      if language_format language then
        languages <- get_languages ;;
        items <- lift (iterate languages) ;;
        found <- match_language language items ;;
        if found then ret (dict_set params (lit "language") (PStr language))
        else raise ValueError
      else raise ValueError
  end.

(** [__valid_page_number(self, page, params)], for an integer [page]. *)
Definition __valid_page_number (page : Z) (params : list (str * pyval))
  : M session (list (str * pyval)) :=
  self <- get_client ;;
  if (0 <=? page)%Z then
    if (api_version self =? 3)%Z then
      if (1 <=? page)%Z && (page <=? 1000)%Z
      then ret (dict_set params (lit "page") (PInt page))
      else raise ValueError
    else if (api_version self =? 4)%Z then
      if (1 <=? page)%Z
      then ret (dict_set params (lit "page") (PInt page))
      else raise ValueError
    else ret params
  else ret params.

(** [params[key] = value] under [if value >= 0]. *)
Definition set_if_ge_zero (key : str) (value : pyval)
  (params : list (str * pyval)) : result (list (str * pyval)) :=
  rbind (ge_zero value) (fun given =>
    Ok (if given then dict_set params key value else params)).

(** [search_tv(self, query, first_air_date_year, include_adult, language,
    page)] *)
Definition search_tv (query first_air_date_year include_adult : pyval)
  (language : str) (page : Z) : M session pyval :=
  let params := [ (lit "query", query);
                  (lit "include_adult", include_adult) ] in
  params <- lift (set_if_ge_zero (lit "first_air_date_year")
                    first_air_date_year params) ;;
  params <- __valid_language language params ;;
  params <- __valid_page_number page params ;;
  request (lit "/search/tv") params.

(** [search_movies(self, query, include_adult, region, year,
    primary_release_year, language, page)] *)
Definition search_movies (query include_adult region year
                            primary_release_year : pyval)
  (language : str) (page : Z) : M session pyval :=
  let params := [ (lit "query", query);
                  (lit "include_adult", include_adult) ] in
  let params := if truthy region
                then dict_set params (lit "region") region else params in
  params <- lift (set_if_ge_zero (lit "year") year params) ;;
  params <- lift (set_if_ge_zero (lit "primary_release_year")
                    primary_release_year params) ;;
  params <- __valid_language language params ;;
  params <- __valid_page_number page params ;;
  request (lit "/search/movie") params.

(** The year of [result_datetime] in the loop of [search_multi], or
    nothing where it stays [None]: the release date is read after the
    first-air date and overrides it. *)
Definition result_year (record : pyval) : result (option Z) :=
  rbind (contains (lit "first_air_date") record) (fun aired =>
  rbind (if aired
         then rbind (getitem record (lit "first_air_date")) (fun date =>
              rbind (strptime_year date) (fun y => Ok (Some y)))
         else Ok None) (fun first =>
  rbind (contains (lit "release_date") record) (fun released =>
    if released
    then rbind (getitem record (lit "release_date")) (fun date =>
         rbind (strptime_year date) (fun y => Ok (Some y)))
    else Ok first))).

(** The loop of [search_multi]: [temp_results] after the records that
    are left. *)
Fixpoint keep_year (year : pyval) (records : list pyval)
  : result (list pyval) :=
  match records with
  | [] => Ok []
  | record :: rest =>
      rbind (result_year record) (fun found =>
      rbind (keep_year year rest) (fun kept =>
        Ok (match found with
            | Some y => if eq_int year y then record :: kept else kept
            | None => kept
            end)))
  end.

(** [search_multi(self, query, include_adult, region, language, page,
    year)] *)
Definition search_multi (query include_adult region : pyval)
  (language : str) (page : Z) (year : pyval) : M session pyval :=
  let params := [ (lit "query", query);
                  (lit "include_adult", include_adult) ] in
  let params := if truthy region
                then dict_set params (lit "region") region else params in
  params <- __valid_language language params ;;
  params <- __valid_page_number page params ;;
  results <- request (lit "/search/multi") params ;;
  has_results <- lift (contains (lit "results") results) ;;
  to_filter <-
    (if has_results
     then found <- lift (getitem results (lit "results")) ;;
          ret (truthy found && truthy year)
     else ret false) ;;
  if to_filter then
    found <- lift (getitem results (lit "results")) ;;
    records <- lift (iterate found) ;;
    kept <- lift (keep_year year records) ;;
    lift (setitem results (lit "results") (PList kept))
  else ret results.

(** [get_movie(self, movie_id, language, append_to_reponse)], for an
    integer [movie_id]. *)
Definition get_movie (movie_id : Z) (language : str)
  (append_to_reponse : pyval) : M session pyval :=
  params <- __valid_language language [] ;;
  let params := if truthy append_to_reponse
                then dict_set params (lit "append_to_response")
                       append_to_reponse
                else params in
  request (lit "/movie/" ++ str_of_Z movie_id) params.

(** [set_api_key(self, api_key)] *)
Definition set_api_key (key : str) : M session unit :=
  set_client (set_key key) ;;
  output <- get_movie 550 [] (PStr []) ;;
  has_code <- lift (contains (lit "status_code") output) ;;
  unauthorised <-
    (if has_code
     then code <- lift (getitem output (lit "status_code")) ;;
          ret (eq_int code 401)
     else ret false) ;;
  if unauthorised then
    set_client (set_key []) ;;
    answer <- lift (getitem output (lit "response")) ;;
    _ <- lift (getitem answer (lit "status_message")) ;;
    raise ValueError
  else ret tt.

(** [TMDB(api_key, api_version, debug)].  For a version that is not
    supported the message of the [ValueError] is built with
    [' or '.join(supported_versions)], a join of integers, which raises
    [TypeError]. *)
Definition __init__ (key : str) (version : Z) (dbg : bool)
  : M session unit :=
  (if (version =? 3)%Z then set_client (set_api_version version)
   else raise TypeError) ;;
  set_client (set_debug dbg) ;;
  set_api_key key.

End Client.

Local Close Scope py_scope.

End tmdb_api.

(** The calls [IdentifyMedia.search_media] makes on the client: the
    other parameters keep their defaults. *)
Definition client_search_tv `{Server : tmdb_api.Requests}
  (name year : pyval) : M tmdb_api.session pyval :=
  tmdb_api.search_tv name year (PBool true) [] (-1).

Definition client_search_movies `{Server : tmdb_api.Requests}
  (name year : pyval) : M tmdb_api.session pyval :=
  tmdb_api.search_movies name (PBool true) (PStr []) year (PInt (-1)) []
    (-1).

Definition client_search_multi `{Server : tmdb_api.Requests}
  (name : pyval) : M tmdb_api.session pyval :=
  tmdb_api.search_multi name (PBool true) (PStr []) [] (-1) PNone.

(* ================================================================== *)
(** ** Descriptions used by the properties of the client *)



(** The session after one request. *)
Definition after_request (s : tmdb_api.session) (u : tmdb_api.url)
  : tmdb_api.session :=
  {| tmdb_api.client := tmdb_api.client s;
     tmdb_api.sent := tmdb_api.sent s ++ [u];
     tmdb_api.shown := tmdb_api.shown s
                       ++ (if tmdb_api.debug (tmdb_api.client s)
                           then [u] else []) |}.

(** A server that knows two movies and a person, and answers every
    other request with the details of one movie. *)
Definition sample_server : tmdb_api.Requests :=
  {| tmdb_api.requests_get := fun _ u =>
       if str_eqb (tmdb_api.url_resource u) (lit "/search/multi")
       then Ok {| tmdb_api.status_code := 200;
                  tmdb_api.json :=
                    Ok (search_results
                          [ movie_record 1 "A" "2020-01-01";
                            PDict [ (lit "id", PInt 7);
                                    (lit "media_type", PStr (lit "person"));
                                    (lit "name", PStr (lit "B")) ];
                            movie_record 2 "A" "2019-06-01" ]) |}
       else Ok {| tmdb_api.status_code := 200;
                  tmdb_api.json := Ok (PDict [ (lit "id", PInt 550) ]) |}
  |}.


(** A server that is down. *)
Definition failing_server : tmdb_api.Requests :=
  {| tmdb_api.requests_get := fun _ _ =>
       Ok {| tmdb_api.status_code := 503;
             tmdb_api.json :=
               Ok (PDict [ (lit "status_message",
                            PStr (lit "Service offline")) ]) |}
  |}.

Definition new_session : tmdb_api.session :=
  {| tmdb_api.client := {| tmdb_api.api_version := 0;
                           tmdb_api.api_key := [];
                           tmdb_api.debug := false |};
     tmdb_api.sent := []; tmdb_api.shown := [] |}.

Definition open_session (key : string) : tmdb_api.session :=
  {| tmdb_api.client := {| tmdb_api.api_version := 3;
                           tmdb_api.api_key := lit key;
                           tmdb_api.debug := false |};
     tmdb_api.sent := []; tmdb_api.shown := [] |}.

(* ================================================================== *)
(** ** What the prompts leave on the terminal *)

(** What [confirm_identity] prints when every candidate is asked about:
    the two lines of the question, candidate by candidate. *)
Definition questions (o : IdentifyMedia) (records : list pyval)
  : list line :=
  flat_map (fun record =>
              match askable o record with
              | Some asked => question o asked
              | None => []
              end) records.

(** What [identify] prints while it asks whether to identify again: the
    question and the complaint for every answer in [bad], then the
    question once more. *)
Definition asked_again `{Catalog} (o : IdentifyMedia) (bad : list str)
  : list line :=
  flat_map (fun a =>
              [ identify_again_prompt o;
                [Text (lit "Invalid response of " ++ a ++ lit ".")] ]) bad
  ++ [identify_again_prompt o].

(** The request [search_media] sends for an object of type [kind]. *)
Definition search_by_type `{TMDB : Catalog} (kind : str)
  (name year : pyval) : result pyval :=
  if str_eqb kind (lit "tv") then search_tv name year
  else if str_eqb kind (lit "movie") then search_movies name year
       else search_multi name.

(* ================================================================== *)
(** * Properties *)

(** ** Strings *)

Lemma char_eqb_eq (a b : char) : char_eqb a b = true <-> a = b.
Proof. apply N.eqb_eq. Qed.

Lemma char_eqb_neq (a b : char) : char_eqb a b = false <-> a <> b.
Proof. apply N.eqb_neq. Qed.

Lemma str_eqb_eq (a b : str) : str_eqb a b = true <-> a = b.
Proof.
  revert b; induction a as [|x a IH]; intros [|y b]; simpl;
    try (split; [discriminate | discriminate]); try tauto.
  rewrite andb_true_iff, char_eqb_eq, IH.
  split; [intros [-> ->]; reflexivity | intros H; inversion H; auto].
Qed.

Lemma str_in_In (x : str) (xs : list str) : str_in x xs = true <-> In x xs.
Proof.
  unfold str_in. rewrite existsb_exists. split.
  - intros [y [Hy Heq]]. apply str_eqb_eq in Heq. now subst.
  - intros H. exists x. split; [assumption | now apply str_eqb_eq].
Qed.

Lemma char_in_In (c : char) (s : str) : char_in c s = true <-> In c s.
Proof.
  unfold char_in. rewrite existsb_exists. split.
  - intros [y [Hy Heq]]. apply char_eqb_eq in Heq. now subst.
  - intros H. exists c. split; [assumption | now apply char_eqb_eq].
Qed.

Example remove_invalid_characters_what :
  remove_invalid_characters (lit "What?") = lit "What.".
Proof. reflexivity. Qed.

Example remove_invalid_characters_ellipsis :
  remove_invalid_characters (lit "Wait...?") = lit "Wait...".
Proof. reflexivity. Qed.

Example remove_invalid_characters_con :
  remove_invalid_characters (lit "C:O<N") = lit "C -ON".
Proof. reflexivity. Qed.

(** ** The name normaliser *)

Lemma flat_map_fuse {A B C} (f : A -> list B) (g : B -> list C) (l : list A) :
  flat_map g (flat_map f l) = flat_map (fun a => flat_map g (f a)) l.
Proof.
  induction l as [|a l IH]; simpl; [reflexivity|].
  now rewrite flat_map_app, IH.
Qed.

Lemma replace_fuse (old : char) (new : str) (f : char -> str) (s : str) :
  replace old new (flat_map f s) = flat_map (fun c => replace old new (f c)) s.
Proof. apply flat_map_fuse. Qed.

Lemma replace_as_flat_map (old : char) (new : str) (s : str) :
  replace old new s =
  flat_map (fun c => replace old new [c]) s.
Proof.
  unfold replace. apply flat_map_ext. intros c. simpl.
  now rewrite app_nil_r.
Qed.

(** Case analysis of a character against one key of the table. *)
Ltac key_case c k :=
  destruct (char_eqb c k) eqn:?;
  [ match goal with
    | H : char_eqb c k = true |- _ => apply char_eqb_eq in H; subst c
    end
  | ].

Ltac rewrite_keys :=
  repeat match goal with
         | H : char_eqb _ _ = false |- _ => rewrite H
         end.

(** Against the nine keys in turn; [tac] closes the case of each key and
    the last goal is the case of a character that is none of them. *)
Ltac key_cases c tac :=
  key_case c ch_lt; [tac|];
  key_case c ch_gt; [tac|];
  key_case c ch_colon; [tac|];
  key_case c ch_dquote; [tac|];
  key_case c ch_slash; [tac|];
  key_case c ch_backslash; [tac|];
  key_case c ch_pipe; [tac|];
  key_case c ch_question; [tac|];
  key_case c ch_star; [tac|].

Lemma question_replacement_cases (name : str) :
  is_question_replacement (question_replacement name).
Proof.
  unfold is_question_replacement, question_replacement.
  destruct (re_search_dots_question _); auto.
Qed.

Lemma substitute_invalid_characters_unfold (name : str) :
  substitute_invalid_characters name =
  replace_all_keys (question_replacement name) name.
Proof.
  unfold substitute_invalid_characters, replace_all_keys, question_replacement,
    name_before_question.
  cbn [invalid_characters firstn fold_left substitute_character].
  change (char_eqb ch_lt ch_question) with false.
  change (char_eqb ch_gt ch_question) with false.
  change (char_eqb ch_colon ch_question) with false.
  change (char_eqb ch_dquote ch_question) with false.
  change (char_eqb ch_slash ch_question) with false.
  change (char_eqb ch_backslash ch_question) with false.
  change (char_eqb ch_pipe ch_question) with false.
  change (char_eqb ch_star ch_question) with false.
  change (char_eqb ch_question ch_question) with true.
  cbn [negb orb andb].
  destruct (re_search_dots_question _); reflexivity.
Qed.

Lemma replace_all_keys_pointwise (q : str) (c : char) :
  is_question_replacement q ->
  replace_all_keys q [c] = char_substitute q c.
Proof.
  intros Hq. unfold replace_all_keys, char_substitute, removed_characters.
  key_cases c ltac:(destruct Hq as [-> | ->]; reflexivity).
  repeat (rewrite_keys;
          cbn [replace flat_map app char_in existsb orb]).
  reflexivity.
Qed.

Lemma replace_app (old : char) (new : str) (s t : str) :
  replace old new (s ++ t) = replace old new s ++ replace old new t.
Proof. apply flat_map_app. Qed.

Lemma replace_all_keys_app (q s t : str) :
  replace_all_keys q (s ++ t) = replace_all_keys q s ++ replace_all_keys q t.
Proof. unfold replace_all_keys. now rewrite !replace_app. Qed.

Lemma replace_all_keys_flat_map (q s : str) :
  is_question_replacement q ->
  replace_all_keys q s = flat_map (char_substitute q) s.
Proof.
  intros Hq. induction s as [|c s IH]; [reflexivity|].
  change (c :: s) with ([c] ++ s).
  rewrite replace_all_keys_app, IH, replace_all_keys_pointwise by assumption.
  reflexivity.
Qed.

(** The loop of nine sequential replacements is one simultaneous
    character-by-character substitution. *)
Lemma substitute_invalid_characters_flat_map (name : str) :
  substitute_invalid_characters name =
  flat_map (char_substitute (question_replacement name)) name.
Proof.
  rewrite substitute_invalid_characters_unfold.
  apply replace_all_keys_flat_map, question_replacement_cases.
Qed.

(** No key of the table occurs in what the table puts in place of a
    character. *)
Lemma char_substitute_no_key (q : str) (x c : char) :
  is_question_replacement q ->
  In c (char_substitute q x) -> ~ In c keys.
Proof.
  intros Hq. unfold char_substitute, removed_characters.
  key_cases x ltac:(destruct Hq as [-> | ->]; cbn; intros H Hk;
                    repeat (destruct H as [<- | H]; [|]);
                    try contradiction;
                    repeat (destruct Hk as [Hk | Hk]; [discriminate Hk|]);
                    contradiction).
  repeat (rewrite_keys; cbn [char_in existsb orb]).
  intros [<- | []] Hk. cbn in Hk.
  repeat (destruct Hk as [Hk | Hk];
          [subst x; unfold char_eqb in *;
           match goal with H : N.eqb ?k ?k = false |- _ =>
             rewrite N.eqb_refl in H; discriminate H end|]).
  contradiction.
Qed.

Lemma substitute_invalid_characters_no_key (name : str) (c : char) :
  In c (substitute_invalid_characters name) -> ~ In c keys.
Proof.
  rewrite substitute_invalid_characters_flat_map, in_flat_map.
  intros [x [_ Hx]].
  eapply char_substitute_no_key; [apply question_replacement_cases | exact Hx].
Qed.

Lemma remove_invalid_characters_cases (name : str) :
  remove_invalid_characters name =
  append_dot_if_reserved (substitute_invalid_characters name).
Proof. reflexivity. Qed.

Lemma remove_invalid_characters_no_key (name : str) (c : char) :
  In c (remove_invalid_characters name) -> ~ In c keys.
Proof.
  rewrite remove_invalid_characters_cases. unfold append_dot_if_reserved.
  destruct (str_in _ _).
  - rewrite in_app_iff. intros [H | H].
    + now apply substitute_invalid_characters_no_key in H.
    + cbn in H. destruct H as [<- | []]. cbn. intros Hk.
      repeat (destruct Hk as [Hk | Hk]; [discriminate Hk|]). contradiction.
  - apply substitute_invalid_characters_no_key.
Qed.

(** A string without any key is left alone by the substitution loop. *)
Lemma char_substitute_not_key (q : str) (c : char) :
  ~ In c keys -> char_substitute q c = [c].
Proof.
  intros Hk. unfold char_substitute, removed_characters.
  key_cases c ltac:(exfalso; apply Hk; cbn; tauto).
  repeat (rewrite_keys; cbn [char_in existsb orb]).
  reflexivity.
Qed.

Lemma substitute_invalid_characters_id (s : str) :
  (forall c, In c s -> ~ In c keys) ->
  substitute_invalid_characters s = s.
Proof.
  intros H. rewrite substitute_invalid_characters_flat_map.
  generalize (question_replacement s) as q. intros q.
  induction s as [|c s IH]; [reflexivity|].
  cbn [flat_map]. rewrite char_substitute_not_key by (apply H; now left).
  cbn. f_equal. apply IH. intros d Hd. apply H. now right.
Qed.

(** A reserved device name followed by a dot is not reserved. *)
Lemma reserved_dot_not_reserved (s : str) :
  In s invalid_filenames -> str_in (s ++ lit ".") invalid_filenames = false.
Proof.
  intros H. cbn in H.
  repeat (destruct H as [<- | H]; [reflexivity|]). contradiction.
Qed.

Lemma append_dot_if_reserved_idem (s : str) :
  str_in (append_dot_if_reserved s) invalid_filenames = false.
Proof.
  unfold append_dot_if_reserved.
  destruct (str_in s invalid_filenames) eqn:E; [|exact E].
  apply reserved_dot_not_reserved, str_in_In, E.
Qed.

(** C7: the loop removes the seven plain keys and turns every colon into a
    space and a dash, character by character (the question mark gets what
    [question_replacement] says); none of those eight characters is left;
    a dot is appended exactly when the substituted name is a reserved
    device name, and otherwise the substituted name is returned as it is.
    The function is total: it returns a string for every string. *)
Theorem C7_sanitize_mapping (name : str) :
  let substituted :=
    flat_map (char_substitute (question_replacement name)) name in
  substitute_invalid_characters name = substituted
  /\ (forall c, In c (ch_colon :: removed_characters) ->
                ~ In c (remove_invalid_characters name))
  /\ (remove_invalid_characters name = substituted ++ lit "."
      <-> In substituted invalid_filenames)
  /\ (~ In substituted invalid_filenames ->
      remove_invalid_characters name = substituted).
Proof.
  intros substituted.
  assert (Hs : substitute_invalid_characters name = substituted)
    by apply substitute_invalid_characters_flat_map.
  split; [exact Hs|]. split; [|split].
  - intros c Hc Hin. apply remove_invalid_characters_no_key in Hin.
    apply Hin. cbn in Hc |- *.
    repeat (destruct Hc as [<- | Hc]; [tauto|]). contradiction.
  - rewrite remove_invalid_characters_cases, Hs. unfold append_dot_if_reserved.
    destruct (str_in substituted invalid_filenames) eqn:E.
    + split; [intros _; now apply str_in_In | reflexivity].
    + split.
      * intros H. apply (f_equal (@List.length char)) in H.
        rewrite List.length_app in H. cbn in H. lia.
      * intros H. apply str_in_In in H. congruence.
  - intros H. rewrite remove_invalid_characters_cases, Hs.
    unfold append_dot_if_reserved.
    destruct (str_in substituted invalid_filenames) eqn:E; [|reflexivity].
    apply str_in_In in E. contradiction.
Qed.

(** C1 as the claim states it fails: the question mark of the name What?
    is not removed, it is replaced by a dot. *)
Lemma C1_counterexample :
  remove_invalid_characters (lit "What?") = lit "What."
  /\ sanitize_spec (lit "What?") = lit "What"
  /\ ~ (forall name, remove_invalid_characters name = sanitize_spec name).
Proof.
  split; [reflexivity|]. split; [reflexivity|].
  intros H. specialize (H (lit "What?")). discriminate H.
Qed.

(** C1 amended: no question mark survives in the output.  When, after the
    seven keys before the question mark have been substituted, some
    question mark is immediately preceded by a dot, every question mark is
    removed; otherwise every question mark is replaced by a dot. *)
Theorem C1_question_marks (name : str) :
  ~ In ch_question (remove_invalid_characters name)
  /\ (re_search_dots_question (name_before_question name) = true ->
      remove_invalid_characters name =
      append_dot_if_reserved (flat_map (char_substitute []) name))
  /\ (re_search_dots_question (name_before_question name) = false ->
      remove_invalid_characters name =
      append_dot_if_reserved (flat_map (char_substitute (lit ".")) name)).
Proof.
  split; [|split].
  - intros Hin. apply remove_invalid_characters_no_key in Hin.
    apply Hin. cbn. tauto.
  - intros H. rewrite remove_invalid_characters_cases,
      substitute_invalid_characters_flat_map.
    unfold question_replacement. now rewrite H.
  - intros H. rewrite remove_invalid_characters_cases,
      substitute_invalid_characters_flat_map.
    unfold question_replacement. now rewrite H.
Qed.

Lemma C1_question_marks_witness :
  remove_invalid_characters (lit "Wait...?") = lit "Wait..."
  /\ remove_invalid_characters (lit "Who? Me.") = lit "Who. Me.".
Proof.
  split.
  - apply (proj1 (proj2 (C1_question_marks (lit "Wait...?")))). reflexivity.
  - apply (proj2 (proj2 (C1_question_marks (lit "Who? Me.")))). reflexivity.
Defined.

(** C10: the normaliser is idempotent. *)
Theorem C10_sanitize_idempotent (s : str) :
  remove_invalid_characters (remove_invalid_characters s) =
  remove_invalid_characters s.
Proof.
  rewrite (remove_invalid_characters_cases (remove_invalid_characters s)).
  rewrite substitute_invalid_characters_id
    by (intros c; apply remove_invalid_characters_no_key).
  unfold append_dot_if_reserved at 1.
  rewrite (remove_invalid_characters_cases s) at 1.
  now rewrite append_dot_if_reserved_idem.
Qed.

(** ** Result evaluation *)

Example strptime_year_ok :
  strptime_year (PStr (lit "2020-11-15")) = Ok 2020%Z.
Proof. reflexivity. Qed.

Example strptime_year_bad :
  strptime_year (PStr (lit "2020-11")) = Raise ValueError
  /\ strptime_year PNone = Raise TypeError.
Proof. split; reflexivity. Qed.

Example evaluate_results_two :
  potential (self (snd (evaluate_results
    (search_results [movie_record 1 "A" "1999-03-31";
                     movie_record 2 "B" "2020-01-01"])
    (PStr (lit "Movie.2020.1080p"))
    (start (init (lit "Movie.2020.1080p") PNone PNone PNone false) []))))
  = [movie_record 2 "B" "2020-01-01"; movie_record 1 "A" "1999-03-31"].
Proof. reflexivity. Qed.

Lemma present_and_falsy_dict (key : str) (d : list (str * pyval)) :
  present_and_falsy key (PDict d) = Ok (falsy_at d key).
Proof.
  unfold present_and_falsy, falsy_at. cbn.
  destruct (dict_get d key); reflexivity.
Qed.

Lemma present_and_truthy_dict (key : str) (d : list (str * pyval)) :
  present_and_truthy key (PDict d) = Ok (truthy_at d key).
Proof.
  unfold present_and_truthy, truthy_at. cbn.
  destruct (dict_get d key); reflexivity.
Qed.

Lemma truthy_at_get (d : list (str * pyval)) (key : str) :
  truthy_at d key = true ->
  exists v, dict_get d key = Some v /\ truthy v = true.
Proof.
  unfold truthy_at. destruct (dict_get d key) as [v|]; [|discriminate].
  intros H. now exists v.
Qed.

Lemma evaluate_result_ok (folder : str) (r : pyval) (s : identify_state) :
  record_ok r = true ->
  exists s',
    evaluate_result (PStr folder) r s = (Ok Next, s')
    /\ potential (self s') = step_potential folder r (potential (self s)).
Proof.
  unfold record_ok, step_potential, year_in_name.
  destruct r as [| | | | |l|d]; try discriminate.
  destruct (dict_get d (lit "media_type")) as [mt|] eqn:Hmt; [|discriminate].
  unfold evaluate_result, bind, get_self, lift.
  cbn [getitem]. rewrite Hmt.
  unfold is_candidate. rewrite Hmt.
  destruct (not_supported mt) eqn:Hsup.
  { intros _. cbn [negb andb].
    destruct (debug (self s)); cbn; eexists; split; reflexivity. }
  rewrite !present_and_falsy_dict. cbn [or_else rbind negb andb].
  destruct (falsy_at d (lit "name")) eqn:Hname.
  { intros _. cbn [orb negb andb].
    destruct (debug (self s)); cbn; eexists; split; reflexivity. }
  destruct (falsy_at d (lit "title")) eqn:Htitle.
  { intros _. cbn [orb negb andb].
    destruct (debug (self s)); cbn; eexists; split; reflexivity. }
  destruct (falsy_at d (lit "release_date")) eqn:Hrel.
  { intros _. cbn [orb negb andb].
    destruct (debug (self s)); cbn; eexists; split; reflexivity. }
  destruct (falsy_at d (lit "first_air_date")) eqn:Hair.
  { intros _. cbn [orb negb andb].
    destruct (debug (self s)); cbn; eexists; split; reflexivity. }
  cbn [orb negb andb]. rewrite !present_and_truthy_dict.
  unfold date_of.
  destruct (truthy_at d (lit "release_date")) eqn:Htr.
  - destruct (truthy_at_get _ _ Htr) as [v [Hv Hvt]].
    cbn [getitem]. rewrite Hv.
    destruct (strptime_year v) as [y|e] eqn:Hy; [|discriminate]. intros _.
    assert (Hnone : v <> PNone) by (intros ->; discriminate Hvt).
    destruct v; try contradiction; try discriminate Hy.
    cbn. destruct (substring_in (str_of_Z y) folder);
      eexists; split; reflexivity.
  - destruct (truthy_at d (lit "first_air_date")) eqn:Hta.
    + destruct (truthy_at_get _ _ Hta) as [v [Hv Hvt]].
      cbn [getitem]. rewrite Hv.
      destruct (strptime_year v) as [y|e] eqn:Hy; [|discriminate]. intros _.
      assert (Hnone : v <> PNone) by (intros ->; discriminate Hvt).
      destruct v; try contradiction; try discriminate Hy.
      cbn. destruct (substring_in (str_of_Z y) folder);
        eexists; split; reflexivity.
    + cbn. discriminate.
Qed.

Lemma for_each_evaluate_result (folder : str) (rs : list pyval) :
  forallb record_ok rs = true ->
  forall s, exists s',
    for_each rs (evaluate_result (PStr folder)) s = (Ok tt, s')
    /\ potential (self s') =
       fold_left (fun p r => step_potential folder r p) rs
                 (potential (self s)).
Proof.
  induction rs as [|r rs IH]; intros Hok s.
  - exists s. split; reflexivity.
  - cbn [forallb] in Hok. apply andb_true_iff in Hok as [Hr Hrs].
    destruct (evaluate_result_ok folder r s Hr) as [s1 [Hrun Hpot]].
    destruct (IH Hrs s1) as [s2 [Hrun2 Hpot2]].
    exists s2. split.
    + cbn [for_each]. unfold bind at 1. rewrite Hrun. exact Hrun2.
    + cbn [fold_left]. rewrite Hpot2, Hpot. reflexivity.
Qed.

(** Matching survivors pile up in front, newest first; the others queue up
    behind. *)
Lemma fold_step_potential (folder : str) (rs p : list pyval) :
  fold_left (fun p r => step_potential folder r p) rs p =
  rev (filter (year_in_name folder) (filter is_candidate rs))
  ++ p
  ++ filter (fun r => negb (year_in_name folder r)) (filter is_candidate rs).
Proof.
  revert p. induction rs as [|r rs IH]; intros p.
  - cbn. now rewrite app_nil_r.
  - cbn [fold_left filter]. rewrite IH. unfold step_potential.
    destruct (is_candidate r); [|reflexivity].
    cbn [filter]. destruct (year_in_name folder r); cbn [negb rev].
    + now rewrite <- !app_assoc.
    + now rewrite <- !app_assoc.
Qed.

Lemma ranked_only_candidates (folder : str) (rs : list pyval) (r : pyval) :
  In r (ranked folder rs) -> In r rs /\ is_candidate r = true.
Proof.
  unfold ranked. rewrite in_app_iff, <- in_rev, !filter_In. tauto.
Qed.

(** C2 as the claim states it fails: two records whose year 2020 occurs
    in the folder name come out in reverse catalog order. *)
Lemma C2_counterexample :
  let a := movie_record 1 "A" "2020-01-01" in
  let b := movie_record 2 "B" "2020-05-05" in
  let folder := lit "Movie.2020" in
  let s' := snd (evaluate_results (search_results [a; b]) (PStr folder)
                   (start (init folder PNone PNone PNone false) [])) in
  potential (self s') = [b; a]
  /\ ranked_stable folder [a; b] = [a; b]
  /\ potential (self s') <> ranked_stable folder [a; b].
Proof.
  cbv zeta. split; [reflexivity|]. split; [reflexivity|].
  intros H. vm_compute in H. discriminate H.
Qed.

(** C2 amended: when every record is a dict with a media type and the date
    of every survivor parses, evaluation completes and the candidate list
    is: the survivors whose release year occurs in the folder name, in
    reverse catalog order, followed by the other survivors in catalog
    order. *)
Theorem C2_ranked_candidates
  (d : list (str * pyval)) (rs : list pyval) (folder : str)
  (s : identify_state) :
  dict_get d (lit "results") = Some (PList rs) ->
  forallb record_ok rs = true ->
  exists s',
    evaluate_results (PDict d) (PStr folder) s = (Ok tt, s')
    /\ potential (self s') = ranked folder rs.
Proof.
  intros Hd Hok. unfold evaluate_results, bind, lift.
  cbn [contains getitem]. rewrite Hd. cbn [set_self modify iterate].
  destruct (for_each_evaluate_result folder rs Hok
              {| self := set_potential [] (self s); stdin := stdin s;
                 stdout := stdout s |}) as [s' [Hrun Hpot]].
  exists s'. split; [exact Hrun|].
  rewrite Hpot, fold_step_potential. reflexivity.
Qed.

Lemma C2_ranked_candidates_witness :
  let a := movie_record 1 "A" "2020-01-01" in
  let b := movie_record 2 "B" "1999-03-31" in
  let c := movie_record 3 "C" "2020-05-05" in
  let folder := lit "Movie.2020" in
  exists s',
    evaluate_results (search_results [a; b; c]) (PStr folder)
      (start (init folder PNone PNone PNone false) []) = (Ok tt, s')
    /\ potential (self s') = [c; a; b].
Proof.
  cbv zeta.
  exact (C2_ranked_candidates
           [(lit "page", PInt 1);
            (lit "results",
             PList [movie_record 1 "A" "2020-01-01";
                    movie_record 2 "B" "1999-03-31";
                    movie_record 3 "C" "2020-05-05"])]
           [movie_record 1 "A" "2020-01-01";
            movie_record 2 "B" "1999-03-31";
            movie_record 3 "C" "2020-05-05"]
           (lit "Movie.2020")
           (start (init (lit "Movie.2020") PNone PNone PNone false) [])
           eq_refl eq_refl).
Defined.

(** C8: on the records a typed search returns (no [media_type] key) the
    evaluation raises [KeyError]; so it does on a record without any date
    ([TypeError]) and on a date that does not parse ([ValueError]). *)
Theorem C8_evaluate_results_raises :
  let folder := lit "Show.S01E01" in
  let o := init folder (PStr (lit "Show")) (PInt 2019) (PStr (lit "tv"))
                false in
  fst (evaluate_results
         (search_results [tv_search_record 42 "Show" "2019-01-01"])
         (PStr folder) (start o [])) = Raise KeyError
  /\ fst (evaluate_results
            (search_results
               [PDict [(lit "media_type", PStr (lit "tv"));
                       (lit "name", PStr (lit "Show"))]])
            (PStr folder) (start o [])) = Raise TypeError
  /\ fst (evaluate_results
            (search_results
               [PDict [(lit "media_type", PStr (lit "tv"));
                       (lit "name", PStr (lit "Show"));
                       (lit "first_air_date", PStr (lit "2019"))]])
            (PStr folder) (start o [])) = Raise ValueError.
Proof. cbv zeta. repeat split; reflexivity. Qed.

(** ** The rename planner and executor *)

Section RenameMediaFacts.

Context {W : Type} `{FS : FileSystem W} `{TMDB : Catalog}
        `{RE : RegexLibrary}.

Lemma quiet_ret {A} (a : A) : quiet (W := W) (ret a).
Proof. intros s. split; reflexivity. Qed.

Lemma quiet_raise {A} (e : exn) : quiet (W := W) (A := A) (raise e).
Proof. intros s. split; reflexivity. Qed.

Lemma quiet_lift {A} (r : result A) : quiet (W := W) (lift r).
Proof. intros s. split; reflexivity. Qed.

Lemma quiet_echo (l : line) : quiet (W := W) (echo l).
Proof. intros s. split; reflexivity. Qed.

Lemma quiet_ask {A} (query : W -> A) : quiet (ask query).
Proof. intros s. split; reflexivity. Qed.

Lemma quiet_ask_result {A} (query : W -> result A) :
  quiet (ask_result query).
Proof. intros s. split; reflexivity. Qed.

Lemma quiet_bind {A B} (c : M (run_state W) A) (k : A -> M (run_state W) B) :
  quiet c -> (forall a, quiet (k a)) -> quiet (bind c k).
Proof.
  intros Hc Hk s. unfold bind. specialize (Hc s).
  destruct (c s) as [[a|e] s1]; cbn [snd] in *.
  - destruct (Hk a s1) as [H1 H2]. destruct Hc as [H3 H4].
    split; congruence.
  - exact Hc.
Qed.

Lemma quiet_for_each {A} (xs : list A) (body : A -> M (run_state W) control) :
  (forall x, quiet (body x)) -> quiet (for_each xs body).
Proof.
  intros Hb. induction xs as [|x xs IH]; cbn [for_each].
  - apply quiet_ret.
  - apply quiet_bind; [apply Hb|]. intros [|]; [exact IH | apply quiet_ret].
Qed.

(** Breaks a statement down into its parts. *)
Ltac quiet_steps :=
  repeat first
    [ apply quiet_ret | apply quiet_raise | apply quiet_lift
    | apply quiet_echo | apply quiet_ask | apply quiet_ask_result
    | apply quiet_for_each; intros ?
    | apply quiet_bind; [|intros ?]
    | match goal with
      | |- quiet (if ?b then _ else _) => destruct b
      | |- quiet (match ?x with _ => _ end) => destruct x
      end ].

Lemma quiet_list_files (folder : str) (items : list str) :
  quiet (list_files folder items).
Proof.
  induction items as [|i items IH]; cbn [list_files].
  - apply quiet_ret.
  - apply quiet_bind; [apply quiet_ask|]. intros is_file.
    apply quiet_bind.
    + quiet_steps.
    + intros found. apply quiet_bind; [exact IH|]. intros. apply quiet_ret.
Qed.

Lemma quiet_rename_base_folder (self : RenameMedia) (folder name : str)
  (year : Z) :
  validate self = true ->
  quiet (__rename_base_folder self folder name year).
Proof.
  intros Hv. unfold __rename_base_folder. rewrite Hv.
  cbn [negb andb]. apply quiet_bind; [apply quiet_echo|]. intros _.
  apply quiet_bind; [apply quiet_ask|]. intros target_exists.
  rewrite andb_false_r. quiet_steps.
Qed.

Lemma quiet_show_file (self : RenameMedia) (id : pyval)
  (folder show_folder show_folder_name file : str) :
  validate self = true ->
  quiet (show_file self id folder show_folder show_folder_name file).
Proof.
  intros Hv. unfold show_file. rewrite Hv. cbn [negb]. quiet_steps.
Qed.

Lemma quiet_movie_file (self : RenameMedia)
  (folder movie_folder_name file : str) :
  validate self = true ->
  quiet (movie_file self folder movie_folder_name file).
Proof.
  intros Hv. unfold movie_file. rewrite Hv. cbn [negb]. quiet_steps.
Qed.

(** In validate mode the TV pipeline issues no mutating call and leaves the
    disk as it is. *)
Lemma show_validate_quiet (self : RenameMedia) (item : str) (id : pyval)
  (show_name : str) (year : Z) :
  validate self = true ->
  quiet (show self item id show_name year).
Proof.
  intros Hv. unfold show. rewrite Hv. cbn [negb].
  apply quiet_bind; [apply quiet_ask|]. intros is_dir.
  apply quiet_bind.
  - destruct is_dir.
    + apply quiet_bind; [apply quiet_ask_result|]. intros items.
      apply quiet_bind; [apply quiet_list_files|]. intros files.
      apply quiet_bind; [now apply quiet_rename_base_folder|].
      intros. apply quiet_ret.
    + quiet_steps.
  - intros [[[f sf] sfn] files].
    apply quiet_for_each. intros file. now apply quiet_show_file.
Qed.

(** In validate mode the movie pipeline issues no mutating call and leaves
    the disk as it is. *)
Lemma movie_validate_quiet (self : RenameMedia) (item movie_name : str)
  (year : Z) :
  validate self = true ->
  quiet (movie self item movie_name year).
Proof.
  intros Hv. unfold movie.
  do 3 (apply quiet_bind; [apply quiet_echo|]; intros _).
  apply quiet_bind; [apply quiet_ask|]. intros is_dir.
  destruct is_dir.
  - apply quiet_bind; [now apply quiet_rename_base_folder|].
    intros [folder movie_folder_name].
    apply quiet_bind; [apply quiet_ask_result|]. intros files.
    apply quiet_for_each. intros file. now apply quiet_movie_file.
  - rewrite Hv. cbn [negb]. apply quiet_bind; [apply quiet_ask|].
    intros there. rewrite andb_false_r. quiet_steps.
Qed.


(** The move of a single TV file is a bare [os.rename]: what it raises
    leaves [show]. *)
Lemma show_single_file_move_raises (self : RenameMedia) (item : str)
  (id : pyval) (show_name : str) (year : Z) (s : run_state W) (e : exn) :
  let show_folder :=
    os_path_join (join sep (removelast (split ch_slash item)))
      (name_and_year (remove_invalid_characters show_name) year) in
  validate self = false ->
  os_path_isdir (disk s) item = false ->
  os_path_isdir (disk s) show_folder = true ->
  os_rename (disk s) item
    (os_path_join show_folder (last (split ch_slash item) [])) = Raise e ->
  fst (show self item id show_name year s) = Raise e.
Proof.
  intros show_folder Hv Hitem Hdir Hr. unfold show, bind at 1, ask at 1.
  rewrite Hitem, Hv. cbn [negb].
  unfold bind, ask. fold show_folder. rewrite Hdir. cbn [negb ret].
  unfold mutate. cbn [disk]. rewrite Hr. reflexivity.
Qed.


(** A file whose season record lists fewer episodes than its episode
    number never reaches the filesystem, whatever else the record holds:
    the iteration issues no mutating call and leaves the disk as it is,
    also when reading the air date raises. *)
Lemma show_file_short_season_quiet (self : RenameMedia) (id : pyval)
  (folder show_folder show_folder_name file file_name : str)
  (season episode : Z) (d : list (str * pyval)) (episodes : list pyval)
  (s : run_state W) :
  str_in (extension_of file) INVALID_EXTENSIONS = false ->
  re_sub_extension (extension_of file) file = Ok file_name ->
  re_search_season_episode file_name = Some (season, episode) ->
  get_tv_season id season = Ok (PDict d) ->
  dict_get d (lit "episodes") = Some (PList episodes) ->
  (Z.of_nat (List.length episodes) < episode)%Z ->
  let out := show_file self id folder show_folder show_folder_name file s in
  calls (snd out) = calls s /\ disk (snd out) = disk s.
Proof.
  intros Hext Hsub Hse Hinfo Heps Hlt out. subst out.
  set (same := fun out : result control * run_state W =>
                 calls (snd out) = calls s /\ disk (snd out) = disk s).
  change (same (show_file self id folder show_folder show_folder_name
                  file s)).
  assert (Hsame : forall r l,
             same (r, {| disk := disk s; calls := calls s; printed := l |}))
    by (intros; split; reflexivity).
  apply Z.ltb_lt in Hlt.
  unfold show_file. rewrite Hext.
  unfold bind at 1, lift at 1. rewrite Hsub, Hse.
  unfold bind at 1, lift at 1. rewrite Hinfo.
  unfold bind, lift, echo, modify, ret. cbn [contains getitem rbind].
  destruct s as [w issued out]. cbn [disk calls printed] in *.
  destruct (dict_get d (lit "status_code")) as [code|]; cbn [rbind].
  - destruct (eq_int code 404).
    + destruct (dict_get d (lit "response")); apply Hsame.
    + destruct (dict_get d (lit "air_date")) as [v|]; [|apply Hsame].
      destruct (split_dash_first v); [|apply Hsame].
      rewrite Heps. cbn [py_len]. rewrite Hlt. apply Hsame.
  - destruct (dict_get d (lit "air_date")) as [v|]; [|apply Hsame].
    destruct (split_dash_first v); [|apply Hsame].
    rewrite Heps. cbn [py_len]. rewrite Hlt. apply Hsame.
Qed.


End RenameMediaFacts.




(** C3: on a read-only library the move of a single TV file raises
    [PermissionError] out of [show]: the move is a bare [os.rename], not
    the rename primitive.  On the same disk the movie path, which moves
    the file through the primitive, logs the failure and returns. *)
Theorem C3_show_move_raises :
  let item := lit "/media/Show.S01E01.mkv" in
  let tv := show real_run item (PInt 42) (lit "Show") 2019
              (fresh_run read_only_media) in
  let film := movie real_run item (lit "Show") 2019
                (fresh_run read_only_media) in
  fst tv = Raise PermissionError
  /\ calls (snd tv) =
     [CallRename item (lit "/media/Show (2019)/Show.S01E01.mkv")]
  /\ printed (snd tv) = []
  /\ fst film = Ok tt
  /\ last (printed (snd film)) [] =
     [Text (lit "OSError for /media/Show (2019)/Show (2019).mkv For:"
            ++ nl ++ lit " ");
      Reason PermissionError].
Proof. cbv zeta. repeat split; vm_compute; reflexivity. Qed.

(** C5: for the movie folder /data/1080p/Some.Movie the dry run announces
    the name Some Movie (2020) [1080p].mkv, and the real run renames the
    file to Some Movie (2020).mkv: when the file name has no resolution
    the dry run reads it off the parent of the folder, the real run off
    the renamed folder. *)
Theorem C5_validate_plan_differs :
  let item := lit "/data/1080p/Some.Movie" in
  let dry := movie dry_run item (lit "Some Movie") 2020
               (fresh_run library_by_resolution) in
  let real := movie real_run item (lit "Some Movie") 2020
                (fresh_run library_by_resolution) in
  fst dry = Ok tt
  /\ fst real = Ok tt
  /\ calls (snd dry) = []
  /\ last (printed (snd dry)) [] =
     [Text (lit "Renaming 'movie.mkv' to 'Some Movie (2020) [1080p].mkv'")]
  /\ last (printed (snd real)) [] =
     [Text (lit "Renaming 'movie.mkv' to 'Some Movie (2020).mkv'")]
  /\ calls (snd real) =
     [ CallRename item (lit "/data/1080p/Some Movie (2020)/");
       CallRename (lit "/data/1080p/Some Movie (2020)/movie.mkv")
         (lit "/data/1080p/Some Movie (2020)/Some Movie (2020).mkv") ].
Proof. cbv zeta. repeat split; vm_compute; reflexivity. Qed.

(** ** Manual entry *)

(** C4: after a run without identity, the user types a title, a valid
    year and a valid type; the search answers with results; the call of
    [__evaluate_results] with one argument raises [TypeError]: no result
    is evaluated and no confirmation is asked. *)
Theorem C4_manual_entry_raises :
  let o := init (lit "Unknown.Show") PNone PNone PNone false in
  let out := manual_entry (start o [lit "Show"; lit "2019"; lit "tv"]) in
  fst out = Raise TypeError
  /\ potential (self (snd out)) = []
  /\ stdin (snd out) = []
  /\ last (stdout (snd out)) [] =
     [Text (lit "What type of media is it (tv/movie)? ")].
Proof. cbv zeta. repeat split; vm_compute; reflexivity. Qed.

Lemma bind_ok {S A B} (c : M S A) (k : A -> M S B) (s s' : S) (a : A) :
  c s = (Ok a, s') -> bind c k s = k a s'.
Proof. intros H. unfold bind. now rewrite H. Qed.

Lemma bind_raise {S A B} (c : M S A) (k : A -> M S B) (s s' : S) (e : exn) :
  c s = (Raise e, s') -> bind c k s = (Raise e, s').
Proof. intros H. unfold bind. now rewrite H. Qed.

(** Runs the first statement of a sequence when it computes. *)
Ltac run_step :=
  erewrite bind_ok by reflexivity; cbv beta; cbn [self stdin stdout].

Section IdentifyMediaFacts.

Context `{TMDB : Catalog}.

(** A prompt whose first answer is accepted. *)
Lemma prompt_until_accept {A} (p : line)
  (check : unit -> str -> ID (option A)) (answer : str) (rest : list str)
  (s s' : identify_state) (a : A) :
  check tt answer {| self := self s; stdin := rest;
                     stdout := stdout s ++ [p] |} = (Ok (Some a), s') ->
  prompt_until (ret tt) (fun _ => ret p) check (answer :: rest) s
  = (Ok a, s').
Proof.
  intros H. cbn [prompt_until].
  unfold bind, ret, print, set_stdin, modify. cbn [self stdin stdout].
  now rewrite H.
Qed.

(** A typed search that the catalog answers. *)
Lemma search_media_found (s : identify_state) (title kind : str) (n : Z)
  (found : pyval) :
  name (self s) = PStr title ->
  year (self s) = PInt n ->
  type_ (self s) = PStr kind ->
  search_by_type kind (PStr title) (PInt n) = Ok found ->
  exists s',
    search_media (PStr title) s = (Ok (found, PStr title), s')
    /\ self s' = self s /\ stdin s' = stdin s.
Proof.
  intros Hname Hyear Htype Hsearch.
  unfold search_media. run_step. rewrite Hname, Hyear, Htype.
  assert (Hn : (if truthy (PStr title) then PStr title else PStr title)
               = PStr title)
    by (destruct (truthy (PStr title)); reflexivity).
  rewrite Hn. unfold search_by_type in Hsearch. cbn [eq_str].
  destruct (str_eqb kind (lit "tv"));
    [|destruct (str_eqb kind (lit "movie"))];
    rewrite Hsearch;
    destruct (debug (self s)); eexists;
      (split; [repeat run_step; reflexivity | split; reflexivity]).
Qed.

(** Whatever the catalog, the object and the lines typed: once a title, a
    valid year and a valid type have been read and the search for that
    type has answered with a truthy value, the pass raises [TypeError],
    and the candidate list is what it was. *)
Lemma manual_entry_pass_raises (s : identify_state)
  (title typed_year typed_type : str) (rest : list str) (n : Z)
  (found : pyval) :
  stdin s = title :: typed_year :: typed_type :: rest ->
  four_digit_year typed_year = Some n ->
  str_in (lower (lower typed_type)) SUPPORTED_TYPES = true ->
  search_by_type (lower (lower typed_type)) (PStr title) (PInt n)
  = Ok found ->
  truthy found = true ->
  exists s',
    manual_entry_pass s = (Raise TypeError, s')
    /\ potential (self s') = potential (self s)
    /\ stdin s' = rest.
Proof.
  intros Hin Hyear Htype Hsearch Hfound.
  destruct s as [o typed out]. cbn [stdin] in Hin. subst typed.
  unfold manual_entry_pass.
  do 5 run_step. do 3 run_step.
  erewrite bind_ok
    by (apply prompt_until_accept; rewrite Hyear; reflexivity).
  cbv beta. cbn [self stdin stdout]. do 3 run_step.
  erewrite bind_ok
    by (apply prompt_until_accept; rewrite Htype; reflexivity).
  cbv beta. cbn [self stdin stdout]. do 2 run_step.
  match goal with
  | |- context [bind (search_media ?v) ?k ?st] =>
      destruct (search_media_found st title (lower (lower typed_type)) n
                  found eq_refl eq_refl eq_refl Hsearch)
        as [s1 [Hrun [Hself Hstdin]]];
      change v with (PStr title)
  end.
  erewrite bind_ok by exact Hrun. cbv beta iota. rewrite Hfound.
  exists s1. split; [apply bind_raise; reflexivity|].
  rewrite Hself, Hstdin. split; reflexivity.
Qed.

End IdentifyMediaFacts.

(** ** The module-level functions of the script *)

Lemma digit_value_range (c : char) (d : Z) :
  digit_value c = Some d -> (0 <= d <= 9)%Z.
Proof.
  unfold digit_value.
  destruct ((48 <=? c) && (c <=? 57)) eqn:E; [|discriminate].
  intros H. injection H as <-.
  apply andb_true_iff in E as [E1 E2].
  apply N.leb_le in E1, E2. lia.
Qed.

Lemma decimal_value_range (c : char) (d : Z) :
  decimal_value c = Some d -> (0 <= d <= 9)%Z.
Proof.
  unfold decimal_value.
  destruct (find (fun z => (z <=? c) && (c <=? z + 9)) decimal_zeros)
    as [z|] eqn:E; [|discriminate].
  intros H. injection H as <-.
  apply find_some in E as [_ E].
  apply andb_true_iff in E as [E1 E2].
  apply N.leb_le in E1, E2. lia.
Qed.

(** The years [valid_year] accepts are those from 1900 to 2299, and it
    returns the number it was given: every year of that range, written in
    decimal, is accepted and comes back as itself. *)
Theorem valid_year_range_round_trip :
  (forall y n, valid_year y = Returns n -> (1900 <= n <= 2299)%Z)
  /\ (forall n, (1900 <= n <= 2299)%Z ->
                valid_year (str_of_Z n) = Returns n)
  /\ (forall y, valid_year y = Raises ArgumentTypeError
                \/ exists n, valid_year y = Returns n).
Proof.
  split; [|split].
  - intros y n. unfold valid_year.
    destruct y as [|a [|b [|c [|d rest]]]]; try discriminate.
    destruct (digit_value a) as [x1|] eqn:Ha; [|discriminate].
    destruct (digit_value b) as [x2|] eqn:Hb; [|discriminate].
    destruct (decimal_value c) as [x3|] eqn:Hc; [|discriminate].
    destruct (decimal_value d) as [x4|] eqn:Hd; [|discriminate].
    apply digit_value_range in Ha, Hb.
    apply decimal_value_range in Hc, Hd.
    destruct (_ && _) eqn:E; [|discriminate].
    intros H.
    assert (Hn : n = (1000 * x1 + 100 * x2 + 10 * x3 + x4)%Z)
      by congruence.
    clear H.
    apply andb_true_iff in E as [_ E]. apply orb_true_iff in E.
    destruct E as [E | E]; apply andb_true_iff in E as [E1 E2].
    + apply Z.eqb_eq in E1, E2. lia.
    + apply Z.eqb_eq in E1. apply Z.leb_le in E2. lia.
  - intros n Hn.
    assert (Hall : forallb
              (fun k => match valid_year (str_of_Z (1900 + Z.of_nat k)) with
                        | Returns m => (m =? 1900 + Z.of_nat k)%Z
                        | Raises _ => false
                        end) (seq 0 400) = true)
      by (vm_compute; reflexivity).
    rewrite forallb_forall in Hall.
    specialize (Hall (Z.to_nat (n - 1900))).
    replace (1900 + Z.of_nat (Z.to_nat (n - 1900)))%Z with n in Hall by lia.
    assert (Hin : In (Z.to_nat (n - 1900)) (seq 0 400))
      by (apply in_seq; lia).
    specialize (Hall Hin).
    destruct (valid_year (str_of_Z n)) as [m|]; [|discriminate].
    apply Z.eqb_eq in Hall. now subst.
  - intros y. unfold valid_year.
    destruct y as [|a [|b [|c [|d rest]]]]; auto.
    destruct (digit_value a), (digit_value b), (decimal_value c),
      (decimal_value d); auto.
    destruct (_ && _); eauto.
Qed.

Lemma drop_while_head (f : char -> bool) (s : str) (c : char) (rest : str) :
  drop_while f s = c :: rest -> f c = false.
Proof.
  induction s as [|x s IH]; cbn; [discriminate|].
  destruct (f x) eqn:E; [exact IH|].
  intros H. injection H as -> _. exact E.
Qed.

Lemma drop_while_In (f : char -> bool) (s : str) (c : char) :
  In c (drop_while f s) -> In c s.
Proof.
  induction s as [|x s IH]; cbn; [tauto|].
  destruct (f x); [intros H; right; exact (IH H) | cbn; tauto].
Qed.

Lemma drop_while_split (f : char -> bool) (s : str) (c : char) :
  In c s -> f c = true \/ In c (drop_while f s).
Proof.
  induction s as [|x s IH]; cbn; [tauto|].
  destruct (f x) eqn:E.
  - intros [<- | H]; [now left | exact (IH H)].
  - cbn. tauto.
Qed.

Lemma drop_while_length (f : char -> bool) (s : str) :
  (List.length (drop_while f s) <= List.length s)%nat.
Proof.
  induction s as [|x s IH]; cbn; [lia|].
  destruct (f x); cbn; lia.
Qed.

Lemma strip_In (s : str) (c : char) : In c (strip s) -> In c s.
Proof.
  unfold strip. rewrite <- in_rev. intros H.
  apply drop_while_In in H. rewrite <- in_rev in H.
  now apply drop_while_In in H.
Qed.

Lemma strip_split (s : str) (c : char) :
  In c s -> is_space c = true \/ In c (strip s).
Proof.
  intros H. unfold strip.
  destruct (drop_while_split is_space s c H) as [Hs | Hin]; [now left|].
  rewrite in_rev in Hin.
  destruct (drop_while_split is_space _ c Hin) as [Hs | Hin2]; [now left|].
  right. now rewrite <- in_rev.
Qed.

Lemma strip_length (s : str) : (List.length (strip s) <= List.length s)%nat.
Proof.
  unfold strip. rewrite length_rev.
  etransitivity; [apply drop_while_length|]. rewrite length_rev.
  apply drop_while_length.
Qed.

Lemma rev_strip_head (s : str) (c : char) (rest : str) :
  rev (strip s) = c :: rest -> is_space c = false.
Proof.
  unfold strip. rewrite rev_involutive. apply drop_while_head.
Qed.

Lemma removelast_In {A} (l : list A) (x : A) :
  In x (removelast l) -> In x l.
Proof.
  induction l as [|a l IH]; cbn; [tauto|].
  destruct l as [|b l]; [cbn; tauto|].
  intros [<- | H]; [now left | right; exact (IH H)].
Qed.

Lemma removelast_length {A} (l : list A) :
  l <> [] -> (List.length (removelast l) < List.length l)%nat.
Proof.
  intros H. destruct (exists_last H) as [l' [a ->]].
  rewrite removelast_last, length_app. cbn. lia.
Qed.

Lemma rev_cons_last {A} (l : list A) (x : A) (rest : list A) :
  rev l = x :: rest -> l = removelast l ++ [x].
Proof.
  intros H. apply (f_equal (@rev A)) in H. rewrite rev_involutive in H.
  subst l. cbn. now rewrite removelast_last.
Qed.

Lemma strip_trailing_separators_raises (fuel : nat) (path : str) (e : exn) :
  (List.length path < fuel)%nat ->
  strip_trailing_separators fuel path = Raise e ->
  e = IndexError /\ forall c, In c path -> blank_or_separator c = true.
Proof.
  revert path. induction fuel as [|fuel IH]; intros path Hlen; [lia|].
  cbn [strip_trailing_separators].
  destruct (rev (strip path)) as [|final rest] eqn:Hrev.
  - intros H. injection H as <-. split; [reflexivity|].
    intros c Hc. unfold blank_or_separator.
    destruct (strip_split path c Hc) as [-> | Hin]; [reflexivity|].
    rewrite in_rev, Hrev in Hin. destruct Hin.
  - destruct (char_eqb final ch_slash) eqn:Hfinal; [|discriminate].
    intros H.
    assert (Hne : strip path <> [])
      by (intros Hnil; rewrite Hnil in Hrev; discriminate).
    pose proof (removelast_length (strip path) Hne) as Hl.
    pose proof (strip_length path) as Hs.
    destruct (IH (removelast (strip path)) ltac:(lia) H) as [-> Hall].
    split; [reflexivity|].
    intros c Hc. unfold blank_or_separator.
    destruct (strip_split path c Hc) as [-> | Hin]; [reflexivity|].
    rewrite (rev_cons_last _ _ _ Hrev), in_app_iff in Hin.
    destruct Hin as [Hin | [<- | []]].
    + exact (Hall c Hin).
    + rewrite Hfinal. apply orb_true_r.
Qed.

Lemma strip_trailing_separators_blank (fuel : nat) (path : str) :
  (forall c, In c path -> blank_or_separator c = true) ->
  strip_trailing_separators fuel path = Raise IndexError.
Proof.
  revert path. induction fuel as [|fuel IH]; intros path Hall;
    cbn [strip_trailing_separators];
    destruct (rev (strip path)) as [|final rest] eqn:Hrev;
    try reflexivity;
    assert (Hfinal : char_eqb final ch_slash = true)
      by (pose proof (rev_strip_head _ _ _ Hrev) as Hsp;
          assert (Hin : In final path)
            by (apply strip_In; rewrite in_rev, Hrev; now left);
          specialize (Hall final Hin); unfold blank_or_separator in Hall;
          now rewrite Hsp in Hall);
    rewrite Hfinal; [reflexivity|].
  apply IH. intros c Hc. apply Hall, strip_In.
  now apply removelast_In.
Qed.

Lemma strip_trailing_separators_ok (fuel : nat) (path r : str) :
  strip_trailing_separators fuel path = Ok r ->
  (forall c, In c r -> In c path)
  /\ exists final rest,
       rev (strip r) = final :: rest /\ char_eqb final ch_slash = false.
Proof.
  revert path. induction fuel as [|fuel IH]; intros path;
    cbn [strip_trailing_separators];
    destruct (rev (strip path)) as [|final rest] eqn:Hrev;
    try discriminate;
    destruct (char_eqb final ch_slash) eqn:Hfinal; try discriminate.
  - intros H. injection H as <-. split; [auto|]. now exists final, rest.
  - intros H. destruct (IH _ H) as [Hin Hshape]. split; [|exact Hshape].
    intros c Hc. apply strip_In, removelast_In, Hin, Hc.
  - intros H. injection H as <-. split; [auto|]. now exists final, rest.
Qed.

Lemma replace_In (old : char) (new : str) (s : str) (c : char) :
  In c (replace old new s) -> In c new \/ (In c s /\ c <> old).
Proof.
  unfold replace. rewrite in_flat_map. intros [x [Hx Hc]].
  destruct (char_eqb x old) eqn:E; [now left|].
  destruct Hc as [<- | []]. right. split; [exact Hx|].
  now apply char_eqb_neq.
Qed.

Lemma replace_In_back (old : char) (new : str) (s : str) (c : char) :
  In c s -> c <> old -> In c (replace old new s).
Proof.
  intros Hc Hne. unfold replace. rewrite in_flat_map. exists c.
  split; [exact Hc|].
  apply char_eqb_neq in Hne. rewrite Hne. now left.
Qed.

(** [standardise_path] raises exactly on the paths made of nothing but
    white space, slashes and backslashes (the empty path and the root
    among them), and what it raises is [IndexError]. *)
Theorem standardise_path_raises_iff_blank (path : str) :
  (forall e, standardise_path path = Raise e -> e = IndexError)
  /\ (standardise_path path = Raise IndexError
      <-> forall c, In c path ->
            blank_or_separator c = true \/ c = ch_backslash).
Proof.
  unfold standardise_path.
  set (p := replace ch_backslash sep (replace ch_slash sep path)).
  assert (Hback : forall c, In c path ->
            c = ch_backslash \/ In c p).
  { intros c Hc. destruct (N.eq_dec c ch_backslash) as [-> | Hne];
      [now left | right].
    unfold p. apply replace_In_back; [|exact Hne].
    destruct (N.eq_dec c ch_slash) as [-> | Hns].
    - unfold replace. rewrite in_flat_map. exists ch_slash.
      split; [exact Hc | now left].
    - now apply replace_In_back. }
  assert (Hfwd : forall c, In c p ->
            c = ch_slash \/ (In c path /\ c <> ch_backslash)).
  { intros c Hc. unfold p in Hc.
    apply replace_In in Hc as [[<- | []] | [Hc Hne]]; [now left|].
    apply replace_In in Hc as [[<- | []] | [Hc _]]; [now left|].
    right. now split. }
  split.
  - intros e H.
    now apply (strip_trailing_separators_raises _ p e (Nat.lt_succ_diag_r _)).
  - split.
    + intros H c Hc.
      destruct (Hback c Hc) as [-> | Hp]; [now right | left].
      exact (proj2 (strip_trailing_separators_raises _ p _
                      (Nat.lt_succ_diag_r _) H) c Hp).
    + intros H. apply strip_trailing_separators_blank. intros c Hc.
      destruct (Hfwd c Hc) as [-> | [Hin Hne]]; [reflexivity|].
      destruct (H c Hin) as [Hb | ->]; [exact Hb | contradiction].
Qed.

(** When [standardise_path] returns, the path holds no backslash and,
    white space aside, does not end with a slash. *)
Theorem standardise_path_result (path r : str) :
  standardise_path path = Ok r ->
  ~ In ch_backslash r
  /\ exists final rest,
       rev (strip r) = final :: rest /\ final <> ch_slash.
Proof.
  unfold standardise_path. intros H.
  destruct (strip_trailing_separators_ok _ _ _ H) as [Hin [final [rest [Hr Hf]]]].
  split.
  - intros Hb. apply Hin in Hb.
    apply replace_In in Hb as [[Hb | []] | [_ Hne]]; [discriminate Hb|].
    now apply Hne.
  - exists final, rest. split; [exact Hr | now apply char_eqb_neq].
Qed.

Lemma standardise_path_result_witness :
  ~ In ch_backslash (lit "media/Show")
  /\ exists final rest,
       rev (strip (lit "media/Show")) = final :: rest /\ final <> ch_slash.
Proof.
  apply (standardise_path_result (lit "media\Show\/ /")). reflexivity.
Defined.

Section ScriptFacts.

Context {W : Type} `{FS : FileSystem W}.

(** [check_file_exists_and_is_supported] never exits with a status; for a
    file that does not exist it ends with [NameError] (the global [path]
    is not bound) or with [AttributeError] ([sys.exist]); and without the
    debug flag it returns [True] for every file that exists, whatever its
    extension. *)
Theorem check_file_never_exits (w : W) (path : option str)
  (args_debug : bool) (file : str) :
  let out := fst (check_file_exists_and_is_supported w path args_debug file) in
  (forall code, out <> Raises (SystemExit code))
  /\ (os_path_exists w file = false ->
      out = Raises NameError \/ out = Raises (CoreError AttributeError))
  /\ (os_path_exists w file = true -> args_debug = false ->
      out = Returns true)
  /\ (out = Returns false ->
      args_debug = true
      /\ str_in (lower (extension_of file)) supported_extensions = false).
Proof.
  unfold check_file_exists_and_is_supported.
  destruct (os_path_exists w file); cbn [negb].
  - destruct (str_in _ _); destruct args_debug; cbn;
      repeat split; try discriminate; auto.
  - destruct path; cbn; repeat split; try discriminate; auto.
Qed.

End ScriptFacts.

(** ** More on the name normaliser and the rename primitives *)

(** The normaliser never returns a reserved device name. *)
Theorem remove_invalid_characters_never_reserved (name : str) :
  ~ In (remove_invalid_characters name) invalid_filenames.
Proof.
  intros H. apply str_in_In in H.
  rewrite remove_invalid_characters_cases, append_dot_if_reserved_idem in H.
  discriminate H.
Qed.

Lemma __remove_unicode_map (text : str) :
  __remove_unicode text = map unicode_substitute text.
Proof.
  unfold __remove_unicode, replacements. cbn [fold_left fst snd].
  induction text as [|c text IH]; [reflexivity|].
  change (c :: text) with ([c] ++ text).
  rewrite !replace_app, map_app, <- IH. f_equal.
  cbn [map]. unfold unicode_substitute.
  destruct (char_eqb c 8211) eqn:E1;
    [apply char_eqb_eq in E1; subst c; reflexivity|].
  destruct (char_eqb c 8217) eqn:E2;
    [apply char_eqb_eq in E2; subst c; reflexivity|].
  destruct (char_eqb c 249) eqn:E3;
    [apply char_eqb_eq in E3; subst c; reflexivity|].
  destruct (char_eqb c 250) eqn:E4;
    [apply char_eqb_eq in E4; subst c; reflexivity|].
  destruct (char_eqb c 251) eqn:E5;
    [apply char_eqb_eq in E5; subst c; reflexivity|].
  destruct (char_eqb c 252) eqn:E6;
    [apply char_eqb_eq in E6; subst c; reflexivity|].
  assert (Hrange : (249 <=? c) && (c <=? 252) = false).
  { apply char_eqb_neq in E3, E4, E5, E6.
    apply andb_false_iff.
    destruct (N.leb_spec 249 c); [right | now left].
    apply N.leb_gt. lia. }
  rewrite Hrange.
  unfold replace. cbn [flat_map app].
  rewrite E1. cbn [flat_map app]. rewrite E2. cbn [flat_map app].
  rewrite E3. cbn [flat_map app]. rewrite E3. cbn [flat_map app].
  rewrite E4. cbn [flat_map app]. rewrite E5. cbn [flat_map app].
  rewrite E6. reflexivity.
Qed.

(** [__remove_unicode] keeps the length of the text, leaves none of the
    six code points of its table in it, and changes nothing when applied
    again. *)
Theorem __remove_unicode_clean (text : str) :
  List.length (__remove_unicode text) = List.length text
  /\ (forall c, In c (map fst replacements) ->
                ~ In c (__remove_unicode text))
  /\ __remove_unicode (__remove_unicode text) = __remove_unicode text.
Proof.
  rewrite !__remove_unicode_map. split; [apply length_map|]. split.
  - intros c Hc Hin. apply in_map_iff in Hin as [x [Hx _]].
    revert Hx. unfold unicode_substitute.
    destruct (char_eqb x 8211) eqn:E1;
      [intros <-; cbn in Hc; intuition discriminate|].
    destruct (char_eqb x 8217) eqn:E2;
      [intros <-; cbn in Hc; intuition discriminate|].
    destruct ((249 <=? x) && (x <=? 252)) eqn:E;
      [intros <-; cbn in Hc; intuition discriminate|].
    intros ->. cbn in Hc.
    apply char_eqb_neq in E1, E2. apply andb_false_iff in E.
    destruct E as [E | E]; apply N.leb_gt in E;
      intuition (subst; try discriminate; try lia; try contradiction).
  - rewrite map_map. apply map_ext. intros c.
    unfold unicode_substitute at 2 3.
    destruct (char_eqb c 8211) eqn:E1; [reflexivity|].
    destruct (char_eqb c 8217) eqn:E2; [reflexivity|].
    destruct ((249 <=? c) && (c <=? 252)) eqn:E; [reflexivity|].
    unfold unicode_substitute. now rewrite E1, E2, E.
Qed.

Lemma two_digits_range (a b : char) (n : Z) :
  two_digits a b = Some n -> (0 <= n <= 99)%Z.
Proof.
  unfold two_digits.
  destruct (decimal_value a) as [x|] eqn:Ha; [|discriminate].
  destruct (decimal_value b) as [y|] eqn:Hb; [|discriminate].
  apply decimal_value_range in Ha, Hb.
  intros H. assert (n = (10 * x + y)%Z) by congruence. lia.
Qed.

Lemma convert_int_to_str_two_digits (n : Z) :
  (0 <= n <= 99)%Z ->
  List.length (convert_int_to_str n) = 2%nat
  /\ forallb is_digit (convert_int_to_str n) = true.
Proof.
  intros Hn.
  assert (Hall : forallb
            (fun k => let s := convert_int_to_str (Z.of_nat k) in
                      Nat.eqb (List.length s) 2 && forallb is_digit s)
            (seq 0 100) = true) by (vm_compute; reflexivity).
  rewrite forallb_forall in Hall.
  specialize (Hall (Z.to_nat n) ltac:(apply in_seq; lia)).
  rewrite Z2Nat.id in Hall by lia. cbv zeta in Hall.
  apply andb_true_iff in Hall as [H1 H2].
  apply Nat.eqb_eq in H1. now split.
Qed.

(** The season and the episode read off a file name lie between 0 and 99,
    and [convert_int_to_str] renders each of them as exactly two digits. *)
Theorem season_episode_two_digits (file_name : str) (season episode : Z) :
  re_search_season_episode file_name = Some (season, episode) ->
  (0 <= season <= 99)%Z /\ (0 <= episode <= 99)%Z
  /\ List.length (convert_int_to_str season) = 2%nat
  /\ List.length (convert_int_to_str episode) = 2%nat
  /\ forallb is_digit (convert_int_to_str season
                       ++ convert_int_to_str episode) = true.
Proof.
  intros H.
  assert (Hr : (0 <= season <= 99)%Z /\ (0 <= episode <= 99)%Z).
  { induction file_name as [|c rest IH].
    - discriminate H.
    - cbn [re_search_season_episode] in H.
      destruct (season_episode_here (c :: rest)) as [[a b]|] eqn:Hhere.
      + injection H as -> ->. unfold season_episode_here in Hhere.
        destruct rest as [|d1 [|d2 [|c2 [|d3 [|d4 tail]]]]];
          try discriminate Hhere.
        destruct (_ && _); [|discriminate Hhere].
        destruct (two_digits d1 d2) as [x|] eqn:H1; [|discriminate Hhere].
        destruct (two_digits d3 d4) as [y|] eqn:H2; [|discriminate Hhere].
        injection Hhere as -> ->.
        split; eapply two_digits_range; eassumption.
      + exact (IH H). }
  destruct Hr as [Hs He].
  destruct (convert_int_to_str_two_digits season Hs) as [L1 D1].
  destruct (convert_int_to_str_two_digits episode He) as [L2 D2].
  repeat split; try tauto; try lia.
  now rewrite forallb_app, D1, D2.
Qed.

Lemma season_episode_two_digits_witness :
  (0 <= 2 <= 99)%Z /\ (0 <= 5 <= 99)%Z
  /\ List.length (convert_int_to_str 2) = 2%nat
  /\ List.length (convert_int_to_str 5) = 2%nat
  /\ forallb is_digit (convert_int_to_str 2 ++ convert_int_to_str 5) = true.
Proof.
  apply (season_episode_two_digits (lit "Show.Name.S02E05.1080p")).
  reflexivity.
Defined.

Lemma re_search_resolution_found (s r : str) :
  re_search_resolution s = Some r -> In r RESOLUTIONS /\ substring_in r s = true.
Proof.
  induction s as [|c s IH]; cbn [re_search_resolution substring_in].
  - cbn. discriminate.
  - destruct (startswith (lit "720p") (c :: s)) eqn:E1.
    { intros H. injection H as <-. rewrite E1. cbn. tauto. }
    destruct (startswith (lit "1080p") (c :: s)) eqn:E2.
    { intros H. injection H as <-. rewrite E2. cbn. tauto. }
    destruct (startswith (lit "2160p") (c :: s)) eqn:E3.
    { intros H. injection H as <-. rewrite E3. cbn. tauto. }
    intros H. destruct (IH H) as [Hin Hsub]. split; [exact Hin|].
    rewrite Hsub. apply orb_true_r.
Qed.

(** The resolution tag is empty or one of three bracketed resolutions; a
    resolution in the file name is the one used, whatever the folder; and
    the folder is consulted through the name of its parent directory
    only. *)
Theorem __get_resolution_values (item folder : str) :
  In (__get_resolution item folder)
     ([] :: map (fun r => lit " [" ++ r ++ lit "]") RESOLUTIONS)
  /\ (forall r, re_search_resolution item = Some r ->
                __get_resolution item folder = lit " [" ++ r ++ lit "]")
  /\ (re_search_resolution item = None ->
      __get_resolution item folder =
      resolution_tag
        (re_search_resolution (os_path_basename (os_path_dirname folder)))).
Proof.
  unfold __get_resolution.
  destruct (re_search_resolution item) as [r|] eqn:Hitem.
  - split; [|split].
    + destruct (re_search_resolution_found _ _ Hitem) as [Hin _].
      right. apply in_map_iff. now exists r.
    + intros r' H. now injection H as <-.
    + discriminate.
  - split; [|split].
    + destruct (re_search_resolution
                  (os_path_basename (os_path_dirname folder)))
        as [r|] eqn:Hfolder.
      * destruct (re_search_resolution_found _ _ Hfolder) as [Hin _].
        right. apply in_map_iff. now exists r.
      * left. reflexivity.
    + discriminate.
    + reflexivity.
Qed.

Section MoreRenameMediaFacts.

Context {W : Type} `{FS : FileSystem W} `{TMDB : Catalog}
        `{RE : RegexLibrary}.

(** Files with an excluded extension and files without a season and
    episode marker are passed over: a loop of [show] over such files
    returns normally and leaves the disk, the calls issued and the output
    as they were. *)
Theorem show_passes_over_ignorable_files (self : RenameMedia) (id : pyval)
  (folder show_folder show_folder_name : str) (files : list str)
  (s : run_state W) :
  forallb ignorable files = true ->
  for_each files (show_file self id folder show_folder show_folder_name) s
  = (Ok tt, s).
Proof.
  induction files as [|file files IH]; intros Hall; [reflexivity|].
  cbn [forallb] in Hall. apply andb_true_iff in Hall as [Hfile Hrest].
  assert (Hskip : show_file self id folder show_folder show_folder_name
                    file s = (Ok Next, s)).
  { unfold ignorable in Hfile. unfold show_file.
    destruct (str_in (extension_of file) INVALID_EXTENSIONS); [reflexivity|].
    cbn [orb] in Hfile.
    destruct (re_sub_extension (extension_of file) file) as [file_name|];
      [|discriminate Hfile].
    unfold bind, lift.
    destruct (re_search_season_episode file_name); [discriminate Hfile|].
    reflexivity. }
  cbn [for_each]. rewrite (bind_ok _ _ _ _ _ Hskip). exact (IH Hrest).
Qed.

(** In a real run, when the target folder already exists, the base folder
    is not renamed (no call is issued), and the folder handed on to the
    rest of the run is the target all the same. *)
Theorem rename_base_folder_keeps_existing_target (self : RenameMedia)
  (folder name : str) (year : Z) (s : run_state W) :
  let target :=
    os_path_join (path_without_last_part folder) (name_and_year name year)
    ++ sep in
  validate self = false ->
  os_path_exists (disk s) target = true ->
  let out := __rename_base_folder self folder name year s in
  fst out = Ok (target, name_and_year name year)
  /\ calls (snd out) = calls s
  /\ disk (snd out) = disk s.
Proof.
  intros target Hv Hex out. subst out.
  unfold __rename_base_folder, bind, echo, ask, modify, ret.
  cbn [disk calls printed fst snd]. fold target.
  rewrite Hex, Hv. cbn. repeat split; reflexivity.
Qed.

End MoreRenameMediaFacts.

Lemma show_passes_over_ignorable_files_witness :
  for_each [lit "notes.txt"; lit "Extras/Sample.mkv"; lit "cover.jpg"]
    (show_file real_run (PInt 42) (lit "Show") (lit "Show (2019)")
       (lit "Show (2019)"))
    (fresh_run one_season_folder)
  = (Ok tt, fresh_run one_season_folder).
Proof.
  apply (show_passes_over_ignorable_files (W := small_disk)). reflexivity.
Defined.

Lemma rename_base_folder_keeps_existing_target_witness :
  let out := __rename_base_folder real_run (lit "/m/Some.Movie")
               (lit "Some Movie") 2020 (fresh_run library_with_target) in
  fst out = Ok (lit "/m/Some Movie (2020)/", lit "Some Movie (2020)")
  /\ calls (snd out) = []
  /\ disk (snd out) = library_with_target.
Proof.
  exact (rename_base_folder_keeps_existing_target (W := small_disk)
           real_run (lit "/m/Some.Movie") (lit "Some Movie") 2020
           (fresh_run library_with_target) eq_refl eq_refl).
Defined.


Lemma show_validate_quiet_witness :
  quiet (W := small_disk)
    (show dry_run (lit "Show") (PInt 42) (lit "Show") 2019).
Proof.
  apply (show_validate_quiet (W := small_disk) dry_run). reflexivity.
Defined.

Lemma movie_validate_quiet_witness :
  quiet (W := small_disk)
    (movie dry_run (lit "/data/1080p/Some.Movie") (lit "Some Movie") 2020).
Proof.
  apply (movie_validate_quiet (W := small_disk) dry_run). reflexivity.
Defined.

Lemma show_single_file_move_raises_witness :
  fst (show real_run (lit "/media/Show.S01E01.mkv") (PInt 42) (lit "Show")
         2019 (fresh_run read_only_media)) = Raise PermissionError.
Proof.
  apply (show_single_file_move_raises (W := small_disk) real_run
           (lit "/media/Show.S01E01.mkv") (PInt 42) (lit "Show") 2019
           (fresh_run read_only_media) PermissionError);
    reflexivity.
Defined.

Lemma show_file_short_season_quiet_witness :
  let s := fresh_run one_season_folder in
  let out := show_file (TMDB := unaired_catalog) real_run (PInt 42)
               (lit "Show") (lit "Show (2019)") (lit "Show (2019)")
               (lit "Season 1/Show.S01E01.mkv") s in
  fst out = Raise AttributeError
  /\ calls (snd out) = [] /\ disk (snd out) = one_season_folder.
Proof.
  split; [reflexivity|].
  apply (show_file_short_season_quiet (W := small_disk)
           (TMDB := unaired_catalog) real_run (PInt 42)
           (lit "Show") (lit "Show (2019)") (lit "Show (2019)")
           (lit "Season 1/Show.S01E01.mkv") (lit "Season 1/Show.S01E01")
           1 1 [ (lit "air_date", PNone); (lit "episodes", PList []) ] []
           (fresh_run one_season_folder));
    reflexivity.
Defined.

Lemma manual_entry_pass_raises_witness :
  exists s',
    manual_entry_pass
      (start (init (lit "Unknown.Show") PNone PNone PNone false)
             [lit "Show"; lit "2019"; lit "TV"; lit "y"])
    = (Raise TypeError, s')
    /\ potential (self s') = []
    /\ stdin s' = [lit "y"].
Proof.
  apply (manual_entry_pass_raises
           (start (init (lit "Unknown.Show") PNone PNone PNone false)
                  [lit "Show"; lit "2019"; lit "TV"; lit "y"])
           (lit "Show") (lit "2019") (lit "TV") [lit "y"] 2019
           (search_results [tv_search_record 42 "Show" "2019-05-01"]));
    reflexivity.
Defined.

(** ** More on result evaluation and confirmation *)

(** An answer of the catalog without a [results] key (the error envelope)
    leaves the object as it is: the candidates of an earlier search stay
    in place. *)
Theorem evaluate_results_without_results (d : list (str * pyval))
  (folder : pyval) (s : identify_state) :
  dict_get d (lit "results") = None ->
  evaluate_results (PDict d) folder s = (Ok tt, s).
Proof.
  intros H. unfold evaluate_results, bind, lift. cbn [contains].
  now rewrite H.
Qed.

Lemma evaluate_results_without_results_witness :
  let s := {| self := set_potential [movie_record 1 "A" "2020-01-01"]
                        (init (lit "A.2020") PNone PNone PNone false);
              stdin := []; stdout := [] |} in
  evaluate_results not_found_envelope (PStr (lit "A.2020")) s = (Ok tt, s).
Proof.
  cbv zeta.
  apply (evaluate_results_without_results
           [ (lit "status_code", PInt 404);
             (lit "response",
              PDict [ (lit "status_code", PInt 34);
                      (lit "status_message",
                       PStr (lit "The resource you requested could not be found.")) ]) ]).
  reflexivity.
Defined.

Lemma filter_partition_permutation {A} (f : A -> bool) (l : list A) :
  Permutation (filter f l ++ filter (fun x => negb (f x)) l) l.
Proof.
  induction l as [|x l IH]; cbn; [constructor|].
  destruct (f x); cbn.
  - now constructor.
  - etransitivity; [apply Permutation_sym, Permutation_middle|].
    now constructor.
Qed.

(** Evaluation neither loses nor repeats a record: the candidate list is a
    rearrangement of the records that survive the filter, whatever the
    candidates of an earlier search were. *)
Theorem evaluate_results_permutation
  (d : list (str * pyval)) (rs : list pyval) (folder : str)
  (s : identify_state) :
  dict_get d (lit "results") = Some (PList rs) ->
  forallb record_ok rs = true ->
  exists s',
    evaluate_results (PDict d) (PStr folder) s = (Ok tt, s')
    /\ Permutation (potential (self s')) (filter is_candidate rs)
    /\ List.length (potential (self s'))
       = List.length (filter is_candidate rs).
Proof.
  intros Hd Hok. unfold evaluate_results, bind, lift.
  cbn [contains getitem]. rewrite Hd. cbn [set_self modify iterate].
  destruct (for_each_evaluate_result folder rs Hok
              {| self := set_potential [] (self s); stdin := stdin s;
                 stdout := stdout s |}) as [s' [Hrun Hpot]].
  exists s'. split; [exact Hrun|].
  rewrite Hpot, fold_step_potential. cbn [potential set_potential self app].
  assert (Hp : Permutation
                 (rev (filter (year_in_name folder) (filter is_candidate rs))
                  ++ filter (fun r => negb (year_in_name folder r))
                       (filter is_candidate rs))
                 (filter is_candidate rs)).
  { etransitivity; [|apply filter_partition_permutation].
    apply Permutation_app_tail, Permutation_sym, Permutation_rev. }
  split; [exact Hp | now apply Permutation_length].
Qed.

Lemma evaluate_results_permutation_witness :
  let a := movie_record 1 "A" "2020-01-01" in
  let b := PDict [ (lit "media_type", PStr (lit "person")) ] in
  let c := movie_record 3 "C" "1999-05-05" in
  exists s',
    evaluate_results (search_results [a; b; c]) (PStr (lit "Movie.1999"))
      (start (init (lit "Movie.1999") PNone PNone PNone false) [])
    = (Ok tt, s')
    /\ Permutation (potential (self s')) [a; c]
    /\ List.length (potential (self s')) = 2%nat.
Proof.
  cbv zeta.
  exact (evaluate_results_permutation
           [ (lit "page", PInt 1);
             (lit "results",
              PList [ movie_record 1 "A" "2020-01-01";
                      PDict [ (lit "media_type", PStr (lit "person")) ];
                      movie_record 3 "C" "1999-05-05" ]) ]
           [ movie_record 1 "A" "2020-01-01";
             PDict [ (lit "media_type", PStr (lit "person")) ];
             movie_record 3 "C" "1999-05-05" ]
           (lit "Movie.1999")
           (start (init (lit "Movie.1999") PNone PNone PNone false) [])
           eq_refl eq_refl).
Defined.

Section ConfirmFacts.

Context `{TMDB : Catalog}.

Lemma is_kind_dict (o : IdentifyMedia) (d : list (str * pyval)) (kind : str) :
  is_kind o (PDict d) kind =
  Ok (match dict_get d (lit "media_type") with
      | Some v => eq_str v kind
      | None => false
      end || eq_str (type_ o) kind).
Proof.
  unfold is_kind, or_else. cbn [contains getitem rbind].
  destruct (dict_get d (lit "media_type")) as [v|]; cbn [rbind];
    [destruct (eq_str v kind)|]; reflexivity.
Qed.

(** One question of [confirm_identity], answered validly at once: the two
    lines of the question are printed, one line is read, and the answer
    takes effect. *)
Lemma confirm_result_run (d : list (str * pyval)) (answer : str)
  (rest : list str) (s : identify_state) (date name_key title : str)
  (date_value shown_type : pyval) :
  confirm_keys (self s) (PDict d) = Some (date, name_key) ->
  askable (self s) (PDict d) = Some (title, date_value, shown_type) ->
  stdin s = answer :: rest ->
  str_in (lower answer) [lit "y"; lit "n"; lit "s"] = true ->
  confirm_result (PDict d) s =
  answer_effect (self s) (PDict d) date (__remove_unicode title)
    (lower answer)
    {| self := self s; stdin := rest;
       stdout := stdout s
                 ++ question (self s) (title, date_value, shown_type) |}.
Proof.
  intros Hkeys Hask Hin Hans. destruct s as [o typed out].
  cbn [self stdin stdout] in *. subst typed.
  unfold askable in Hask. rewrite Hkeys in Hask.
  destruct (dict_get d name_key) as [[| | | |title'| |]|] eqn:Hname;
    try discriminate Hask.
  destruct (dict_get d date) as [date_value'|] eqn:Hdate;
    [|discriminate Hask].
  assert (Hshown : (if is_none (type_ o)
                    then lift (getitem (PDict d) (lit "media_type"))
                    else ret (type_ o))
                   = (ret shown_type : ID pyval)
                   /\ title' = title /\ date_value' = date_value).
  { destruct (is_none (type_ o)).
    - cbn [getitem].
      destruct (dict_get d (lit "media_type")); [|discriminate Hask].
      injection Hask as -> -> ->. repeat split.
    - injection Hask as -> -> ->. repeat split. }
  destruct Hshown as [Hshown [-> ->]].
  unfold confirm_result. run_step.
  unfold confirm_keys in Hkeys. rewrite !is_kind_dict in Hkeys.
  unfold bind at 1, lift at 1. rewrite is_kind_dict. cbv beta iota.
  assert (Hfields :
    forall k : option (str * str) -> ID control,
      bind
        (if match dict_get d (lit "media_type") with
            | Some v => eq_str v (lit "tv")
            | None => false
            end || eq_str (type_ o) (lit "tv")
         then ret (Some (lit "first_air_date", lit "name"))
         else
           bind (lift (is_kind o (PDict d) (lit "movie"))) (fun is_movie =>
             if is_movie
             then ret (Some (lit "release_date", lit "title"))
             else
               bind (if debug o
                     then bind (lift (getitem (PDict d) (lit "media_type")))
                            (fun media_type =>
                               print [Text (lit "Unsupported media type: ");
                                      Str media_type])
                     else ret tt)
                    (fun _ => ret None)))
        k {| self := o; stdin := answer :: rest; stdout := out |}
      = k (Some (date, name_key))
          {| self := o; stdin := answer :: rest; stdout := out |}).
  { intros k.
    destruct (_ || eq_str (type_ o) (lit "tv")).
    - injection Hkeys as <- <-. reflexivity.
    - unfold bind at 1. unfold bind at 1, lift at 1. rewrite is_kind_dict.
      destruct (_ || eq_str (type_ o) (lit "movie")); [|discriminate Hkeys].
      injection Hkeys as <- <-. reflexivity. }
  rewrite Hfields. run_step.
  cbn [prompt_until]. rewrite Hshown.
  unfold bind, print, lift, set_stdin, modify, ret.
  cbn [self stdin stdout getitem remove_unicode_of].
  rewrite Hname. cbn [remove_unicode_of]. rewrite Hdate.
  cbn [self stdin stdout]. rewrite Hans. cbn [negb].
  unfold answer_effect, question, bind, print, lift, set_stdin, modify, ret.
  cbn [getitem]. rewrite ?Hdate, <- !app_assoc. reflexivity.
Qed.

Lemma askable_keys (o : IdentifyMedia) (record : pyval)
  (asked : str * pyval * pyval) :
  askable o record = Some asked ->
  exists d date name_key,
    record = PDict d
    /\ confirm_keys o (PDict d) = Some (date, name_key)
    /\ dict_get d date = Some (snd (fst asked)).
Proof.
  unfold askable. destruct record as [| | | | | |d]; try discriminate.
  destruct (confirm_keys o (PDict d)) as [[date name_key]|] eqn:Hkeys;
    [|discriminate].
  destruct (dict_get d name_key) as [[| | | |title| |]|]; try discriminate.
  destruct (dict_get d date) as [date_value|] eqn:Hdate; [|discriminate].
  intros H. exists d, date, name_key.
  split; [reflexivity|]. split; [exact Hkeys|]. rewrite Hdate.
  destruct (is_none (type_ o)).
  - destruct (dict_get d (lit "media_type")); [|discriminate H].
    now injection H as <-.
  - now injection H as <-.
Qed.

Lemma for_each_all_rejected (o : IdentifyMedia) (records : list pyval) :
  forall (answers rest : list str) (out : list line),
    List.length answers = List.length records ->
    forallb (fun a => str_eqb (lower a) (lit "n")) answers = true ->
    forallb (fun r => match askable o r with Some _ => true | None => false end)
            records = true ->
    for_each records confirm_result
      {| self := o; stdin := answers ++ rest; stdout := out |}
    = (Ok tt, {| self := o; stdin := rest;
                 stdout := out ++ questions o records |}).
Proof.
  induction records as [|r records IH]; intros answers rest out Hlen Hn Hask.
  - destruct answers; [|discriminate Hlen].
    cbn. now rewrite app_nil_r.
  - destruct answers as [|a answers]; [discriminate Hlen|].
    cbn [forallb] in Hn, Hask.
    apply andb_true_iff in Hn as [Ha Hn].
    apply andb_true_iff in Hask as [Hr Hask].
    destruct (askable o r) as [[[title date_value] shown]|] eqn:Hasked;
      [|discriminate Hr].
    destruct (askable_keys _ _ _ Hasked) as [d [date [key [-> [Hkeys _]]]]].
    apply str_eqb_eq in Ha.
    assert (Hvalid : str_in (lower a) [lit "y"; lit "n"; lit "s"] = true)
      by (rewrite Ha; reflexivity).
    pose proof (confirm_result_run d a (answers ++ rest)
                  {| self := o; stdin := (a :: answers) ++ rest;
                     stdout := out |}
                  date key title date_value shown Hkeys Hasked eq_refl
                  Hvalid) as Hrun.
    rewrite Ha in Hrun. unfold answer_effect in Hrun.
    change (str_eqb (lit "n") (lit "n")) with true in Hrun.
    cbv iota in Hrun.
    cbn [for_each]. rewrite (bind_ok _ _ _ _ _ Hrun).
    cbn [self stdin stdout].
    injection Hlen as Hlen.
    rewrite (IH answers rest (out ++ question o (title, date_value, shown))
               Hlen Hn Hask).
    unfold questions. cbn [flat_map]. rewrite Hasked.
    now rewrite app_assoc.
Qed.

(** When every candidate is answered with no, [confirm_identity] asks
    about each of them once, in their order, and prints nothing else; it
    reads one line per candidate and leaves the object as it was: nothing
    is resolved. *)
Theorem confirm_identity_all_rejected (s : identify_state)
  (answers rest : list str) :
  stdin s = answers ++ rest ->
  List.length answers = List.length (potential (self s)) ->
  forallb (fun a => str_eqb (lower a) (lit "n")) answers = true ->
  forallb (fun r => match askable (self s) r with
                    | Some _ => true
                    | None => false
                    end) (potential (self s)) = true ->
  confirm_identity s
  = (Ok tt, {| self := self s; stdin := rest;
               stdout := stdout s
                         ++ questions (self s) (potential (self s)) |}).
Proof.
  intros Hin Hlen Hn Hask. destruct s as [o typed out].
  cbn [self stdin stdout] in *. subst typed.
  unfold confirm_identity. run_step.
  exact (for_each_all_rejected o (potential o) answers rest out Hlen Hn Hask).
Qed.

(** The answer yes to the first candidate resolves the identity there and
    then: the record, its id, its title through [__remove_unicode], the
    year of its date and the type shown are stored, one line is read, and
    no later candidate is asked about. *)
Theorem confirm_identity_first_accepted (s : identify_state)
  (record : pyval) (others : list pyval) (answer : str) (rest : list str)
  (title : str) (date_value shown_type found_id : pyval) (parsed : Z) :
  potential (self s) = record :: others ->
  askable (self s) record = Some (title, date_value, shown_type) ->
  getitem record (lit "id") = Ok found_id ->
  strptime_year date_value = Ok parsed ->
  stdin s = answer :: rest ->
  lower answer = lit "y" ->
  confirm_identity s
  = (Ok tt,
     {| self := confirmed (self s) record title found_id parsed shown_type;
        stdin := rest;
        stdout := stdout s
                  ++ question (self s) (title, date_value, shown_type) |}).
Proof.
  intros Hpot Hasked Hid Hyear Hin Hans.
  destruct (askable_keys _ _ _ Hasked) as [d [date [key [-> [Hkeys Hdate]]]]].
  cbn [fst snd] in Hdate.
  assert (Hvalid : str_in (lower answer) [lit "y"; lit "n"; lit "s"] = true)
    by (rewrite Hans; reflexivity).
  pose proof (confirm_result_run d answer rest s date key title date_value
                shown_type Hkeys Hasked Hin Hvalid) as Hrun.
  rewrite Hans in Hrun. unfold answer_effect in Hrun.
  change (str_eqb (lit "y") (lit "n")) with false in Hrun.
  change (str_eqb (lit "y") (lit "s")) with false in Hrun.
  cbv iota in Hrun.
  unfold confirm_identity. run_step. rewrite Hpot. cbn [for_each].
  assert (Hshown : is_none (type_ (self s)) = true ->
                   getitem (PDict d) (lit "media_type") = Ok shown_type).
  { intros Hnone. unfold askable in Hasked. rewrite Hkeys, Hnone in Hasked.
    destruct (dict_get d key) as [[| | | |t| |]|]; try discriminate Hasked.
    destruct (dict_get d date); [|discriminate Hasked].
    cbn [getitem].
    destruct (dict_get d (lit "media_type")); [|discriminate Hasked].
    now injection Hasked as _ _ ->. }
  assert (Hkept : is_none (type_ (self s)) = false ->
                  type_ (self s) = shown_type).
  { intros Hnone. unfold askable in Hasked. rewrite Hkeys, Hnone in Hasked.
    destruct (dict_get d key) as [[| | | |t| |]|]; try discriminate Hasked.
    destruct (dict_get d date); [|discriminate Hasked].
    now injection Hasked as _ _ ->. }
  assert (Hbreak : confirm_result (PDict d) s
            = (Ok Break,
               {| self := confirmed (self s) (PDict d) title found_id parsed
                            shown_type;
                  stdin := rest;
                  stdout := stdout s
                            ++ question (self s)
                                 (title, date_value, shown_type) |})).
  { rewrite Hrun. unfold bind, lift, set_self, modify, ret.
    rewrite Hid. cbn [getitem]. rewrite Hdate, Hyear.
    destruct s as [o typed out]. cbn [self stdin stdout] in *.
    unfold confirmed.
    destruct (is_none (type_ o)) eqn:Hnone.
    - specialize (Hshown eq_refl). cbn [getitem] in Hshown. rewrite Hshown.
      reflexivity.
    - rewrite <- (Hkept eq_refl). reflexivity. }
  now rewrite (bind_ok _ _ _ _ _ Hbreak).
Qed.

(** The answer skip to the first candidate abandons the whole list: the
    object stays as it was and no later candidate is asked about. *)
Theorem confirm_identity_skip (s : identify_state)
  (record : pyval) (others : list pyval) (answer : str) (rest : list str)
  (asked : str * pyval * pyval) :
  potential (self s) = record :: others ->
  askable (self s) record = Some asked ->
  stdin s = answer :: rest ->
  lower answer = lit "s" ->
  confirm_identity s
  = (Ok tt,
     {| self := self s; stdin := rest;
        stdout := stdout s ++ question (self s) asked
                  ++ [[Text (lit "Skipping")]] |}).
Proof.
  intros Hpot Hasked Hin Hans.
  destruct (askable_keys _ _ _ Hasked) as [d [date [key [-> [Hkeys _]]]]].
  destruct asked as [[title date_value] shown_type].
  assert (Hvalid : str_in (lower answer) [lit "y"; lit "n"; lit "s"] = true)
    by (rewrite Hans; reflexivity).
  pose proof (confirm_result_run d answer rest s date key title date_value
                shown_type Hkeys Hasked Hin Hvalid) as Hrun.
  rewrite Hans in Hrun. unfold answer_effect in Hrun.
  change (str_eqb (lit "s") (lit "n")) with false in Hrun.
  change (str_eqb (lit "s") (lit "s")) with true in Hrun.
  cbv iota in Hrun.
  unfold confirm_identity. run_step. rewrite Hpot. cbn [for_each].
  assert (Hbreak : confirm_result (PDict d) s
            = (Ok Break,
               {| self := self s; stdin := rest;
                  stdout := stdout s
                            ++ question (self s)
                                 (title, date_value, shown_type)
                            ++ [[Text (lit "Skipping")]] |})).
  { rewrite Hrun. unfold bind, print, modify, ret.
    cbn [self stdin stdout]. now rewrite <- app_assoc. }
  now rewrite (bind_ok _ _ _ _ _ Hbreak).
Qed.

End ConfirmFacts.

Lemma confirm_identity_all_rejected_witness :
  confirm_identity (start two_candidates [lit "n"; lit "N"; lit "y"])
  = (Ok tt,
     {| self := two_candidates; stdin := [lit "y"];
        stdout :=
          question two_candidates
            (lit "Alien", PStr (lit "1979-05-25"), PStr (lit "movie"))
          ++ question two_candidates
               (lit "Aliens", PStr (lit "1986-07-18"), PStr (lit "movie"))
     |}).
Proof.
  apply (confirm_identity_all_rejected
           (start two_candidates [lit "n"; lit "N"; lit "y"])
           [lit "n"; lit "N"] [lit "y"]);
    reflexivity.
Defined.

Lemma confirm_identity_first_accepted_witness :
  confirm_identity (start two_candidates [lit "Y"; lit "n"])
  = (Ok tt,
     {| self := confirmed two_candidates (movie_record 7 "Alien" "1979-05-25")
                  (lit "Alien") (PInt 7) 1979 (PStr (lit "movie"));
        stdin := [lit "n"];
        stdout := [] ++ question two_candidates
                          (lit "Alien", PStr (lit "1979-05-25"),
                           PStr (lit "movie")) |}).
Proof.
  apply (confirm_identity_first_accepted
           (start two_candidates [lit "Y"; lit "n"])
           (movie_record 7 "Alien" "1979-05-25")
           [movie_record 8 "Aliens" "1986-07-18"]
           (lit "Y") [lit "n"]);
    reflexivity.
Defined.

Lemma confirm_identity_skip_witness :
  confirm_identity (start two_candidates [lit "s"; lit "y"])
  = (Ok tt,
     {| self := two_candidates; stdin := [lit "y"];
        stdout := [] ++ question two_candidates
                          (lit "Alien", PStr (lit "1979-05-25"),
                           PStr (lit "movie"))
                  ++ [[Text (lit "Skipping")]] |}).
Proof.
  apply (confirm_identity_skip
           (start two_candidates [lit "s"; lit "y"])
           (movie_record 7 "Alien" "1979-05-25")
           [movie_record 8 "Aliens" "1986-07-18"]
           (lit "s") [lit "y"]);
    reflexivity.
Defined.

(** ** identify *)

Section IdentifyFacts.

Context `{TMDB : Catalog}.

Lemma identify_again_declined (o : IdentifyMedia) (rest : list str)
  (bad : list str) :
  forall (typed : list str) (out : list line),
    forallb (fun a => negb (str_in a [lit "y"; lit "n"])) bad = true ->
    prompt_until (ret tt)
      (fun _ => ret (identify_again_prompt o))
      (fun _ response =>
         if str_in response [lit "y"; lit "n"] then ret (Some response)
         else
           bind (print [Text (lit "Invalid response of " ++ response
                              ++ lit ".")])
                (fun _ => ret None))
      (bad ++ lit "n" :: rest)
      {| self := o; stdin := typed; stdout := out |}
    = (Ok (lit "n"),
       {| self := o; stdin := rest; stdout := out ++ asked_again o bad |}).
Proof.
  induction bad as [|a bad IH]; intros typed out Hbad.
  - cbn [app prompt_until].
    unfold bind, ret, print, set_stdin, modify. cbn. reflexivity.
  - cbn [forallb] in Hbad. apply andb_true_iff in Hbad as [Ha Hbad].
    apply negb_true_iff in Ha.
    pose proof (IH (bad ++ lit "n" :: rest)
                  (out ++ [identify_again_prompt o]
                       ++ [[Text (lit "Invalid response of " ++ a
                                  ++ lit ".")]])
                  Hbad) as Hrun.
    cbn [app prompt_until]. do 4 run_step. rewrite Ha. run_step.
    unfold asked_again in Hrun |- *. cbn [flat_map].
    cbn [app] in Hrun |- *.
    rewrite <- !app_assoc in Hrun |- *. cbn [app] in Hrun |- *.
    exact Hrun.
Qed.

(** When the object has an identity and the user answers no, after any
    number of answers that are neither y nor n, [identify] returns with
    the object as it was: the identity stays, no search is sent and
    [enquire] is not called.  The question is put once per line read, and
    every answer that is neither y nor n is reported as invalid right
    after it. *)
Theorem identify_declined (enquire : ID unit) (s : identify_state)
  (bad rest : list str) :
  item (self s) <> [] ->
  truthy (identity (self s)) = true ->
  stdin s = bad ++ lit "n" :: rest ->
  forallb (fun a => negb (str_in a [lit "y"; lit "n"])) bad = true ->
  identify_with enquire s
  = (Returns tt,
     {| self := self s; stdin := rest;
        stdout := stdout s ++ asked_again (self s) bad |}).
Proof.
  intros Hitem Hid Hin Hbad. destruct s as [o typed out].
  cbn [self stdin stdout] in *. subst typed.
  pose proof (identify_again_declined o rest bad (bad ++ lit "n" :: rest) out
                Hbad) as Hrun.
  unfold identify_with. cbn [self].
  destruct (item o) as [|c i]; [contradiction|].
  unfold identify_body. run_step. rewrite Hid.
  erewrite bind_ok;
    [|unfold bind at 1, get_stdin; cbn [stdin]; exact Hrun].
  reflexivity.
Qed.

(** An object without an item is refused before anything is read, printed
    or searched. *)
Theorem identify_without_item (enquire : ID unit) (s : identify_state) :
  item (self s) = [] ->
  identify_with enquire s = (Raises PlainException, s).
Proof. intros H. unfold identify_with. now rewrite H. Qed.

End IdentifyFacts.

Lemma identify_declined_witness :
  let o := confirmed two_candidates (movie_record 7 "Alien" "1979-05-25")
             (lit "Alien") (PInt 7) 1979 (PStr (lit "movie")) in
  identify_with (ret tt)
    {| self := o; stdin := [lit "maybe"; lit "N"; lit "n"; lit "y"];
       stdout := [] |}
  = (Returns tt,
     {| self := o; stdin := [lit "y"];
        stdout := [ identify_again_prompt o;
                    [Text (lit "Invalid response of maybe.")];
                    identify_again_prompt o;
                    [Text (lit "Invalid response of N.")];
                    identify_again_prompt o ] |}).
Proof.
  cbv zeta.
  apply (identify_declined (ret tt)
           {| self := confirmed two_candidates
                        (movie_record 7 "Alien" "1979-05-25")
                        (lit "Alien") (PInt 7) 1979 (PStr (lit "movie"));
              stdin := [lit "maybe"; lit "N"; lit "n"; lit "y"];
              stdout := [] |}
           [lit "maybe"; lit "N"] [lit "y"]);
    [discriminate | reflexivity | reflexivity | reflexivity].
Defined.

(** ** The matcher and the substitution *)

Lemma at_least_calls {A} (p : char -> bool) (s : str) :
  forall (n : nat) (k : str -> option A) (x : A),
    at_least p n s k = Some x ->
    exists ds t,
      s = ds ++ t /\ forallb p ds = true /\ (n <= List.length ds)%nat
      /\ k t = Some x.
Proof.
  induction s as [|c s IH]; intros n k x; cbn [at_least].
  - destruct n; [|discriminate]. intros H. exists [], []. cbn.
    repeat split; [lia | exact H].
  - assert (Hstop : match n with O => k (c :: s) | S _ => None end = Some x ->
                    exists ds t,
                      c :: s = ds ++ t /\ forallb p ds = true
                      /\ (n <= List.length ds)%nat /\ k t = Some x).
    { destruct n; [|discriminate]. intros H. exists [], (c :: s). cbn.
      repeat split; [lia | exact H]. }
    destruct (p c) eqn:Hp; [|exact Hstop].
    destruct (at_least p (pred n) s k) as [y|] eqn:Hrec; [|exact Hstop].
    intros H. injection H as ->.
    destruct (IH _ _ _ Hrec) as [ds [t [-> [Hds [Hn Hk]]]]].
    exists (c :: ds), t. cbn. rewrite Hp, Hds.
    repeat split; [lia | exact Hk].
Qed.

Lemma at_least_finds {A} (p : char -> bool) (ds : str) :
  forall (n : nat) (t : str) (k : str -> option A),
    forallb p ds = true -> (n <= List.length ds)%nat ->
    k t <> None ->
    at_least p n (ds ++ t) k <> None.
Proof.
  induction ds as [|d ds IH]; intros n t k Hds Hn Hk.
  - cbn in Hn. assert (n = 0%nat) by lia. subst n. cbn [app].
    destruct t as [|c t]; cbn [at_least]; [exact Hk|].
    destruct (p c); [|exact Hk].
    destruct (at_least p (pred 0) t k); [discriminate | exact Hk].
  - cbn [forallb] in Hds. apply andb_true_iff in Hds as [Hd Hds].
    cbn [app at_least]. rewrite Hd.
    assert (Hrec : at_least p (pred n) (ds ++ t) k <> None)
      by (apply IH; [exact Hds | cbn in Hn; lia | exact Hk]).
    destruct (at_least p (pred n) (ds ++ t) k); [discriminate|].
    contradiction.
Qed.

(** Whatever the matcher returns, the continuation returned it, on what
    was left of the subject. *)
Lemma run_calls {A} (r : regex) :
  forall (s : str) (k : str -> option A) (x : A),
    run r s k = Some x ->
    exists pre t, s = pre ++ t /\ k t = Some x.
Proof.
  induction r as [|p|a IHa b IHb|a IHa b IHb|n p]; intros s k x;
    cbn [run].
  - intros H. now exists [], s.
  - destruct s as [|c t]; [discriminate|].
    destruct (p c); [|discriminate]. intros H. now exists [c], t.
  - intros H. destruct (IHa _ _ _ H) as [pre1 [t1 [-> H1]]].
    destruct (IHb _ _ _ H1) as [pre2 [t2 [-> H2]]].
    exists (pre1 ++ pre2), t2. now rewrite app_assoc.
  - destruct (run a s k) as [y|] eqn:Ha.
    + intros H. injection H as ->. exact (IHa _ _ _ Ha).
    + apply IHb.
  - intros H. destruct (at_least_calls _ _ _ _ _ H) as [ds [t [-> [_ [_ Hk]]]]].
    now exists ds, t.
Qed.

Lemma re_sub_from_skip (r : regex) (repl pre rest : str) :
  re_sub_from r repl (pre ++ rest) (List.length pre)
  = re_sub_from r repl rest 0.
Proof.
  induction pre as [|c pre IH]; cbn [app List.length re_sub_from].
  - destruct rest; reflexivity.
  - exact IH.
Qed.

(** A substitution by the empty string only deletes characters. *)
Lemma re_sub_from_In (r : regex) (s : str) :
  forall (skip : nat) (c : char),
    In c (re_sub_from r [] s skip) -> In c s.
Proof.
  induction s as [|x s IH]; intros skip c; cbn [re_sub_from]; [tauto|].
  destruct skip as [|n].
  - destruct (run r (x :: s) Some) as [rest|].
    + cbn [app]. intros H. right. exact (IH _ _ H).
    + intros [<- | H]; [now left | right; exact (IH _ _ H)].
  - intros H. right. exact (IH _ _ H).
Qed.

Lemma re_sub_dot_no_dot (s : str) :
  forall skip, ~ In ch_dot (re_sub_from cls_dot (lit " ") s skip).
Proof.
  induction s as [|x s IH]; intros skip; cbn [re_sub_from]; [tauto|].
  destruct skip as [|n]; [|apply IH].
  unfold cls_dot, chr. cbn [run].
  destruct (char_eqb x ch_dot) eqn:E.
  - intros [H | H]; [discriminate H | exact (IH _ H)].
  - intros [-> | H]; [discriminate E | exact (IH _ H)].
Qed.

Lemma no_match_cons (r : regex) (c : char) (s : str) :
  no_match r (c :: s) = negb (matches r (c :: s)) && no_match r s.
Proof. reflexivity. Qed.

(** Where the pattern matches nowhere, the substitution changes nothing. *)
Lemma re_sub_no_match (r : regex) (repl s : str) :
  no_match r s = true -> re_sub r repl s = s.
Proof.
  unfold re_sub. induction s as [|c s IH]; [reflexivity|].
  rewrite no_match_cons. intros H. apply andb_true_iff in H as [Hc Hs].
  cbn [re_sub_from]. unfold matches in Hc.
  destruct (run r (c :: s) Some); [discriminate Hc|].
  now rewrite (IH Hs).
Qed.

Section Deletion.

(** A pattern whose matches take at least their first character and run
    to the end of a line. *)
Variable r : regex.
Hypothesis r_first :
  forall c t rest, run r (c :: t) Some = Some rest ->
                   exists pre, t = pre ++ rest.
Hypothesis r_eol :
  forall s rest, run r s Some = Some rest -> at_line_end rest = true.

Lemma re_sub_match_step (c : char) (t rest : str) :
  run r (c :: t) Some = Some rest ->
  re_sub_from r [] (c :: t) 0 = re_sub_from r [] rest 0.
Proof.
  intros H. cbn [re_sub_from]. rewrite H. cbn [app].
  destruct (r_first _ _ _ H) as [pre ->].
  rewrite length_app, Nat.add_sub. apply re_sub_from_skip.
Qed.

Lemma re_sub_line_end (n : nat) :
  forall s, (List.length s <= n)%nat -> at_line_end s = true ->
            at_line_end (re_sub_from r [] s 0) = true.
Proof.
  induction n as [|n IH]; intros s Hlen Hend.
  - destruct s; [reflexivity | cbn in Hlen; lia].
  - destruct s as [|c t]; [reflexivity|].
    destruct (run r (c :: t) Some) as [rest|] eqn:Hrun.
    + rewrite (re_sub_match_step _ _ _ Hrun).
      destruct (r_first _ _ _ Hrun) as [pre Hpre].
      apply IH; [|exact (r_eol _ _ Hrun)].
      cbn in Hlen. rewrite Hpre, length_app in Hlen. lia.
    + cbn [re_sub_from]. rewrite Hrun. exact Hend.
Qed.

(** What the output starts a line with, the input had there. *)
Lemma re_sub_prefix (w : str) :
  forallb not_newline w = true ->
  forall t x, re_sub_from r [] t 0 = w ++ x -> exists y, t = w ++ y.
Proof.
  induction w as [|a w IH]; intros Hw t x Hsub; [now exists t|].
  cbn [forallb] in Hw. apply andb_true_iff in Hw as [Ha Hw].
  destruct t as [|c t]; [discriminate Hsub|].
  destruct (run r (c :: t) Some) as [rest|] eqn:Hrun.
  - rewrite (re_sub_match_step _ _ _ Hrun) in Hsub.
    pose proof (re_sub_line_end _ rest (Nat.le_refl _) (r_eol _ _ Hrun))
      as Hend.
    rewrite Hsub in Hend. cbn in Hend.
    unfold not_newline in Ha. rewrite Hend in Ha. discriminate Ha.
  - cbn [re_sub_from] in Hsub. rewrite Hrun in Hsub.
    injection Hsub as -> Hsub.
    destruct (IH Hw _ _ Hsub) as [y ->]. now exists y.
Qed.

(** A pattern whose match is decided by the first character and a piece
    of one line after it. *)
Variable r' : regex.
Hypothesis r'_local :
  forall u, matches r' u = true ->
    exists c w x,
      u = c :: w ++ x /\ forallb not_newline w = true
      /\ forall y, matches r' (c :: w ++ y) = true.

(** Deleting the matches of [r] creates no match of [r']. *)
Lemma re_sub_keeps_no_match (s : str) :
  forall skip, no_match r' s = true ->
               no_match r' (re_sub_from r [] s skip) = true.
Proof.
  induction s as [|c s IH]; intros skip Hno; [exact Hno|].
  rewrite no_match_cons in Hno. apply andb_true_iff in Hno as [Hc Hs].
  cbn [re_sub_from]. destruct skip as [|n]; [|exact (IH _ Hs)].
  destruct (run r (c :: s) Some) as [rest|] eqn:Hrun; [exact (IH _ Hs)|].
  rewrite no_match_cons, (IH _ Hs), andb_true_r.
  destruct (matches r' (c :: re_sub_from r [] s 0)) eqn:Hm; [|reflexivity].
  destruct (r'_local _ Hm) as [c' [w [x [Heq [Hw Hall]]]]].
  injection Heq as <- Heq.
  destruct (re_sub_prefix w Hw _ _ Heq) as [y ->].
  rewrite (Hall y) in Hc. discriminate Hc.
Qed.

End Deletion.

Section SelfDeletion.

Variable r : regex.
Hypothesis r_first :
  forall c t rest, run r (c :: t) Some = Some rest ->
                   exists pre, t = pre ++ rest.
Hypothesis r_eol :
  forall s rest, run r s Some = Some rest -> at_line_end rest = true.
Hypothesis r_local :
  forall u, matches r u = true ->
    exists c w x,
      u = c :: w ++ x /\ forallb not_newline w = true
      /\ forall y, matches r (c :: w ++ y) = true.

(** After the matches of [r] have been deleted, [r] matches nowhere. *)
Lemma re_sub_leaves_no_match (s : str) :
  forall skip, no_match r (re_sub_from r [] s skip) = true.
Proof.
  induction s as [|c s IH]; intros skip.
  - destruct (matches r []) eqn:Hm; [|cbn; unfold no_match; cbn;
                                       now rewrite Hm].
    destruct (r_local _ Hm) as [c' [w [x [Heq _]]]]. discriminate Heq.
  - cbn [re_sub_from]. destruct skip as [|n]; [|apply IH].
    destruct (run r (c :: s) Some) as [rest|] eqn:Hrun; [apply IH|].
    rewrite no_match_cons, IH, andb_true_r.
    destruct (matches r (c :: re_sub_from r [] s 0)) eqn:Hm; [|reflexivity].
    destruct (r_local _ Hm) as [c' [w [x [Heq [Hw Hall]]]]].
    injection Heq as <- Heq.
    destruct (re_sub_prefix r r_first r_eol w Hw _ _ Heq) as [y ->].
    specialize (Hall y). unfold matches in Hall. rewrite Hrun in Hall.
    discriminate Hall.
Qed.

End SelfDeletion.

(** ** Patterns that stay on one line *)

(** A match of a one-line pattern is decided by the characters it took:
    they hold no newline, and the pattern matches them again whatever
    follows, as long as the rest of the pattern goes on from there. *)
Lemma one_line_run {A} (r : regex) :
  one_line r ->
  forall (s : str) (k : str -> option A) (x : A),
    run r s k = Some x ->
    exists pre t,
      s = pre ++ t /\ forallb not_newline pre = true /\ k t = Some x
      /\ forall B (y : str) (k' : str -> option B),
           k' y <> None -> run r (pre ++ y) k' <> None.
Proof.
  induction r as [|p|a IHa b IHb|a IHa b IHb|n p]; cbn [one_line run].
  - intros _ s k x H. exists [], s. repeat split; [exact H|].
    intros B y k' Hk. exact Hk.
  - intros Hp s k x. destruct s as [|c t]; [discriminate|].
    destruct (p c) eqn:E; [|discriminate]. intros H.
    exists [c], t. cbn [forallb app]. rewrite (Hp _ E).
    repeat split; [exact H|]. intros B y k' Hk. cbn [run]. now rewrite E.
  - intros [Ha Hb] s k x H.
    destruct (IHa Ha _ _ _ H) as [pre1 [t1 [-> [H1 [Hk1 Hall1]]]]].
    destruct (IHb Hb _ _ _ Hk1) as [pre2 [t2 [-> [H2 [Hk2 Hall2]]]]].
    exists (pre1 ++ pre2), t2. rewrite forallb_app, H1, H2, app_assoc.
    repeat split; [exact Hk2|]. intros B y k' Hk. cbn [run].
    rewrite <- app_assoc. apply Hall1. now apply Hall2.
  - intros [Ha Hb] s k x.
    destruct (run a s k) as [z|] eqn:Ea.
    + intros H. injection H as ->.
      destruct (IHa Ha _ _ _ Ea) as [pre [t [-> [H1 [Hk Hall]]]]].
      exists pre, t. repeat split; [exact H1 | exact Hk|].
      intros B y k' Hk'. cbn [run]. specialize (Hall B y k' Hk').
      destruct (run a (pre ++ y) k'); [discriminate | contradiction].
    + intros H.
      destruct (IHb Hb _ _ _ H) as [pre [t [-> [H1 [Hk Hall]]]]].
      exists pre, t. repeat split; [exact H1 | exact Hk|].
      intros B y k' Hk'. cbn [run].
      destruct (run a (pre ++ y) k'); [discriminate | now apply Hall].
  - intros Hp s k x H.
    destruct (at_least_calls _ _ _ _ _ H) as [ds [t [-> [Hds [Hn Hk]]]]].
    exists ds, t. repeat split; [|exact Hk|].
    + apply forallb_forall. intros c Hc. apply Hp.
      rewrite forallb_forall in Hds. now apply Hds.
    + intros B y k' Hk'. now apply at_least_finds.
Qed.

(** [(\.|\s)] takes exactly one character. *)
Lemma dot_or_space_calls {A} (s : str) (k : str -> option A) (x : A) :
  run dot_or_space s k = Some x ->
  exists c t, s = c :: t /\ k t = Some x
              /\ forall B (y : str) (k' : str -> option B),
                   k' y <> None -> run dot_or_space (c :: y) k' <> None.
Proof.
  unfold dot_or_space, cls_dot, cls_space, chr. cbn [run].
  destruct s as [|c t]; [discriminate|].
  intros H. exists c, t. split; [reflexivity|].
  destruct (char_eqb c ch_dot) eqn:Ed.
  - split.
    + destruct (k t) as [z|]; [exact H|].
      destruct (is_space c); [exact H | discriminate H].
    + intros B y k' Hk'. destruct (k' y); [discriminate | contradiction].
  - destruct (is_space c) eqn:Es; [|discriminate H].
    split; [exact H|]. intros B y k' Hk'. exact Hk'.
Qed.

(** [.*] runs to the end of the line. *)
Lemma any_star_total (s : str) : at_least not_newline 0 s Some <> None.
Proof.
  destruct s as [|c s]; cbn [at_least pred]; [discriminate|].
  destruct (not_newline c); [|discriminate].
  destruct (at_least not_newline 0 s Some); discriminate.
Qed.

Lemma any_star_to_line_end (s rest : str) :
  run any_star s Some = Some rest -> at_line_end rest = true.
Proof.
  unfold any_star. cbn [run]. revert rest.
  induction s as [|c s IH]; intros rest; cbn [at_least pred].
  - intros H. now injection H as <-.
  - destruct (not_newline c) eqn:E.
    + pose proof (any_star_total s) as Ht.
      destruct (at_least not_newline 0 s Some) as [z|] eqn:Er;
        [|contradiction].
      intros H. injection H as ->. now apply IH.
    + intros H. injection H as <-. cbn. unfold not_newline in E.
      now destruct (char_eqb c 10).
Qed.

(** A pattern that ends with one that runs to the end of the line does
    so too. *)
Lemma seq_to_line_end (a b : regex) :
  (forall s rest, run b s Some = Some rest -> at_line_end rest = true) ->
  forall s rest, run (Seq a b) s Some = Some rest -> at_line_end rest = true.
Proof.
  intros Hb s rest H. cbn [run] in H.
  destruct (run_calls _ _ _ _ H) as [pre [t [-> Hk]]].
  exact (Hb _ _ Hk).
Qed.

Section AfterASeparator.

(** The patterns of [enquire] that delete to the end of the line: a dot
    or a white space, then a one-line pattern that ends with [.*]. *)
Variable b : regex.
Hypothesis b_one_line : one_line b.

Lemma separator_first (c : char) (t rest : str) :
  run (Seq dot_or_space b) (c :: t) Some = Some rest ->
  exists pre, t = pre ++ rest.
Proof.
  cbn [run]. intros H.
  destruct (dot_or_space_calls _ _ _ H) as [c' [t' [Heq [Hk _]]]].
  injection Heq as <- <-.
  destruct (run_calls _ _ _ _ Hk) as [pre [t1 [-> H1]]].
  injection H1 as ->. now exists pre.
Qed.

Lemma separator_local (u : str) :
  matches (Seq dot_or_space b) u = true ->
  exists c w x,
    u = c :: w ++ x /\ forallb not_newline w = true
    /\ forall y, matches (Seq dot_or_space b) (c :: w ++ y) = true.
Proof.
  unfold matches. cbn [run].
  destruct (run dot_or_space u _) as [rest|] eqn:H; [|discriminate].
  intros _.
  destruct (dot_or_space_calls _ _ _ H) as [c [t [-> [Hk Hsep]]]].
  destruct (one_line_run b b_one_line _ _ _ Hk)
    as [w [x [-> [Hw [_ Hall]]]]].
  exists c, w, x. repeat split; [exact Hw|].
  intros y.
  assert (Hgo : run dot_or_space (c :: w ++ y) (fun t => run b t Some)
                <> None)
    by (apply Hsep, Hall; discriminate).
  destruct (run dot_or_space (c :: w ++ y) _); [reflexivity | contradiction].
Qed.

End AfterASeparator.

(** ** enquire *)

Lemma set_potential_same (o : IdentifyMedia) :
  potential o = [] -> set_potential [] o = o.
Proof. destruct o. cbn. now intros ->. Qed.

Section EnquireFacts.

Context `{TMDB : Catalog}.

(** A search that finds nothing only prints its line in debug mode. *)
Lemma search_media_fruitless (n : str) (answer : pyval) (o : IdentifyMedia)
  (typed : list str) (out : list line) :
  truthy (name o) = false ->
  catalog_search o (PStr n) = Ok answer ->
  search_media (PStr n) {| self := o; stdin := typed; stdout := out |}
  = (Ok (answer, PStr n),
     {| self := o; stdin := typed;
        stdout := out ++ (if debug o then [searching_for n] else []) |}).
Proof.
  intros Hname Hsearch. unfold search_media, catalog_search in *.
  unfold bind at 1, get_self. cbn [self]. rewrite Hname.
  unfold bind, lift, print, modify, ret.
  destruct (debug o); cbn [self stdin stdout];
    destruct (eq_str (type_ o) (lit "tv"));
    [| destruct (eq_str (type_ o) (lit "movie"))
     | | destruct (eq_str (type_ o) (lit "movie"))];
    rewrite Hsearch, ?app_nil_r; reflexivity.
Qed.

(** With nothing to choose from, the evaluation leaves an object without
    candidates as it is, and the confirmation has nothing to ask. *)
Lemma evaluate_results_fruitless (answer folder : pyval)
  (o : IdentifyMedia) (typed : list str) (out : list line) :
  potential o = [] -> truthy answer = true -> fruitless answer = true ->
  evaluate_results answer folder
    {| self := o; stdin := typed; stdout := out |}
  = (Ok tt, {| self := o; stdin := typed; stdout := out |}).
Proof.
  intros Hpot Htruthy Hfruit. unfold fruitless in Hfruit.
  rewrite Htruthy in Hfruit. cbn [negb orb] in Hfruit.
  destruct answer as [| | | | |l|d]; try discriminate Hfruit.
  destruct (dict_get d (lit "results")) as [[| | | | |[|x l]|]|] eqn:Hd;
    try discriminate Hfruit.
  unfold evaluate_results, bind, lift, set_self, modify.
  cbn [contains getitem]. rewrite Hd. cbn [iterate for_each ret self].
  now rewrite (set_potential_same _ Hpot).
Qed.

Lemma confirm_identity_no_candidates (o : IdentifyMedia)
  (typed : list str) (out : list line) :
  potential o = [] ->
  confirm_identity {| self := o; stdin := typed; stdout := out |}
  = (Ok tt, {| self := o; stdin := typed; stdout := out |}).
Proof.
  intros Hpot. unfold confirm_identity, bind, get_self. cbn [self].
  now rewrite Hpot.
Qed.

Lemma enquire_loop_fruitless (original : str) (o : IdentifyMedia)
  (typed : list str) (attempts : list (regex * str)) :
  truthy (name o) = false -> truthy (results o) = false ->
  truthy (identity o) = false -> potential o = [] ->
  forall (n : str) (out : list line),
    (forall m, In m (tidy_chain attempts n) ->
               exists answer, catalog_search o (PStr m) = Ok answer
                              /\ fruitless answer = true) ->
    enquire_loop original attempts (PStr n)
      {| self := o; stdin := typed; stdout := out |}
    = (Ok tt,
       {| self := o; stdin := typed;
          stdout := out ++ (if debug o
                            then map searching_for (tidy_chain attempts n)
                            else []) |}).
Proof.
  intros Hname Hres Hid Hpot.
  induction attempts as [|[r repl] attempts IH]; intros n out Hall;
    cbn [enquire_loop tidy_chain fst snd].
  - unfold ret. destruct (debug o); cbn [map]; now rewrite app_nil_r.
  - destruct (Hall (re_sub r repl n)) as [answer [Hsearch Hfruit]];
      [now left|].
    assert (Hrest : forall m, In m (tidy_chain attempts (re_sub r repl n)) ->
                              exists answer, catalog_search o (PStr m) = Ok answer
                                             /\ fruitless answer = true)
      by (intros m Hm; apply Hall; now right).
    specialize (IH (re_sub r repl n)
                  (out ++ (if debug o then [searching_for (re_sub r repl n)]
                           else [])) Hrest).
    unfold bind at 1, get_self. cbn [self].
    unfold bind at 1, lift, no_results_yet, or_else. rewrite Hres.
    cbn [negb rbind].
    unfold bind at 1, re_sub_of.
    rewrite (bind_ok _ _ _ _ _
               (search_media_fruitless _ _ _ typed out Hname Hsearch)).
    cbv beta iota.
    assert (Hout : out ++ (if debug o
                           then map searching_for
                                  (re_sub r repl n
                                   :: tidy_chain attempts (re_sub r repl n))
                           else [])
                   = (out ++ (if debug o then [searching_for (re_sub r repl n)]
                              else []))
                     ++ (if debug o
                         then map searching_for
                                (tidy_chain attempts (re_sub r repl n))
                         else [])).
    { destruct (debug o); cbn [map]; [|now rewrite !app_nil_r].
      now rewrite <- app_assoc. }
    rewrite Hout.
    destruct (truthy answer) eqn:Htruthy; [|exact IH].
    rewrite (bind_ok _ _ _ _ _
               (evaluate_results_fruitless _ _ _ _ _ Hpot Htruthy Hfruit)).
    rewrite (bind_ok _ _ _ _ _ (confirm_identity_no_candidates _ _ _ Hpot)).
    unfold bind at 1, get_self. cbn [self]. rewrite Hid. exact IH.
Qed.

(** When the catalog has nothing to choose from for any of the names,
    [enquire] goes through all nine attempts, each with the name the one
    before left, reads nothing from the user and leaves the object as it
    was; in debug mode the nine searches are on the terminal. *)
Theorem enquire_exhausts (o : IdentifyMedia) (typed : list str)
  (out : list line) :
  truthy (name o) = false -> truthy (results o) = false ->
  truthy (identity o) = false -> potential o = [] ->
  (forall m, In m (tidy_names (os_path_basename (item o))) ->
             exists answer, catalog_search o (PStr m) = Ok answer
                            /\ fruitless answer = true) ->
  enquire {| self := o; stdin := typed; stdout := out |}
  = (Ok tt,
     {| self := o; stdin := typed;
        stdout := out ++ (if debug o
                          then map searching_for
                                 (tidy_names (os_path_basename (item o)))
                          else []) |})
  /\ List.length (tidy_names (os_path_basename (item o))) = 9%nat.
Proof.
  intros Hname Hres Hid Hpot Hall. split; [|reflexivity].
  unfold enquire. unfold bind at 1, get_self. cbn [self].
  exact (enquire_loop_fruitless _ o typed _ Hname Hres Hid Hpot _ out Hall).
Qed.

End EnquireFacts.

(** ** The names enquire searches for *)

Lemma is_decimal_not_newline (c : char) :
  is_decimal c = true -> not_newline c = true.
Proof.
  unfold is_decimal, decimal_value.
  destruct (find (fun z => (z <=? c) && (c <=? z + 9)) decimal_zeros)
    as [z|] eqn:E; [|discriminate].
  intros _. apply find_some in E as [Hin E].
  apply andb_true_iff in E as [E _]. apply N.leb_le in E.
  assert (Hz : forallb (fun z => 48 <=? z) decimal_zeros = true)
    by (vm_compute; reflexivity).
  rewrite forallb_forall in Hz. specialize (Hz _ Hin).
  apply N.leb_le in Hz. unfold not_newline, char_eqb.
  destruct (N.eqb_spec c 10); [lia | reflexivity].
Qed.

Lemma letter_not_newline (a b c : char) :
  a <> 10 -> b <> 10 ->
  char_eqb c a || char_eqb c b = true -> not_newline c = true.
Proof.
  intros Ha Hb H. unfold not_newline, char_eqb in *.
  destruct (N.eqb_spec c 10) as [->|]; [|reflexivity].
  apply orb_true_iff in H as [H | H]; apply N.eqb_eq in H; congruence.
Qed.

Lemma season_episode_one_line :
  one_line (Seq cls_sS (Seq digits2 (Seq cls_eE (Seq digits2 any_star)))).
Proof.
  cbn [one_line cls_sS digits2 cls_eE any_star].
  repeat split; intros c H;
    first [ exact (is_decimal_not_newline _ H)
          | exact H
          | refine (letter_not_newline _ _ _ _ _ H); discriminate ].
Qed.

Lemma date_one_line :
  one_line (Seq cls_digit (Seq cls_digit (Seq cls_digit
              (Seq cls_digit any_star)))).
Proof.
  cbn [one_line cls_digit any_star].
  repeat split; intros c H;
    first [ exact (is_decimal_not_newline _ H) | exact H ].
Qed.

Lemma season_episode_to_line_end (s rest : str) :
  run re_season_episode s Some = Some rest -> at_line_end rest = true.
Proof.
  unfold re_season_episode.
  repeat apply seq_to_line_end. apply any_star_to_line_end.
Qed.

Lemma date_to_line_end (s rest : str) :
  run re_date s Some = Some rest -> at_line_end rest = true.
Proof.
  unfold re_date.
  repeat apply seq_to_line_end. apply any_star_to_line_end.
Qed.

(** Once the season and episode have been cut off, cutting off the date
    brings no season and episode back. *)
Lemma season_episode_gone (s : str) :
  no_match re_season_episode
    (re_sub re_date [] (re_sub re_season_episode [] s)) = true.
Proof.
  unfold re_sub.
  apply (re_sub_keeps_no_match re_date
           (separator_first _) date_to_line_end
           re_season_episode (separator_local _ season_episode_one_line)).
  apply (re_sub_leaves_no_match re_season_episode
           (separator_first _) season_episode_to_line_end
           (separator_local _ season_episode_one_line)).
Qed.

(** From the second attempt on, the name [enquire] searches for holds no
    dot: the second attempt turns every dot into a space, and the later
    ones only delete. *)
Theorem tidy_names_without_dots (base : str) (i : nat) (name : str) :
  nth_error (tidy_names base) (S i) = Some name -> ~ In ch_dot name.
Proof.
  unfold tidy_names, tidy_up_text_attempts. cbn [tidy_chain fst snd].
  intros H.
  do 8 (destruct i as [|i];
        [ cbn in H; injection H as <-; unfold re_sub; intros Hin;
          repeat (apply re_sub_from_In in Hin);
          exact (re_sub_dot_no_dot _ _ Hin) |]).
  destruct i; discriminate H.
Qed.

Lemma tidy_names_without_dots_witness :
  nth_error (tidy_names (lit "Show.Name.2019.S02E05.1080p.WEB")) 3
  = Some (lit "Show Name")
  /\ ~ In ch_dot (lit "Show Name").
Proof.
  split; [vm_compute; reflexivity|].
  apply (tidy_names_without_dots (lit "Show.Name.2019.S02E05.1080p.WEB") 2).
  vm_compute. reflexivity.
Defined.

(** The fifth attempt of [enquire] searches for the name of the fourth:
    its pattern is the one of the third attempt, and after the third and
    the fourth attempt it matches nowhere. *)
Theorem tidy_names_fifth_is_fourth (base : str) :
  nth_error (tidy_names base) 4 = nth_error (tidy_names base) 3.
Proof.
  unfold tidy_names, tidy_up_text_attempts.
  cbn [tidy_chain fst snd nth_error]. f_equal.
  apply re_sub_no_match, season_episode_gone.
Qed.

Lemma enquire_exhausts_witness :
  enquire (TMDB := unaired_catalog)
    {| self := init (lit "/media/Show.Name.2019.S02E05.1080p.WEB")
                 PNone PNone PNone true;
       stdin := []; stdout := [] |}
  = (Ok tt,
     {| self := init (lit "/media/Show.Name.2019.S02E05.1080p.WEB")
                  PNone PNone PNone true;
        stdin := [];
        stdout := map searching_for
                    [ lit "Show.Name.2019.S02E05"; lit "Show Name 2019 S02E05";
                      lit "Show Name 2019"; lit "Show Name"; lit "Show Name";
                      lit "Show Name"; lit "Show Name"; lit "Show Name";
                      lit "Show Name" ] |})
  /\ List.length
       (tidy_names (os_path_basename
                      (lit "/media/Show.Name.2019.S02E05.1080p.WEB")))
     = 9%nat.
Proof.
  apply (enquire_exhausts (TMDB := unaired_catalog)
           (init (lit "/media/Show.Name.2019.S02E05.1080p.WEB")
              PNone PNone PNone true) [] []);
    try reflexivity.
  intros m _. exists (search_results []). split; reflexivity.
Defined.

(** ** The catalog client *)

Section ClientFacts.

Import tmdb_api.

Context `{Server : Requests}.

(** What [request] does with a key: one request, and the answer shaped. *)
Lemma request_run (resource : str) (params : list (str * pyval))
  (s : session) :
  let u := {| url_version := api_version (client s);
              url_resource := resource;
              url_key := api_key (client s);
              url_params := params |} in
  api_key (client s) <> [] ->
  request resource params s
  = (rbind (requests_get (sent s) u) (fun answer =>
     rbind (json answer) (fun body =>
       Ok (if (status_code answer =? 200)%Z then body
           else PDict [ (lit "status_code", PInt (status_code answer));
                        (lit "response", body) ]))),
     after_request s u).
Proof.
  intros u Hkey. unfold request, after_request.
  unfold bind at 1, get_client.
  destruct (api_key (client s)) as [|k key] eqn:Ek; [contradiction|].
  fold u. unfold bind, print_request, modify, get, lift, ret.
  destruct (debug (client s)); cbn [sent client shown];
    rewrite ?app_nil_r;
    (destruct (requests_get (sent s) u) as [answer|e]; [|reflexivity]);
    cbn [rbind];
    (destruct (json answer) as [body|e'] eqn:Hjson; [|reflexivity]);
    cbn [rbind]; destruct (status_code answer =? 200)%Z; reflexivity.
Qed.

Lemma request_answered (resource : str) (params : list (str * pyval))
  (s : session) (answer : response) (body : pyval) :
  let u := {| url_version := api_version (client s);
              url_resource := resource;
              url_key := api_key (client s);
              url_params := params |} in
  api_key (client s) <> [] ->
  requests_get (sent s) u = Ok answer ->
  json answer = Ok body ->
  request resource params s
  = (Ok (if (status_code answer =? 200)%Z then body
         else PDict [ (lit "status_code", PInt (status_code answer));
                      (lit "response", body) ]),
     after_request s u).
Proof.
  intros u Hkey Hget Hjson. rewrite (request_run _ _ _ Hkey).
  fold u. rewrite Hget. cbn [rbind]. now rewrite Hjson.
Qed.

Lemma request_without_key (resource : str) (params : list (str * pyval))
  (s : session) :
  api_key (client s) = [] ->
  request resource params s = (Raise ValueError, s).
Proof.
  intros Hkey. unfold request, bind, get_client. now rewrite Hkey.
Qed.

Lemma valid_language_default (params : list (str * pyval)) (s : session) :
  __valid_language [] params s = (Ok params, s).
Proof. reflexivity. Qed.


(** A client that has been constructed has version 3 and the key it was
    given, which is not empty, and the construction has asked for the
    movie 550 with that key, and for nothing else. *)
Theorem TMDB_constructed (key : str) (version : Z) (dbg : bool)
  (s s' : session) :
  __init__ key version dbg s = (Ok tt, s') ->
  version = 3%Z /\ key <> []
  /\ client s' = {| api_version := 3; api_key := key; debug := dbg |}
  /\ sent s' = sent s ++ [ {| url_version := 3;
                              url_resource := lit "/movie/550";
                              url_key := key; url_params := [] |} ].
Proof.
  unfold __init__. unfold bind at 1.
  destruct (Z.eqb_spec version 3) as [->|Hv]; [|discriminate].
  unfold set_client at 1, modify. unfold bind at 1.
  unfold set_client at 1, modify. unfold set_api_key, bind at 1.
  unfold set_client at 1, modify. cbn [client sent shown].
  unfold get_movie. unfold bind at 1. unfold bind at 1.
  rewrite valid_language_default. cbn [truthy].
  destruct key as [|k key].
  { rewrite request_without_key by reflexivity. discriminate. }
  set (s0 := {| client := _; sent := sent s; shown := shown s |}).
  rewrite (request_run (lit "/movie/" ++ str_of_Z 550) [] s0
             ltac:(discriminate)).
  cbn [client sent shown s0 api_version api_key debug
         set_debug set_key set_api_version].
  set (u := {| url_version := 3; url_resource := lit "/movie/" ++ str_of_Z 550;
               url_key := k :: key; url_params := [] |}).
  destruct (requests_get (sent s) u) as [answer|e]; [|discriminate].
  cbn [rbind].
  destruct (json answer) as [body|e]; [|discriminate].
  cbn [rbind].
  set (output := if (status_code answer =? 200)%Z then body else _).
  unfold after_request. cbn [client sent shown s0 api_version api_key debug
                               set_debug set_key set_api_version].
  unfold bind at 1, lift.
  destruct (contains (lit "status_code") output) as [has_code|e];
    [|discriminate].
  unfold bind at 1.
  assert (Hdone : forall s1 s2 : session,
             client s1 = {| api_version := 3; api_key := k :: key;
                            debug := dbg |} ->
             sent s1 = sent s ++ [u] ->
             (ret tt : M session unit) s1 = (Ok tt, s2) ->
             3%Z = 3%Z /\ k :: key <> []
             /\ client s2 = {| api_version := 3; api_key := k :: key;
                               debug := dbg |}
             /\ sent s2 = sent s ++ [u]).
  { intros s1 s2 Hc Hs H. injection H as <-.
    repeat split; [discriminate | exact Hc | exact Hs]. }
  assert (Hfail : forall (s1 s2 : session),
             (bind (set_client (set_key []))
                (fun _ => bind (lift (getitem output (lit "response")))
                   (fun answer0 =>
                      bind (lift (getitem answer0 (lit "status_message")))
                        (fun _ => raise ValueError)))) s1
             <> (Ok tt, s2)).
  { intros s1 s2. unfold bind, set_client, modify, lift, raise.
    destruct (getitem output (lit "response")) as [a|]; [|discriminate].
    destruct (getitem a (lit "status_message")); discriminate. }
  destruct has_code.
  - unfold bind at 1, lift.
    destruct (getitem output (lit "status_code")) as [code|e];
      [|discriminate].
    unfold ret at 1.
    destruct (eq_int code 401).
    + intros H. exfalso. exact (Hfail _ _ H).
    + apply Hdone; reflexivity.
  - unfold ret at 1. apply Hdone; reflexivity.
Qed.

(** Only the answer 401 makes the constructor reject a key: when the
    server answers the check with any other error, the client is built
    with the key as it was given. *)
Theorem TMDB_key_kept_on_server_error (key : str) (dbg : bool)
  (s : session) (answer : response) (body : pyval) :
  let u := {| url_version := 3; url_resource := lit "/movie/550";
              url_key := key; url_params := [] |} in
  key <> [] ->
  requests_get (sent s) u = Ok answer ->
  json answer = Ok body ->
  status_code answer <> 200%Z -> status_code answer <> 401%Z ->
  __init__ key 3 dbg s
  = (Ok tt,
     {| client := {| api_version := 3; api_key := key; debug := dbg |};
        sent := sent s ++ [u];
        shown := shown s ++ (if dbg then [u] else []) |}).
Proof.
  intros u Hkey Hget Hjson H200 H401.
  unfold __init__. unfold bind at 1. cbn [Z.eqb Pos.eqb].
  unfold set_client at 1, modify. unfold bind at 1.
  unfold set_client at 1, modify. unfold set_api_key, bind at 1.
  unfold set_client at 1, modify. cbn [client sent shown].
  unfold get_movie. unfold bind at 1. unfold bind at 1.
  rewrite valid_language_default. cbn [truthy].
  set (s0 := {| client := _; sent := sent s; shown := shown s |}).
  rewrite (request_answered (lit "/movie/" ++ str_of_Z 550) [] s0 answer body
             Hkey Hget Hjson).
  destruct (Z.eqb_spec (status_code answer) 200) as [E|_]; [contradiction|].
  unfold bind, lift, ret. cbn [contains getitem].
  change (dict_get _ (lit "status_code"))
    with (Some (PInt (status_code answer))).
  cbv beta iota. cbn [eq_int].
  destruct (Z.eqb_spec (status_code answer) 401) as [E|_]; [contradiction|].
  reflexivity.
Qed.



Lemma dict_get_results_set (d : list (str * pyval)) (k : str)
  (v x : pyval) :
  dict_get d k = Some v -> dict_get (dict_set d k x) k = Some x.
Proof.
  induction d as [|[k' v'] d IH]; cbn [dict_get dict_set]; [discriminate|].
  destruct (str_eqb k k') eqn:E; cbn [dict_get]; rewrite E; auto.
Qed.




End ClientFacts.

Section SearchMediaCalls.

Context `{Server : tmdb_api.Requests}.

(** The typed searches as [search_media] calls them: with the year
    [None], the default of [IdentifyMedia], they raise [TypeError] before
    anything is sent; with a negative year, the default of the script,
    they send the name without a year. *)
Theorem client_search_year (name : pyval) (s : tmdb_api.session) :
  client_search_tv name PNone s = (Raise TypeError, s)
  /\ client_search_movies name PNone s = (Raise TypeError, s)
  /\ forall y, (y < 0)%Z ->
       client_search_tv name (PInt y) s
       = tmdb_api.request (lit "/search/tv")
           [ (lit "query", name); (lit "include_adult", PBool true) ] s
       /\ client_search_movies name (PInt y) s
          = tmdb_api.request (lit "/search/movie")
              [ (lit "query", name); (lit "include_adult", PBool true) ] s.
Proof.
  split; [reflexivity | split; [reflexivity|]].
  intros y Hy.
  unfold client_search_tv, client_search_movies, tmdb_api.search_tv,
    tmdb_api.search_movies, tmdb_api.set_if_ge_zero.
  cbn [tmdb_api.ge_zero rbind truthy Z.leb Z.compare].
  destruct (Z.leb_spec 0 y) as [H|_]; [lia|].
  unfold bind at 1, lift. unfold bind at 1.
  unfold bind at 3, lift. 
  split; reflexivity.
Qed.

End SearchMediaCalls.

Lemma TMDB_constructed_witness :
  tmdb_api.__init__ (Server := sample_server) (lit "k") 3 false new_session
  = (Ok tt,
     {| tmdb_api.client := {| tmdb_api.api_version := 3;
                              tmdb_api.api_key := lit "k";
                              tmdb_api.debug := false |};
        tmdb_api.sent := [ {| tmdb_api.url_version := 3;
                              tmdb_api.url_resource := lit "/movie/550";
                              tmdb_api.url_key := lit "k";
                              tmdb_api.url_params := [] |} ];
        tmdb_api.shown := [] |})
  /\ (3 = 3)%Z /\ lit "k" <> []
  /\ {| tmdb_api.api_version := 3; tmdb_api.api_key := lit "k";
        tmdb_api.debug := false |}
     = {| tmdb_api.api_version := 3; tmdb_api.api_key := lit "k";
          tmdb_api.debug := false |}
  /\ [ {| tmdb_api.url_version := 3;
          tmdb_api.url_resource := lit "/movie/550";
          tmdb_api.url_key := lit "k"; tmdb_api.url_params := [] |} ]
     = tmdb_api.sent new_session
       ++ [ {| tmdb_api.url_version := 3;
               tmdb_api.url_resource := lit "/movie/550";
               tmdb_api.url_key := lit "k"; tmdb_api.url_params := [] |} ].
Proof.
  split; [reflexivity|].
  apply (TMDB_constructed (Server := sample_server) (lit "k") 3 false
           new_session
           {| tmdb_api.client := {| tmdb_api.api_version := 3;
                                    tmdb_api.api_key := lit "k";
                                    tmdb_api.debug := false |};
              tmdb_api.sent := [ {| tmdb_api.url_version := 3;
                                    tmdb_api.url_resource := lit "/movie/550";
                                    tmdb_api.url_key := lit "k";
                                    tmdb_api.url_params := [] |} ];
              tmdb_api.shown := [] |}).
  reflexivity.
Defined.

Lemma TMDB_key_kept_on_server_error_witness :
  tmdb_api.__init__ (Server := failing_server) (lit "wrong") 3 false
    new_session
  = (Ok tt,
     {| tmdb_api.client := {| tmdb_api.api_version := 3;
                              tmdb_api.api_key := lit "wrong";
                              tmdb_api.debug := false |};
        tmdb_api.sent := [ {| tmdb_api.url_version := 3;
                              tmdb_api.url_resource := lit "/movie/550";
                              tmdb_api.url_key := lit "wrong";
                              tmdb_api.url_params := [] |} ];
        tmdb_api.shown := [] |}).
Proof.
  apply (TMDB_key_kept_on_server_error (Server := failing_server)
           (lit "wrong") false new_session
           {| tmdb_api.status_code := 503;
              tmdb_api.json :=
                Ok (PDict [ (lit "status_message",
                             PStr (lit "Service offline")) ]) |}
           (PDict [ (lit "status_message", PStr (lit "Service offline")) ]));
    first [ reflexivity | discriminate ].
Defined.



Lemma client_search_year_witness :
  client_search_tv (Server := sample_server) (PStr (lit "Show")) (PInt (-1))
    (open_session "k")
  = tmdb_api.request (Server := sample_server) (lit "/search/tv")
      [ (lit "query", PStr (lit "Show")); (lit "include_adult", PBool true) ]
      (open_session "k").
Proof.
  apply (proj2 (proj2 (client_search_year (Server := sample_server)
                         (PStr (lit "Show")) (open_session "k")))
           (-1)%Z).
  lia.
Defined.
